(** * zgrab HTTP result parser of IVRE ([ivre/zgrabout.py])

    A shallow embedding of [zgrap_parser_http] and the Python runtime
    behaviour it relies on: JSON values as loaded by [json.loads],
    dictionaries with insertion order, truthiness, the exceptions raised by
    subscripting, [.get], iteration and string methods, the in-place
    mutation of the caller's [data] dictionary and of the host record, and
    the two regular expressions of the module.

    Strings are Rocq [string]s; a character stands for the Latin-1 code
    point of the same value.  JSON numbers are integers (the fields read by
    the parser are integers in zgrab output). *)

From Stdlib Require Import String Ascii ZArith List Bool Lia Permutation.
Import ListNotations.

Set Warnings "-register-all".

Local Open Scope list_scope.
Local Open Scope string_scope.

(** ** JSON values and Python dictionaries *)

Inductive json : Type :=
| JNull
| JBool (b : bool)
| JNum (n : Z)
| JStr (s : string)
| JArr (l : list json)
| JObj (kvs : list (string * json))
| JMap (kvs : list (json * json)).

(** [JObj] is a Python [dict] with string keys; [JMap] is one some of
    whose keys are not strings.  [json.loads] never builds a [JMap]:
    line 174 does, when an [unknown] entry has a number, a boolean or
    [None] as its [key].  Both keep insertion order. *)

(** A Python [dict] with string keys, in insertion order.  Dictionaries
    produced by [json.loads] have pairwise distinct keys. *)
Definition dict := list (string * json).

Fixpoint dict_lookup (k : string) (d : dict) : option json :=
  match d with
  | [] => None
  | (k', v) :: d' => if String.eqb k k' then Some v else dict_lookup k d'
  end.

Definition dict_mem (k : string) (d : dict) : bool :=
  match dict_lookup k d with Some _ => true | None => false end.

(** [d[k] = v]: an existing key keeps its position, a new key goes last. *)
Fixpoint dict_set (k : string) (v : json) (d : dict) : dict :=
  match d with
  | [] => [(k, v)]
  | (k', v') :: d' =>
      if String.eqb k k' then (k', v) :: d' else (k', v') :: dict_set k v d'
  end.

(** [d.pop(k)] on a present key: the value and the dictionary without it. *)
Fixpoint dict_pop (k : string) (d : dict) : option json * dict :=
  match d with
  | [] => (None, [])
  | (k', v') :: d' =>
      if String.eqb k k' then (Some v', d')
      else let '(o, d'') := dict_pop k d' in (o, (k', v') :: d'')
  end.

(** [d.update(other)] for a dictionary [other]. *)
Definition dict_update (d : dict) (other : dict) : dict :=
  fold_left (fun acc kv => dict_set (fst kv) (snd kv) acc) other d.

(** Python's [==] between two hashable keys: a string equals only the
    same string, [True == 1], [False == 0], and [None] equals itself. *)
Definition key_eqb (a b : json) : bool :=
  match a, b with
  | JStr x, JStr y => String.eqb x y
  | JNum x, JNum y => Z.eqb x y
  | JBool x, JBool y => Bool.eqb x y
  | JNum x, JBool y | JBool y, JNum x => Z.eqb x (if y then 1 else 0)
  | JNull, JNull => true
  | _, _ => false
  end.

(** The same operations on a dict with keys of any hashable type. *)
Fixpoint map_lookup (k : json) (kvs : list (json * json)) : option json :=
  match kvs with
  | [] => None
  | (k', v) :: kvs' => if key_eqb k k' then Some v else map_lookup k kvs'
  end.

(** [d[k] = v]: an existing key keeps its position and its key object. *)
Fixpoint map_set (k v : json) (kvs : list (json * json)) : list (json * json) :=
  match kvs with
  | [] => [(k, v)]
  | (k', v') :: kvs' =>
      if key_eqb k k' then (k', v) :: kvs' else (k', v') :: map_set k v kvs'
  end.

Fixpoint map_pop (k : json) (kvs : list (json * json))
    : option json * list (json * json) :=
  match kvs with
  | [] => (None, [])
  | (k', v') :: kvs' =>
      if key_eqb k k' then (Some v', kvs')
      else let '(o, kvs'') := map_pop k kvs' in (o, (k', v') :: kvs'')
  end.

(** The value of a string key in a dict of either kind. *)
Definition lookup_key (k : string) (j : json) : option json :=
  match j with
  | JObj d => dict_lookup k d
  | JMap kvs => map_lookup (JStr k) kvs
  | _ => None
  end.

(** The value is a dict of either kind. *)
Definition is_dict (j : json) : bool :=
  match j with JObj _ | JMap _ => true | _ => false end.

(** The items of a string-keyed dict, with their keys as values. *)
Definition str_keys (d : dict) : list (json * json) :=
  map (fun kv => (JStr (fst kv), snd kv)) d.

(** Python truthiness. *)
Definition truthy (j : json) : bool :=
  match j with
  | JNull => false
  | JBool b => b
  | JNum n => negb (Z.eqb n 0)
  | JStr s => negb (String.eqb s "")
  | JArr l => match l with [] => false | _ => true end
  | JObj kvs => match kvs with [] => false | _ => true end
  | JMap kvs => match kvs with [] => false | _ => true end
  end.

(** [j == "s"] and [j == n] (no JSON value other than a string equals a
    string, and [True == 1] is irrelevant for the constants compared). *)
Definition is_str (s : string) (j : json) : bool :=
  match j with JStr s' => String.eqb s s' | _ => false end.

Definition is_num (n : Z) (j : json) : bool :=
  match j with JNum m => Z.eqb n m | _ => false end.

Definition is_none (j : json) : bool :=
  match j with JNull => true | _ => false end.

(** ** Exceptions, warnings and the state of a call *)

Inductive exn : Type :=
| KeyError | TypeError | AttributeError | ValueError | IndexError
| CollaboratorError.

Definition exn_eqb (a b : exn) : bool :=
  match a, b with
  | KeyError, KeyError | TypeError, TypeError
  | AttributeError, AttributeError | ValueError, ValueError
  | IndexError, IndexError | CollaboratorError, CollaboratorError => true
  | _, _ => false
  end.

(** What [utils.LOGGER.warning] receives: the missing [response] field, or
    the set of missing fields of the response, in set iteration order. *)
Inductive warning : Type :=
| MissingResponse
| MissingFields (fields : list string).

Inductive outcome (A : Type) : Type :=
| Ret (a : A)
| Raise (e : exn).
Arguments Ret {A} a.
Arguments Raise {A} e.

(** The objects a call can mutate or observe: the caller's [data]
    dictionary, the caller's host record [hostrec], and the log. *)
Record state : Type := mkState {
  st_data : dict;
  st_hostrec : dict;
  st_log : list warning
}.

Definition M (A : Type) : Type := state -> outcome A * state.

Definition ret {A} (a : A) : M A := fun s => (Ret a, s).
Definition raise {A} (e : exn) : M A := fun s => (Raise e, s).
Definition bind {A B} (m : M A) (k : A -> M B) : M B :=
  fun s =>
    match m s with
    | (Ret a, s') => k a s'
    | (Raise e, s') => (Raise e, s')
    end.

Notation "x <- m ;; k" := (bind m (fun x => k))
  (at level 61, m at next level, right associativity).
Notation "' p <- m ;; k" := (bind m (fun x => match x with p => k end))
  (at level 61, p pattern, m at next level, right associativity).
Notation "m ;; k" := (bind m (fun _ => k))
  (at level 61, right associativity).

Definition lift {A} (o : outcome A) : M A := fun s => (o, s).

(** [try: m except e: h] *)
Definition try_except {A} (m : M A) (e : exn) (h : M A) : M A :=
  fun s =>
    match m s with
    | (Raise e', s') => if exn_eqb e e' then h s' else (Raise e', s')
    | r => r
    end.

Definition get_data : M dict := fun s => (Ret (st_data s), s).
Definition put_data (d : dict) : M unit :=
  fun s => (Ret tt, mkState d (st_hostrec s) (st_log s)).
Definition get_hostrec : M dict := fun s => (Ret (st_hostrec s), s).
Definition put_hostrec (h : dict) : M unit :=
  fun s => (Ret tt, mkState (st_data s) h (st_log s)).
Definition warn (w : warning) : M unit :=
  fun s => (Ret tt, mkState (st_data s) (st_hostrec s) ((st_log s ++ [w])%list)).

(** ** Python operations on JSON values *)

(** [j[k]] with a string key. *)
Definition getitem (j : json) (k : string) : outcome json :=
  match j with
  | JObj d => match dict_lookup k d with Some v => Ret v | None => Raise KeyError end
  | JMap kvs =>
      match map_lookup (JStr k) kvs with Some v => Ret v | None => Raise KeyError end
  | _ => Raise TypeError
  end.

(** [j.get(k, default)]; only a dict has [.get]. *)
Definition dget (j : json) (k : string) (default : json) : outcome json :=
  match j with
  | JObj d => match dict_lookup k d with Some v => Ret v | None => Ret default end
  | JMap kvs =>
      match map_lookup (JStr k) kvs with Some v => Ret v | None => Ret default end
  | _ => Raise AttributeError
  end.

Fixpoint chars (s : string) : list json :=
  match s with
  | EmptyString => []
  | String c s' => JStr (String c EmptyString) :: chars s'
  end.

(** [iter(j)]: keys of a dict, items of a list, characters of a string. *)
Definition py_iter (j : json) : outcome (list json) :=
  match j with
  | JObj d => Ret (map (fun kv => JStr (fst kv)) d)
  | JMap kvs => Ret (map fst kvs)
  | JArr l => Ret l
  | JStr s => Ret (chars s)
  | _ => Raise TypeError
  end.

(** [hashable(j)]: lists and dicts are not. *)
Definition hashable (j : json) : bool :=
  match j with JArr _ | JObj _ | JMap _ => false | _ => true end.

Fixpoint contains_substring (needle hay : string) : bool :=
  if String.prefix needle hay then true
  else match hay with
       | EmptyString => false
       | String _ hay' => contains_substring needle hay'
       end.

(** [needle in j] for a string [needle]. *)
Definition py_in (needle : string) (j : json) : outcome bool :=
  match j with
  | JObj d => Ret (dict_mem needle d)
  | JMap kvs => Ret (existsb (fun kv => key_eqb (JStr needle) (fst kv)) kvs)
  | JArr l => Ret (existsb (is_str needle) l)
  | JStr s => Ret (contains_substring needle s)
  | _ => Raise TypeError
  end.

Definition str_endswith_s (s suffix : string) : bool :=
  let n := String.length s in
  let m := String.length suffix in
  (m <=? n)%nat && String.eqb (substring (n - m) m s) suffix.

(** [j.startswith(p)] and [j.endswith(p)]: only strings have them. *)
Definition py_startswith (j : json) (p : string) : outcome bool :=
  match j with JStr s => Ret (String.prefix p s) | _ => Raise AttributeError end.

Definition py_endswith (j : json) (p : string) : outcome bool :=
  match j with JStr s => Ret (str_endswith_s s p) | _ => Raise AttributeError end.

(** [s[:-k]] *)
Definition drop_last (k : nat) (s : string) : string :=
  substring 0 (String.length s - k) s.

(** [j.encode()]: only strings have it. *)
Definition py_encode (j : json) : outcome string :=
  match j with JStr s => Ret s | _ => Raise AttributeError end.

(** ** String formatting *)

Definition digit_char (d : Z) : ascii := ascii_of_nat (48 + Z.to_nat d).

Fixpoint pos_digits (fuel : nat) (n : Z) (acc : string) : string :=
  match fuel with
  | O => acc
  | S f =>
      let acc' := String (digit_char (n mod 10)) acc in
      if Z.ltb n 10 then acc' else pos_digits f (n / 10) acc'
  end.

(** ['%d' % n] *)
Definition z_dec (n : Z) : string :=
  if Z.ltb n 0 then String "-" (pos_digits (S (Z.to_nat (- n))) (- n) "")
  else pos_digits (S (Z.to_nat n)) n "".

Fixpoint join (sep : string) (l : list string) : string :=
  match l with
  | [] => ""
  | [x] => x
  | x :: l' => x ++ sep ++ join sep l'
  end.

(** [s.replace(a, b)] for one-character [a] and [b]. *)
Fixpoint replace_char (a b : ascii) (s : string) : string :=
  match s with
  | EmptyString => EmptyString
  | String c s' =>
      String (if Ascii.eqb c a then b else c) (replace_char a b s')
  end.

Definition nibble (n : nat) : ascii :=
  if (n <? 10)%nat then ascii_of_nat (48 + n) else ascii_of_nat (87 + n).

Definition dquote : ascii := ascii_of_nat 34.

(** [repr] of a string: single quotes unless the string has a single
    quote and no double quote; backslash, the quote, [\t \n \r] and the
    other non-printable code points are escaped. *)
Definition repr_str (s : string) : string :=
  let sq := contains_substring "'" s in
  let dq := contains_substring (String dquote EmptyString) s in
  let q : ascii := if sq && negb dq then dquote else "'"%char in
  let fix esc (s : string) : string :=
    match s with
    | EmptyString => EmptyString
    | String c s' =>
        let n := nat_of_ascii c in
        let e :=
          if Ascii.eqb c "\"%char then "\\"
          else if Ascii.eqb c q then String "\" (String c EmptyString)
          else if Ascii.eqb c (ascii_of_nat 9) then "\t"
          else if Ascii.eqb c (ascii_of_nat 10) then "\n"
          else if Ascii.eqb c (ascii_of_nat 13) then "\r"
          else if (n <? 32)%nat || ((127 <=? n)%nat && (n <=? 160)%nat)
                  || (n =? 173)%nat
          then String "\" (String "x" (String (nibble (n / 16))
                 (String (nibble (n mod 16)) EmptyString)))
          else String c EmptyString in
        e ++ esc s'
    end in
  String q (esc s ++ String q EmptyString).

(** [repr(j)] and [str(j)] (the conversion of ['%s' % j]). *)
Fixpoint py_repr (j : json) : string :=
  match j with
  | JNull => "None"
  | JBool true => "True"
  | JBool false => "False"
  | JNum n => z_dec n
  | JStr s => repr_str s
  | JArr l => "[" ++ join ", " (map py_repr l) ++ "]"
  | JObj d =>
      "{" ++ join ", " (map (fun '(k, v) => repr_str k ++ ": " ++ py_repr v) d)
      ++ "}"
  | JMap kvs =>
      "{" ++ join ", " (map (fun '(k, v) => py_repr k ++ ": " ++ py_repr v) kvs)
      ++ "}"
  end.

Definition py_str (j : json) : string :=
  match j with JStr s => s | _ => py_repr j end.

(** ** [int(s)] for a string [s] *)

Definition is_digit (c : ascii) : bool :=
  let n := nat_of_ascii c in (48 <=? n)%nat && (n <=? 57)%nat.

Definition digit_val (c : ascii) : Z := Z.of_nat (nat_of_ascii c - 48).

(** [str.isspace] on Latin-1 code points. *)
Definition is_space (c : ascii) : bool :=
  let n := nat_of_ascii c in
  ((9 <=? n)%nat && (n <=? 13)%nat) || ((28 <=? n)%nat && (n <=? 32)%nat)
  || (n =? 133)%nat || (n =? 160)%nat.

Fixpoint lstrip (l : list ascii) : list ascii :=
  match l with
  | c :: l' => if is_space c then lstrip l' else l
  | [] => []
  end.

Definition strip (l : list ascii) : list ascii := rev (lstrip (rev (lstrip l))).

(** Decimal digits, an underscore allowed only between two digits. *)
Fixpoint parse_digits (l : list ascii) (acc : Z) (after_digit : bool) : option Z :=
  match l with
  | [] => if after_digit then Some acc else None
  | c :: l' =>
      if is_digit c then parse_digits l' (acc * 10 + digit_val c)%Z true
      else if Ascii.eqb c "_" && after_digit then parse_digits l' acc false
      else None
  end.

(** [int(s)]; [None] is the [ValueError]. *)
Definition py_int (s : string) : option Z :=
  match strip (list_ascii_of_string s) with
  | c :: r =>
      if Ascii.eqb c "-" then option_map Z.opp (parse_digits r 0 false)
      else if Ascii.eqb c "+" then parse_digits r 0 false
      else parse_digits (c :: r) 0 false
  | [] => None
  end.

Fixpoint after_first (c : ascii) (s : string) : option string :=
  match s with
  | EmptyString => None
  | String c' s' => if Ascii.eqb c c' then Some s' else after_first c s'
  end.

(** [j.split(':', 1)[1]] *)
Definition py_split_colon_1 (j : json) : outcome string :=
  match j with
  | JStr s =>
      match after_first ":" s with Some t => Ret t | None => Raise IndexError end
  | _ => Raise AttributeError
  end.

Definition drop (n : nat) (s : string) : string :=
  substring n (String.length s - n) s.

(** ** The OWA version expression

    [_EXPR_OWA_VERSION]: a double quote, then [/owa/(?:auth/)?], then the
    group [((?:[0-9]+\.)+[0-9]+)], then [/].
    The group can only hold digits and dots and must be followed by ['/'],
    so it is the longest run of digits and dots, which must have the shape
    [D+(\.D+)+]; the optional [auth/] is tried first. *)

Fixpoint span_version (s : string) : string * string :=
  match s with
  | String c s' =>
      if is_digit c || Ascii.eqb c "." then
        let '(v, r) := span_version s' in (String c v, r)
      else (EmptyString, s)
  | EmptyString => (EmptyString, EmptyString)
  end.

Fixpoint split_char (sep : ascii) (s : string) : list string :=
  match s with
  | EmptyString => [EmptyString]
  | String c s' =>
      if Ascii.eqb c sep then EmptyString :: split_char sep s'
      else match split_char sep s' with
           | w :: ws => String c w :: ws
           | [] => [String c EmptyString]
           end
  end.

Definition all_digits (s : string) : bool :=
  negb (String.eqb s "") && forallb is_digit (list_ascii_of_string s).

Definition version_shape (v : string) : bool :=
  let parts := split_char "." v in
  (2 <=? List.length parts)%nat && forallb all_digits parts.

Definition version_at (r : string) : option (string * string) :=
  let '(v, rest) := span_version r in
  match rest with
  | String c rest' =>
      if Ascii.eqb c "/" && version_shape v then Some (v, rest') else None
  | EmptyString => None
  end.

Definition owa_prefix : string := String dquote "/owa/".

Definition owa_at (s : string) : option (string * string) :=
  if String.prefix owa_prefix s then
    let r := drop 6 s in
    if String.prefix "auth/" r then
      match version_at (drop 5 r) with
      | Some m => Some m
      | None => version_at r
      end
    else version_at r
  else None.

(** [m.group(1) for m in _EXPR_OWA_VERSION.finditer(s)] *)
Fixpoint owa_finditer_fuel (fuel : nat) (s : string) : list string :=
  match fuel with
  | O => []
  | S f =>
      match owa_at s with
      | Some (v, rest) => v :: owa_finditer_fuel f rest
      | None =>
          match s with
          | EmptyString => []
          | String _ s' => owa_finditer_fuel f s'
          end
      end
  end.

Definition owa_finditer (s : string) : list string :=
  owa_finditer_fuel (S (String.length s)) s.

(** [[int(x) for x in v.split('.')]] for a matched version. *)
Definition digits_val (s : string) : Z :=
  fold_left (fun acc c => (acc * 10 + digit_val c)%Z) (list_ascii_of_string s) 0%Z.

Definition version_key (v : string) : list Z := map digits_val (split_char "." v).

(** Python comparison of two lists of ints. *)
Fixpoint lex_ltb (a b : list Z) : bool :=
  match a, b with
  | [], [] => false
  | [], _ :: _ => true
  | _ :: _, [] => false
  | x :: a', y :: b' =>
      if Z.ltb x y then true else if Z.ltb y x then false else lex_ltb a' b'
  end.

Fixpoint insert_version (v : string) (l : list string) : list string :=
  match l with
  | [] => [v]
  | w :: l' =>
      if lex_ltb (version_key v) (version_key w) then v :: l
      else w :: insert_version v l'
  end.

(** [sorted(vs, key=version_key)]: a stable sort. *)
Definition sort_versions (vs : list string) : list string :=
  fold_left (fun acc v => insert_version v acc) vs [].

(** The distinct elements, in first-occurrence order. *)
Fixpoint dedup_strings (l : list string) : list string :=
  match l with
  | [] => []
  | x :: l' => x :: filter (fun y => negb (String.eqb x y)) (dedup_strings l')
  end.

(** ** The title expression

    [_EXPR_TITLE]: [<title], any run without ['>'], ['>'], the group (a
    run without ['<']), [</title>], ignoring case.  The first run reaches
    the first ['>'], and the group is the longest run
    without ['<'], which must be followed by [</title>]: no backtracking
    choice is left, and [search] returns the leftmost match. *)

Definition lower (c : ascii) : ascii :=
  let n := nat_of_ascii c in
  if (65 <=? n)%nat && (n <=? 90)%nat then ascii_of_nat (n + 32) else c.

(** [p] (lower case) is a prefix of [s], ignoring ASCII case. *)
Fixpoint prefix_ci (p s : string) : bool :=
  match p, s with
  | EmptyString, _ => true
  | String a p', String b s' => Ascii.eqb a (lower b) && prefix_ci p' s'
  | String _ _, EmptyString => false
  end.

Fixpoint span_not (c : ascii) (s : string) : string * string :=
  match s with
  | String c' s' =>
      if Ascii.eqb c c' then (EmptyString, s)
      else let '(t, r) := span_not c s' in (String c' t, r)
  | EmptyString => (EmptyString, EmptyString)
  end.

Definition title_at (s : string) : option string :=
  if prefix_ci "<title" s then
    match after_first ">" (drop 6 s) with
    | Some r =>
        let '(t, rest) := span_not "<" r in
        if prefix_ci "</title>" rest then Some t else None
    | None => None
    end
  else None.

(** [_EXPR_TITLE.search(s).groups()[0]] *)
Fixpoint title_search (s : string) : option string :=
  match title_at s with
  | Some t => Some t
  | None =>
      match s with
      | EmptyString => None
      | String _ s' => title_search s'
      end
  end.

Definition nl : string := String (ascii_of_nat 10) EmptyString.
Definition crlf : string := String (ascii_of_nat 13) nl.

(** ** [data.update(other)] *)

(** One element of a sequence given to [dict.update]: an iterable of length
    two.  A key that is not a string cannot be a key of [dict] here; such an
    element is reported as a [TypeError].  Python raises one for a list or
    dict key, which is unhashable, but stores a number, a boolean or [None]
    and goes on: for those, the model stops where Python does not. *)
Definition as_pair (item : json) : outcome (string * json) :=
  match item with
  | JArr [JStr k; v] => Ret (k, v)
  | JArr [_; _] => Raise TypeError
  | JArr _ => Raise ValueError
  | JStr (String a (String b EmptyString)) =>
      Ret (String a EmptyString, JStr (String b EmptyString))
  | JStr _ => Raise ValueError
  | JObj [(k1, _); (k2, _)] => Ret (k1, JStr k2)
  | JObj _ => Raise ValueError
  | JMap [(JStr k1, _); (k2, _)] => Ret (k1, k2)
  | JMap [_; _] => Raise TypeError
  | JMap _ => Raise ValueError
  | _ => Raise TypeError
  end.

Fixpoint update_pairs (items : list json) : M unit :=
  match items with
  | [] => ret tt
  | it :: its =>
      '(k, v) <- lift (as_pair it) ;;
      d <- get_data ;;
      put_data (dict_set k v d) ;;
      update_pairs its
  end.

Definition update_data (other : json) : M unit :=
  match other with
  | JObj o => d <- get_data ;; put_data (dict_update d o)
  | JMap o => update_pairs (map (fun kv => JArr [fst kv; snd kv]) o)
  | JArr items => update_pairs items
  | JStr s => update_pairs (chars s)
  | _ => raise TypeError
  end.

(** ** Scripts and the service record *)

Definition needed_fields : list string := ["request"; "status_code"; "status_line"].

Definition base_res : dict :=
  [("service_name", JStr "http"); ("service_method", JStr "probed");
   ("state_state", JStr "open"); ("state_reason", JStr "response");
   ("protocol", JStr "tcp")].

(** [res.setdefault('scripts', []).append(s)] *)
Definition append_script (res : dict) (s : json) : outcome dict :=
  match dict_lookup "scripts" res with
  | None => Ret (dict_set "scripts" (JArr [s]) res)
  | Some (JArr l) => Ret (dict_set "scripts" (JArr (app l [s])) res)
  | Some _ => Raise AttributeError
  end.

Definition script3 (id : string) (output payload : json) : json :=
  JObj [("id", JStr id); ("output", output); (id, payload)].

Definition git_script (repository : string) : json :=
  script3 "http-git"
    (JStr (nl ++ "  " ++ repository ++ nl ++ "    Git repository found!" ++ nl))
    (JArr [JObj [("repository", JStr repository);
                 ("files-found", JArr [JStr ".git/index"])]]).

Definition owa_output (path : string) (versions : list string) : string :=
  if (1 <? List.length versions)%nat then
    "OWA: path " ++ path ++ ", version " ++ join " / " versions
    ++ " (multiple versions found!)"
  else "OWA: path " ++ path ++ ", version " ++ hd "" versions.

Definition owa_script (path output version : string) : json :=
  script3 "http-app" (JStr output)
    (JArr [JObj [("path", JStr path); ("application", JStr "OWA");
                 ("version", JStr version)]]).

Definition status_entry (line : string) : json :=
  JObj [("name", JStr "_status"); ("value", JStr line)].

Definition header_entry (hdr : string) (v : json) : json :=
  JObj [("name", JStr hdr); ("value", v)].

(** The loop over [viewitems(headers)]: for every header and every value,
    one structured entry and one output line.  Only a string has
    [replace]. *)
Fixpoint header_entries (items : list (json * json)) (http_hdrs : list json)
    (output : list string) : outcome (list json * list string) :=
  match items with
  | [] => Ret (http_hdrs, output)
  | (JStr hdr, values) :: rest =>
      let hdr := replace_char "_" "-" hdr in
      match py_iter values with
      | Raise e => Raise e
      | Ret vals =>
          header_entries rest (app http_hdrs (map (header_entry hdr) vals))
            (app output (map (fun v => hdr ++ ": " ++ py_str v) vals))
      end
  | (_, _) :: _ => Raise AttributeError
  end.

(** [viewitems(headers)]: only a dict has [items]. *)
Definition py_items (j : json) : outcome (list (json * json)) :=
  match j with
  | JObj d => Ret (str_keys d)
  | JMap kvs => Ret kvs
  | _ => Raise AttributeError
  end.

(** [h[k] = v] on a dict [h]: a key that is a list or a dict is not
    hashable; a number, a boolean or [None] makes [h] a [JMap]. *)
Definition py_setitem (h k v : json) : outcome json :=
  match h, k with
  | JObj d, JStr s => Ret (JObj (dict_set s v d))
  | JObj d, (JNull | JBool _ | JNum _) => Ret (JMap (map_set k v (str_keys d)))
  | JMap kvs, (JNull | JBool _ | JNum _ | JStr _) => Ret (JMap (map_set k v kvs))
  | _, _ => Raise TypeError
  end.

(** [r['headers'] = h] on a dict [r]. *)
Definition set_headers (r h : json) : json :=
  match r with
  | JObj d => JObj (dict_set "headers" h d)
  | JMap kvs => JMap (map_set (JStr "headers") h kvs)
  | _ => r
  end.

(** [h.pop(k)] on a dict: the value, if any, and the dict without it. *)
Definition py_pop (k : string) (h : json) : option json * json :=
  match h with
  | JObj d => let '(o, d1) := dict_pop k d in (o, JObj d1)
  | JMap kvs => let '(o, kvs1) := map_pop (JStr k) kvs in (o, JMap kvs1)
  | _ => (None, h)
  end.

(** [server[0]] *)
Definition py_index0 (j : json) : outcome json :=
  match j with
  | JArr (x :: _) => Ret x
  | JArr [] => Raise IndexError
  | JStr (String c _) => Ret (JStr (String c EmptyString))
  | JStr EmptyString => Raise IndexError
  | JObj _ => Raise KeyError
  | JMap kvs => match map_lookup (JNum 0) kvs with Some v => Ret v | None => Raise KeyError end
  | _ => Raise TypeError
  end.

(** The subject of [re.finditer] and [re.search] must be a [str]. *)
Definition regex_subject (j : json) : outcome string :=
  match j with JStr s => Ret s | _ => Raise TypeError end.

(** ** Collaborators

    The functions the module imports from [ivre.utils] and [ivre.xmlnmap]
    (their code is not part of this file), and the iteration order of a
    Python [set] of strings, which depends on string hashing. *)
Record env : Type := mkEnv {
  create_ssl_cert : string -> string * list json;
  add_cert_hostnames : json -> json -> outcome json;
  nmap_decode_data : json -> outcome string;
  nmap_encode_data : string -> string;
  match_nmap_svc_fp : string -> dict;
  create_http_ls : json -> json -> option json;
  set_order : list string -> list string
}.

Section Parser.

Variable E : env.

(** [hostrec.setdefault('hostnames', [])] followed by
    [add_cert_hostnames(cert, ...)], which extends that list in place; the
    collaborator returns the list as it leaves it. *)
Fixpoint add_hostnames (certs : list json) : M unit :=
  match certs with
  | [] => ret tt
  | cert :: certs' =>
      hr <- get_hostrec ;;
      let h := match dict_lookup "hostnames" hr with Some h => h | None => JArr [] end in
      put_hostrec (if dict_mem "hostnames" hr then hr else dict_set "hostnames" h hr) ;;
      h' <- lift (add_cert_hostnames E cert h) ;;
      hr' <- get_hostrec ;;
      put_hostrec (dict_set "hostnames" h' hr') ;;
      add_hostnames certs'
  end.

(** Lines 70-95: TLS handshake data under [tls_handshake] (zgrab) or
    [tls_log.handshake_log] (zgrab2). *)
Definition tls_stage (req : json) (res : dict) : M dict :=
  tls <- try_except (lift (getitem req "tls_handshake")) KeyError
           (try_except (l <- lift (getitem req "tls_log") ;;
                        lift (getitem l "handshake_log"))
                       KeyError (ret JNull)) ;;
  if is_none tls then ret res else
  let res := dict_set "service_tunnel" (JStr "ssl") res in
  cert <- try_except (c1 <- lift (getitem tls "server_certificates") ;;
                      c2 <- lift (getitem c1 "certificate") ;;
                      c3 <- lift (getitem c2 "raw") ;;
                      ret (Some c3))
                     KeyError (ret None) ;;
  match cert with
  | None => ret res
  | Some cert =>
      raw <- lift (py_encode cert) ;;
      let '(output, info) := create_ssl_cert E raw in
      match info with
      | [] => ret res
      | _ :: _ =>
          res <- lift (append_script res (script3 "ssl-cert" (JStr output) (JArr info))) ;;
          add_hostnames info ;;
          ret res
      end
  end.

(** What the function knows after line 95. *)
Record ctx : Type := mkCtx {
  c_resp : json;
  c_req : json;
  c_url : json;
  c_res : dict
}.

(** Lines 47-95; [None] is an early [return {}]. *)
Definition prologue : M (option ctx) :=
  d0 <- get_data ;;
  match d0 with
  | [] => ret None
  | _ :: _ =>
      (if dict_mem "result" d0 then
         let '(v, d1) := dict_pop "result" d0 in
         put_data d1 ;;
         update_data (match v with Some v => v | None => JNull end)
       else ret tt) ;;
      d <- get_data ;;
      match dict_lookup "response" d with
      | None => warn MissingResponse ;; ret None
      | Some resp =>
          present <- lift (py_iter resp) ;;
          if forallb hashable present then
            let missing :=
              filter (fun f => negb (existsb (is_str f) present)) needed_fields in
            match missing with
            | [] =>
                req <- lift (getitem resp "request") ;;
                url <- lift (dget req "url" JNull) ;;
                res <- tls_stage req base_res ;;
                ret (Some (mkCtx resp req url res))
            | _ :: _ => warn (MissingFields (set_order E missing)) ;; ret None
            end
          else raise TypeError
      end
  end.

(** Lines 97-107. *)
Definition url_port (url : json) : M Z :=
  host <- lift (dget url "host" (JStr "")) ;;
  has_colon <- lift (py_in ":" host) ;;
  port <- (if has_colon then
             try_except
               (h <- lift (getitem url "host") ;;
                t <- lift (py_split_colon_1 h) ;;
                match py_int t with
                | Some n => ret (Some n)
                | None => raise ValueError
                end)
               ValueError (ret None)
           else ret None) ;;
  match port with
  | Some n => ret n
  | None =>
      scheme <- lift (dget url "scheme" JNull) ;;
      ret (if is_str "https" scheme then 443%Z else 80%Z)
  end.

(** Lines 109-125; [p] is [url['path']]. *)
Definition git_branch (resp url : json) (res : dict) (port : Z) (p : string) : M dict :=
  sc <- lift (dget resp "status_code" JNull) ;;
  if negb (is_num 200 sc) then ret [] else
  body <- lift (dget resp "body" (JStr "")) ;;
  ok <- lift (py_startswith body "DIRC") ;;
  if negb ok then ret [] else
  hr <- get_hostrec ;;
  addr <- lift (getitem (JObj hr) "addr") ;;
  let repository := py_str addr ++ ":" ++ z_dec port ++ drop_last 5 p in
  let res := dict_set "port" (JNum port) res in
  lift (append_script res (git_script repository)).

(** Lines 126-155. *)
Definition owa_branch (resp : json) (res : dict) (port : Z) (p : string) : M dict :=
  sc <- lift (dget resp "status_code" JNull) ;;
  if negb (is_num 200 sc) then ret [] else
  body <- lift (dget resp "body" (JStr "")) ;;
  b <- lift (regex_subject body) ;;
  match set_order E (dedup_strings (owa_finditer b)) with
  | [] => ret []
  | version :: versions =>
      let sorted := sort_versions (version :: versions) in
      let res := dict_set "port" (JNum port) res in
      let path := drop_last 15 p in
      lift (append_script res
              (owa_script path (owa_output path sorted) (hd "" sorted)))
  end.

(** [data['response']['headers'] = h]: [headers] is the object stored in
    the caller's [data], so its mutation is visible there. *)
Definition write_headers (h : json) : M unit :=
  d <- get_data ;;
  match dict_lookup "response" d with
  | Some ((JObj _ | JMap _) as r) => put_data (dict_set "response" (set_headers r h) d)
  | _ => ret tt
  end.

(** [headers[unk['key']] = unk['value']] for each [unk]: the right-hand
    side is evaluated first. *)
Fixpoint assign_unknown (h : json) (unks : list json) : M json :=
  match unks with
  | [] => ret h
  | u :: us =>
      v <- lift (getitem u "value") ;;
      k <- lift (getitem u "key") ;;
      h <- lift (py_setitem h k v) ;;
      write_headers h ;;
      assign_unknown h us
  end.

(** Lines 173-174. *)
Definition flatten_unknown (headers : json) : M json :=
  match headers with
  | JObj _ | JMap _ =>
      let '(v, h1) := py_pop "unknown" headers in
      write_headers h1 ;;
      unks <- lift (py_iter (match v with Some v => v | None => JNull end)) ;;
      assign_unknown h1 unks
  | JArr _ => raise TypeError
  | _ => raise AttributeError
  end.

(** Lines 167-196. *)
Definition headers_stage (resp req : json) (res : dict) (banner : string)
    : M (dict * string) :=
  headers <- lift (getitem resp "headers") ;;
  proto <- lift (getitem resp "protocol") ;;
  pname <- lift (getitem proto "name") ;;
  sl <- lift (getitem resp "status_line") ;;
  let line := py_str pname ++ " " ++ py_str sl in
  has_unk <- lift (py_in "unknown" headers) ;;
  headers <- (if has_unk then flatten_unknown headers else ret headers) ;;
  items <- lift (py_items headers) ;;
  '(http_hdrs, output) <- lift (header_entries items [status_entry line] [line]) ;;
  res <- (match http_hdrs with
          | [] => ret res
          | _ :: _ =>
              method <- lift (dget req "method" JNull) ;;
              let output :=
                if truthy method
                then app output [""; "(Request type: " ++ py_str method ++ ")"]
                else output in
              lift (append_script res
                      (script3 "http-headers" (JStr (join nl output)) (JArr http_hdrs)))
          end) ;;
  srv <- lift (dget headers "server" JNull) ;;
  if truthy srv then
    (* [resp['headers']] is [headers] *)
    server <- lift (getitem headers "server") ;;
    s0 <- lift (py_index0 server) ;;
    res <- lift (append_script res (script3 "http-server-header" s0 server)) ;;
    b <- lift (nmap_decode_data E s0) ;;
    ret (res, banner ++ "Server: " ++ b ++ crlf ++ crlf)
  else ret (res, banner).

(** Lines 200-215. *)
Definition body_stage (url : json) (res : dict) (body : json) : M dict :=
  raw <- lift (py_encode body) ;;
  res <- lift (append_script res
                 (JObj [("id", JStr "http-content");
                        ("output", JStr (nmap_encode_data E raw))])) ;;
  s <- lift (regex_subject body) ;;
  res <- (match title_search s with
          | Some t =>
              lift (append_script res
                      (script3 "http-title" (JStr t) (JObj [("title", JStr t)])))
          | None => ret res
          end) ;;
  match create_http_ls E body url with
  | Some sc => lift (append_script res sc)
  | None => ret res
  end.

(** Lines 161-216: the generic path. *)
Definition generic (resp req url : json) (res : dict) (port : Z) : M dict :=
  let res := dict_set "port" (JNum port) res in
  proto <- lift (getitem resp "protocol") ;;
  pname <- lift (getitem proto "name") ;;
  b1 <- lift (nmap_decode_data E pname) ;;
  sl <- lift (getitem resp "status_line") ;;
  b2 <- lift (nmap_decode_data E sl) ;;
  let banner := b1 ++ " " ++ b2 ++ crlf in
  hs <- lift (dget resp "headers" JNull) ;;
  '(res, banner) <- (if truthy hs then headers_stage resp req res banner
                     else ret (res, banner)) ;;
  let res := match match_nmap_svc_fp E banner with
             | [] => res
             | info => dict_update res info
             end in
  body <- lift (dget resp "body" JNull) ;;
  if truthy body then body_stage url res body else ret res.

(** Lines 96-161. *)
Definition after_prologue (c : ctx) : M dict :=
  let resp := c_resp c in
  let req := c_req c in
  let url := c_url c in
  let res := c_res c in
  if truthy url then
    port <- url_port url ;;
    path <- lift (dget url "path" JNull) ;;
    is_git <- lift (py_endswith path "/.git/index") ;;
    match path with
    | JStr p =>
        if is_git then git_branch resp url res port p
        else if str_endswith_s p "/owa/auth/logon.aspx" then owa_branch resp res port p
        else generic resp req url res port
    | _ => raise AttributeError
    end
  else
    t1 <- lift (dget req "tls_handshake" JNull) ;;
    port <- (if truthy t1 then ret 443%Z
             else t2 <- lift (dget req "tls_log" JNull) ;;
                  ret (if truthy t2 then 443%Z else 80%Z)) ;;
    generic resp req url res port.

(** [zgrap_parser_http(data, hostrec)] *)
Definition zgrap_parser_http : M dict :=
  c <- prologue ;;
  match c with
  | None => ret []
  | Some c => after_prologue c
  end.

End Parser.

(** A call on the caller's objects. *)
Definition run (E : env) (data hostrec : dict) (log : list warning)
    : outcome dict * state :=
  zgrap_parser_http E (mkState data hostrec log).

(** ** Concrete collaborators for evaluating the parser *)

Definition decode_str (j : json) : outcome string :=
  match j with JStr s => Ret s | _ => Raise CollaboratorError end.

Definition demo_env : env :=
  mkEnv (fun _ => ("", [])) (fun _ h => Ret h) decode_str (fun s => s)
    (fun _ => []) (fun _ _ => None) (fun l => l).

(** A certificate whose structured information names [example.com]. *)
Definition demo_tls_env : env :=
  mkEnv (fun _ => ("Subject: CN=example.com", [JObj [("subject", JStr "example.com")]]))
    (fun _ h => match h with
                | JArr l => Ret (JArr (app l [JStr "example.com"]))
                | _ => Ret h
                end)
    decode_str (fun s => s) (fun _ => []) (fun _ _ => None) (fun l => l).

Definition demo_host : dict := [("addr", JStr "192.0.2.1")].

Definition http_response (req : json) (extra : dict) : dict :=
  [("response", JObj (app [("request", req); ("status_code", JNum 200);
                           ("status_line", JStr "200 OK");
                           ("protocol", JObj [("name", JStr "HTTP/1.1")])] extra))].

(** ** Reading of the claims *)

(** The working shape after line 51, for a [result] that is absent or a
    mapping. *)
Definition reconciled (data : dict) : dict :=
  match dict_pop "result" data with
  | (Some (JObj c), d1) => dict_update d1 c
  | _ => data
  end.

Definition result_ok (data : dict) : Prop :=
  match dict_lookup "result" data with
  | None | Some (JObj _) => True
  | Some _ => False
  end.

(** The required fields a response mapping lacks. *)
Definition missing_fields (resp : dict) : list string :=
  filter (fun f => negb (dict_mem f resp)) needed_fields.

(** [j.get(k)] on a mapping, [None] otherwise. *)
Definition field (k : string) (j : json) : json :=
  match j with
  | JObj d => match dict_lookup k d with Some v => v | None => JNull end
  | JMap kvs => match map_lookup (JStr k) kvs with Some v => v | None => JNull end
  | _ => JNull
  end.

(** The port rule as amended for C3: with a (truthy) URL, the text after
    the first [:] of the host parsed by [int], else 443 for [https] and 80;
    without one, 443 when the request's [tls_handshake] or [tls_log] value
    is truthy, else 80. *)
Definition inferred_port (req : json) : Z :=
  let url := field "url" req in
  let default := if is_str "https" (field "scheme" url) then 443%Z else 80%Z in
  if truthy url then
    match field "host" url with
    | JStr h =>
        match after_first ":" h with
        | Some t => match py_int t with Some n => n | None => default end
        | None => default
        end
    | _ => default
    end
  else if truthy (field "tls_handshake" req) || truthy (field "tls_log" req)
  then 443%Z else 80%Z.

(** The header mapping after the [unknown] bucket has been flattened into
    it: the bucket removed, then each entry assigned in turn. *)
Fixpoint assign_entries (h : dict) (unks : list json) : option dict :=
  match unks with
  | [] => Some h
  | u :: us =>
      match lookup_key "key" u, lookup_key "value" u with
      | Some (JStr k), Some v => assign_entries (dict_set k v h) us
      | _, _ => None
      end
  end.

Definition flattened (h : dict) : option dict :=
  match dict_pop "unknown" h with
  | (Some v, h1) =>
      match py_iter v with
      | Ret unks => assign_entries h1 unks
      | Raise _ => None
      end
  | (None, _) => Some h
  end.

(** The structured [http-headers] payload for a header mapping: the
    [_status] entry, then one entry per header and value, in mapping
    order, with [_] in names turned into [-]. *)
Definition header_payload (line : string) (h : dict) : list json :=
  status_entry line
  :: flat_map (fun '(k, vs) =>
                 match py_iter vs with
                 | Ret l => map (header_entry (replace_char "_" "-" k)) l
                 | Raise _ => []
                 end) h.

(** The matching lines of the human-readable [http-headers] output. *)
Definition header_lines (h : dict) : list string :=
  flat_map (fun '(k, vs) =>
              match py_iter vs with
              | Ret l => map (fun v => replace_char "_" "-" k ++ ": " ++ py_str v) l
              | Raise _ => []
              end) h.

(** The lines the request method adds to that output. *)
Definition method_lines (method : json) : list string :=
  if truthy method then [""; "(Request type: " ++ py_str method ++ ")"] else [].

(** [resp.get('body', '')] *)
Definition body_or_empty (resp : json) : json :=
  match resp with
  | JObj d => match dict_lookup "body" d with Some v => v | None => JStr "" end
  | JMap kvs => match map_lookup (JStr "body") kvs with Some v => v | None => JStr "" end
  | _ => JNull
  end.

(** The content checks of the two detectors fail: a status other than
    200, or a body that does not start with [DIRC], or one in which no
    OWA version marker is found. *)
Definition git_check_fails (resp : json) : bool :=
  negb (is_num 200 (field "status_code" resp))
  || match body_or_empty resp with
     | JStr b => negb (String.prefix "DIRC" b)
     | _ => true
     end.

Definition owa_check_fails (resp : json) : bool :=
  negb (is_num 200 (field "status_code" resp))
  || match body_or_empty resp with
     | JStr b => match owa_finditer b with [] => true | _ :: _ => false end
     | _ => true
     end.

(** The scripts a record starts with before any detector: none, or the
    [ssl-cert] script of the TLS step. *)
Definition tls_scripts (pre : list json) : Prop :=
  pre = [] \/ exists o info, pre = [script3 "ssl-cert" o info].

(** Collaborator contracts from the spec: [add_cert_hostnames] only appends
    to the hostname list; the banner matcher returns service
    identification fields; a set is iterated in some order of its
    elements. *)
Definition hostnames_append_only (E : env) : Prop :=
  forall c h h', add_cert_hostnames E c h = Ret h' ->
    h' = h \/ exists l e, h = JArr l /\ h' = JArr (app l e).

Definition fp_service_fields (E : env) : Prop :=
  forall b k v, In (k, v) (match_nmap_svc_fp E b) -> k <> "port" /\ k <> "scripts".

Definition set_order_perm (E : env) : Prop :=
  forall l, Permutation (set_order E l) l.

(** The hostname list only grows: unchanged, created, or extended. *)
Definition hostnames_grow (o o' : option json) : Prop :=
  o' = o
  \/ (o = None /\ exists e, o' = Some (JArr e))
  \/ (exists l e, o = Some (JArr l) /\ o' = Some (JArr (app l e))).

Definition hostrec_frame (h h' : dict) : Prop :=
  (forall k, k <> "hostnames" -> dict_lookup k h' = dict_lookup k h)
  /\ hostnames_grow (dict_lookup "hostnames" h) (dict_lookup "hostnames" h').

(** The [h[k] = v] assignments of lines 173-174 for a list of [unknown]
    entries, none of them raising. *)
Fixpoint store_entries (h : json) (unks : list json) : option json :=
  match unks with
  | [] => Some h
  | u :: us =>
      match getitem u "value", getitem u "key" with
      | Ret v, Ret k =>
          match py_setitem h k v with
          | Ret h' => store_entries h' us
          | Raise _ => None
          end
      | _, _ => None
      end
  end.

(** The [headers] mapping [h0] after lines 172-174 have run, possibly
    cut short by an exception: the [unknown] bucket popped, then the
    entries of some prefix of it assigned in turn. *)
Definition unknown_flattened (h0 h'' : json) : Prop :=
  exists v h1, py_pop "unknown" h0 = (Some v, h1)
    /\ (h'' = h1
        \/ exists unks n, py_iter v = Ret unks
                          /\ store_entries h1 (firstn n unks) = Some h'').

(** The same run to its end: the bucket popped and all its entries
    assigned. *)
Definition flatten_all (h0 : json) : option json :=
  match py_pop "unknown" h0 with
  | (Some v, h1) =>
      match py_iter v with
      | Ret unks => store_entries h1 unks
      | Raise _ => None
      end
  | (None, _) => None
  end.

(** The caller's [data] after a call, relative to the reconciled shape
    [d]: unchanged, or with the [headers] mapping of its [response]
    flattened in place. *)
Definition data_after (d d' : dict) : Prop :=
  d' = d
  \/ exists r h0 h'', dict_lookup "response" d = Some r
                     /\ lookup_key "headers" r = Some h0
                     /\ unknown_flattened h0 h''
                     /\ d' = dict_set "response" (set_headers r h'') d.

(** The request leads to the generic path of lines 156-216: no truthy
    URL, or a URL path that is a string ending with neither detector
    suffix. *)
Definition generic_route (req : json) : bool :=
  let url := field "url" req in
  negb (truthy url)
  || match field "path" url with
     | JStr p => negb (str_endswith_s p "/.git/index")
                 && negb (str_endswith_s p "/owa/auth/logon.aspx")
     | _ => false
     end.

(** [preserves R m]: every run of [m], normal or exceptional, relates the
    state before and after by [R]. *)
Definition preserves (R : state -> state -> Prop) {A} (m : M A) : Prop :=
  forall s o s', m s = (o, s') -> R s s'.

Definition host_rel (s s' : state) : Prop :=
  hostrec_frame (st_hostrec s) (st_hostrec s').

Definition same_data (s s' : state) : Prop := st_data s' = st_data s.

Definition same_state (s s' : state) : Prop := s' = s.

(** The host address is only read. *)
Definition addr_rel (s s' : state) : Prop :=
  dict_lookup "addr" (st_hostrec s') = dict_lookup "addr" (st_hostrec s).

(** The head of the list has the least key. *)
Definition head_least (l : list string) : Prop :=
  forall u, In u l -> lex_ltb (version_key u) (version_key (hd "" l)) = false.

(** The scripts of [res] start with [l]. *)
Definition scripts_from (l : list json) (res : dict) : Prop :=
  exists post, dict_lookup "scripts" res = Some (JArr (app l post)).

(** ** Sample inputs

    Results of zgrab runs as [json.loads] returns them, and what a call
    returns on them. *)

Definition result_of (p : outcome dict * state) : dict :=
  match fst p with Ret r => r | Raise _ => [] end.

Definition result_scripts (p : outcome dict * state) : option json :=
  dict_lookup "scripts" (result_of p).

Definition url_req (host path : string) : json :=
  JObj [("url", JObj [("host", JStr host); ("path", JStr path)])].

Definition tls_cert : json :=
  JObj [("server_certificates", JObj [("certificate", JObj [("raw", JStr "MIIB")])])].

(** A URL without a path. *)
Definition sample_no_path : dict :=
  http_response (JObj [("url", JObj [("host", JStr "example.com")])]) [].

(** A response without [protocol]. *)
Definition sample_no_protocol : dict :=
  [("response", JObj [("request", JObj []); ("status_code", JNum 200);
                      ("status_line", JStr "200 OK")])].

Definition sample_git : dict :=
  http_response (url_req "example.com" "/x/.git/index") [("body", JStr "DIRC0000")].

Definition sample_git_tls : dict :=
  http_response (JObj [("url", JObj [("host", JStr "example.com");
                                     ("path", JStr "/x/.git/index")]);
                       ("tls_handshake", tls_cert)])
    [("body", JStr "DIRC0000")].

Definition sample_git_html : dict :=
  http_response (url_req "example.com" "/x/.git/index") [("body", JStr "<html>")].

Definition sample_host_port : dict := http_response (url_req "example.com:-1" "/") [].

Definition sample_tls_log : dict :=
  http_response (JObj [("tls_log", JObj [("status", JStr "x")])]) [].

Definition sample_empty_handshake : dict :=
  http_response (JObj [("tls_handshake", JObj [])]) [].

Definition sample_bad_result : dict := [("result", JNum 5)].

Definition sample_bad_response : dict := [("response", JNum 5)].

(** A zgrab2 result whose response lacks [status_code] and [status_line]. *)
Definition sample_missing : dict :=
  [("result", JObj [("response", JObj [("request", JObj [])])])].

Definition sample_owa_unquoted : dict :=
  http_response (url_req "example.com" "/owa/auth/logon.aspx")
    [("body", JStr "/owa/auth/15.1.2.3/")].

Definition owa_body : string :=
  String dquote "/owa/auth/15.1.2.3/x" ++ String dquote "/owa/2.0.0.0/y".

Definition sample_owa : dict :=
  http_response (url_req "example.com" "/owa/auth/logon.aspx") [("body", JStr owa_body)].

Definition sample_headers : dict :=
  [("server", JArr [JStr "a"]);
   ("unknown", JArr [JObj [("key", JStr "server"); ("value", JArr [JStr "b"])];
                     JObj [("key", JStr "x_y"); ("value", JArr [JStr "1"])];
                     JObj [("key", JStr "x_y"); ("value", JArr [JStr "2"])]])].

Definition sample_unknown : dict :=
  http_response (JObj [("method", JStr "GET")]) [("headers", JObj sample_headers)].

(** The same, wrapped by zgrab2 under [result]. *)
Definition sample_unknown_zgrab2 : dict := [("result", JObj sample_unknown)].

Definition response_of (data : dict) : json :=
  match dict_lookup "response" (reconciled data) with Some r => r | None => JNull end.

(** The [response] mapping of the reconciled shape. *)
Definition response_dict (data : dict) : dict :=
  match response_of data with JObj d => d | _ => [] end.

(** ** Further readings of the code *)

(** Versions in non-decreasing order of their integer lists. *)
Fixpoint versions_sorted (l : list string) : bool :=
  match l with
  | v :: ((w :: _) as l') =>
      negb (lex_ltb (version_key w) (version_key v)) && versions_sorted l'
  | _ => true
  end.

(** The characters [re] reads as version characters, [[0-9]] and [.]. *)
Definition version_chars (v : string) : bool :=
  forallb (fun c => is_digit c || Ascii.eqb c ".") (list_ascii_of_string v).

(** The banner matcher never returns the field [k]. *)
Definition fp_never_sets (E : env) (k : string) : Prop :=
  forall b v, ~ In (k, v) (match_nmap_svc_fp E b).

(** The value [tls] holds after lines 70-78 when no exception escapes:
    [req['tls_handshake']], else [req['tls_log']['handshake_log']], else
    [None] when a [KeyError] stops both.  (A [tls_log] that is not a
    mapping raises a [TypeError], which leaves the function.) *)
Definition tls_value (req : json) : json :=
  match lookup_key "tls_handshake" req with
  | Some t => t
  | None =>
      match lookup_key "tls_log" req with
      | Some l => match lookup_key "handshake_log" l with Some t => t | None => JNull end
      | None => JNull
      end
  end.

(** [tls['server_certificates']['certificate']['raw']], [None] for a
    missing key. *)
Definition tls_cert_raw (tls : json) : json :=
  field "raw" (field "certificate" (field "server_certificates" tls)).

(** A zgrab2 result: a TLS handshake under [tls_log.handshake_log], no
    URL, and an HTML body with a title. *)
Definition sample_zgrab2_tls : dict :=
  http_response (JObj [("tls_log", JObj [("handshake_log", tls_cert)])])
    [("body", JStr "<html><title>Home</title></html>")].

Definition server_stage_run : outcome (dict * string) * state :=
  headers_stage demo_env (response_of sample_unknown)
    (field "request" (response_of sample_unknown)) [] "HTTP/1.1 200 OK"
    (mkState sample_unknown demo_host []).

(** * Proofs *)

(** ** The monad *)

Lemma bind_Ret {A B} (m : M A) (k : A -> M B) s b s' :
  bind m k s = (Ret b, s') ->
  exists a s1, m s = (Ret a, s1) /\ k a s1 = (Ret b, s').
Proof.
  unfold bind. destruct (m s) as [[a|e] s1]; intro H.
  - eauto.
  - discriminate H.
Qed.

Lemma lift_inv {A} (o o' : outcome A) s s' :
  lift o s = (o', s') -> o = o' /\ s' = s.
Proof. unfold lift. intro H. injection H. auto. Qed.

Lemma ret_inv {A} (a : A) o s s' : ret a s = (o, s') -> o = Ret a /\ s' = s.
Proof. unfold ret. intro H. injection H. auto. Qed.

Lemma exn_eqb_eq a b : exn_eqb a b = true -> a = b.
Proof. destruct a, b; simpl; congruence. Qed.

Lemma try_Ret {A} (m h : M A) e s a s' :
  try_except m e h s = (Ret a, s') ->
  m s = (Ret a, s') \/ exists s1, m s = (Raise e, s1) /\ h s1 = (Ret a, s').
Proof.
  unfold try_except. destruct (m s) as [[a'|e'] s1] eqn:Hm; intro H.
  - left. exact H.
  - destruct (exn_eqb e e') eqn:He.
    + apply exn_eqb_eq in He. subst. right. eauto.
    + discriminate H.
Qed.

(** Splits a hypothesis [m s = (Ret _, _)] along the structure of [m]. *)
Ltac split_ret :=
  repeat match goal with
  | H : bind _ _ _ = (Ret _, _) |- _ =>
      apply bind_Ret in H; destruct H as (? & ? & ? & H); cbv beta in H
  | H : lift _ _ = (_, _) |- _ =>
      apply lift_inv in H; destruct H as [? H]; subst
  | H : ret _ _ = (_, _) |- _ =>
      apply ret_inv in H; destruct H as [H ?]; subst;
      try (injection H as H; subst)
  | H : raise _ _ = (Ret _, _) |- _ => discriminate H
  | H : try_except _ _ _ _ = (Ret _, _) |- _ =>
      apply try_Ret in H; destruct H as [H | (? & ? & H)]
  | H : (if ?b then _ else _) _ = (Ret _, _) |- _ => destruct b eqn:?
  | H : (match ?x with _ => _ end) _ = (Ret _, _) |- _ => destruct x eqn:?
  | H : Raise _ = Ret _ |- _ => discriminate H
  | H : get_data _ = (_, _) |- _ => unfold get_data in H; injection H as H ?; subst
  | H : get_hostrec _ = (_, _) |- _ => unfold get_hostrec in H; injection H as H ?; subst
  | H : put_data _ _ = (_, _) |- _ => unfold put_data in H; injection H as ? ?; subst
  | H : put_hostrec _ _ = (_, _) |- _ => unfold put_hostrec in H; injection H as ? ?; subst
  | H : warn _ _ = (_, _) |- _ => unfold warn in H; injection H as ? ?; subst
  end.

(** ** Dictionaries *)

Lemma dict_lookup_set_same k v d : dict_lookup k (dict_set k v d) = Some v.
Proof.
  induction d as [|[k' v'] d IH]; simpl.
  - rewrite String.eqb_refl. reflexivity.
  - destruct (String.eqb k k') eqn:E; simpl.
    + rewrite E. reflexivity.
    + rewrite E. exact IH.
Qed.

Lemma dict_lookup_set_other k k' v d :
  k <> k' -> dict_lookup k (dict_set k' v d) = dict_lookup k d.
Proof.
  intro Hne. induction d as [|[k0 v0] d IH]; simpl.
  - apply String.eqb_neq in Hne. rewrite Hne. reflexivity.
  - destruct (String.eqb k' k0) eqn:E; simpl.
    + apply String.eqb_eq in E. subst k0.
      apply String.eqb_neq in Hne. rewrite Hne. reflexivity.
    + rewrite IH. reflexivity.
Qed.

Lemma dict_lookup_set k k' v d :
  dict_lookup k (dict_set k' v d) = if String.eqb k k' then Some v else dict_lookup k d.
Proof.
  destruct (String.eqb k k') eqn:E.
  - apply String.eqb_eq in E. subst. apply dict_lookup_set_same.
  - apply dict_lookup_set_other. apply String.eqb_neq. exact E.
Qed.

Lemma dict_update_keeps k d o :
  dict_lookup k d <> None -> dict_lookup k (dict_update d o) <> None.
Proof.
  unfold dict_update. revert d.
  induction o as [|[k' v'] o IH]; intros d H; simpl.
  - exact H.
  - apply IH. rewrite dict_lookup_set.
    destruct (String.eqb k k'); [discriminate | exact H].
Qed.

Lemma dict_update_other k d o :
  (forall v, ~ In (k, v) o) -> dict_lookup k (dict_update d o) = dict_lookup k d.
Proof.
  unfold dict_update. revert d.
  induction o as [|[k' v'] o IH]; intros d H; simpl.
  - reflexivity.
  - rewrite IH.
    + apply dict_lookup_set_other. intro E. subst. apply (H v'). left. reflexivity.
    + intros v Hv. apply (H v). right. exact Hv.
Qed.

Lemma append_script_other res sc res' k :
  append_script res sc = Ret res' -> k <> "scripts" ->
  dict_lookup k res' = dict_lookup k res.
Proof.
  unfold append_script. intros H Hk.
  destruct (dict_lookup "scripts" res) as [[]|]; try discriminate H;
    injection H as <-; apply dict_lookup_set_other; exact Hk.
Qed.

(** Rewrites [dict_lookup k] through the [append_script] steps. *)
Ltac through_scripts :=
  repeat match goal with
  | H : append_script ?r _ = Ret ?r' |- context [dict_lookup ?k ?r'] =>
      rewrite (append_script_other _ _ _ k H) by (assumption || discriminate);
      clear H
  end.

(** ** Every non-empty record has a port *)

Section Port.

Variable E : env.

Lemma headers_stage_other resp req res banner s r b s' k :
  headers_stage E resp req res banner s = (Ret (r, b), s') -> k <> "scripts" ->
  dict_lookup k r = dict_lookup k res.
Proof.
  intros H Hk. unfold headers_stage in H. split_ret; through_scripts; reflexivity.
Qed.

Lemma body_stage_other url res body s r s' k :
  body_stage E url res body s = (Ret r, s') -> k <> "scripts" ->
  dict_lookup k r = dict_lookup k res.
Proof.
  intros H Hk. unfold body_stage in H. split_ret; through_scripts; reflexivity.
Qed.

Lemma generic_port resp req url res port s r s' :
  generic E resp req url res port s = (Ret r, s') -> dict_lookup "port" r <> None.
Proof.
  intro H. unfold generic in H. split_ret.
  all: repeat match goal with
       | H : body_stage _ _ _ _ _ = (Ret _, _) |- _ =>
           rewrite (body_stage_other _ _ _ _ _ _ _ H) by discriminate; clear H
       end.
  all: match goal with
       | |- context [match ?i with [] => _ | _ :: _ => _ end] => destruct i as [|p0 l0]
       end.
  all: try apply (dict_update_keeps _ _ (_ :: _)).
  all: repeat match goal with
       | H : headers_stage _ _ _ _ _ _ = (Ret (_, _), _) |- _ =>
           rewrite (headers_stage_other _ _ _ _ _ _ _ _ _ H) by discriminate; clear H
       end.
  all: rewrite dict_lookup_set_same; discriminate.
Qed.

Lemma git_branch_port resp url res port p s r s' :
  git_branch resp url res port p s = (Ret r, s') -> r = [] \/ dict_lookup "port" r <> None.
Proof.
  intro H. unfold git_branch in H. split_ret; auto.
  right. through_scripts.
  rewrite dict_lookup_set_same. discriminate.
Qed.

Lemma owa_branch_port resp res port p s r s' :
  owa_branch E resp res port p s = (Ret r, s') -> r = [] \/ dict_lookup "port" r <> None.
Proof.
  intro H. unfold owa_branch in H. split_ret; auto.
  right. through_scripts.
  rewrite dict_lookup_set_same. discriminate.
Qed.

Lemma after_prologue_port c s r s' :
  after_prologue E c s = (Ret r, s') -> r = [] \/ dict_lookup "port" r <> None.
Proof.
  intro H. unfold after_prologue in H. split_ret.
  all: first [ now apply git_branch_port in H
             | now apply owa_branch_port in H
             | right; now apply generic_port in H ].
Qed.

End Port.

(** C7: for every input and every host record, a non-empty mapping
    returned by [zgrap_parser_http] has its [port] field set; the only
    returned mapping without one is [{}]. *)
Theorem zgrap_nonempty_result_has_port :
  forall E data hostrec log r s',
    run E data hostrec log = (Ret r, s') -> r <> [] -> dict_lookup "port" r <> None.
Proof.
  intros E data hostrec log r s' H Hne. unfold run, zgrap_parser_http in H.
  split_ret.
  - destruct (after_prologue_port _ _ _ _ _ H); [contradiction | assumption].
  - contradiction.
Qed.

(** ** Effects on the caller's objects *)

Section Preserves.

Variable R : state -> state -> Prop.
Hypothesis R_refl : forall s, R s s.
Hypothesis R_trans : forall s1 s2 s3, R s1 s2 -> R s2 s3 -> R s1 s3.

Lemma preserves_bind {A B} (m : M A) (k : A -> M B) :
  preserves R m -> (forall a, preserves R (k a)) -> preserves R (bind m k).
Proof using R_refl R_trans.
  intros Hm Hk s o s'. unfold bind.
  destruct (m s) as [[a|e] s1] eqn:E; intro H.
  - eapply R_trans; [eapply Hm; exact E | eapply Hk; exact H].
  - injection H as _ <-. eapply Hm. exact E.
Qed.

Lemma preserves_ret {A} (a : A) : preserves R (ret a).
Proof using R_refl R_trans. intros s o s' H. injection H as _ <-. apply R_refl. Qed.

Lemma preserves_raise {A} e : preserves R (@raise A e).
Proof using R_refl R_trans. intros s o s' H. injection H as _ <-. apply R_refl. Qed.

Lemma preserves_lift {A} (o : outcome A) : preserves R (lift o).
Proof using R_refl R_trans. intros s o' s' H. injection H as _ <-. apply R_refl. Qed.

Lemma preserves_try {A} (m h : M A) e :
  preserves R m -> preserves R h -> preserves R (try_except m e h).
Proof using R_refl R_trans.
  intros Hm Hh s o s'. unfold try_except.
  destruct (m s) as [[a|e'] s1] eqn:E; intro H.
  - injection H as _ <-. eapply Hm. exact E.
  - destruct (exn_eqb e e').
    + eapply R_trans; [eapply Hm; exact E | eapply Hh; exact H].
    + injection H as _ <-. eapply Hm. exact E.
Qed.

Lemma preserves_get_data : preserves R get_data.
Proof using R_refl R_trans. intros s o s' H. injection H as _ <-. apply R_refl. Qed.

Lemma preserves_get_hostrec : preserves R get_hostrec.
Proof using R_refl R_trans. intros s o s' H. injection H as _ <-. apply R_refl. Qed.

End Preserves.

Ltac prv :=
  repeat match goal with
  | |- preserves _ (bind _ _) => apply preserves_bind; [auto | eauto | | intro]
  | |- preserves _ (ret _) => apply preserves_ret; [auto | eauto]
  | |- preserves _ (raise _) => apply preserves_raise; [auto | eauto]
  | |- preserves _ (lift _) => apply preserves_lift; [auto | eauto]
  | |- preserves _ (try_except _ _ _) => apply preserves_try; [auto | eauto | |]
  | |- preserves _ get_data => apply preserves_get_data; [auto | eauto]
  | |- preserves _ get_hostrec => apply preserves_get_hostrec; [auto | eauto]
  | |- preserves _ (if ?b then _ else _) => destruct b
  | |- preserves _ (match ?x with _ => _ end) => destruct x
  | |- preserves _ (let _ := _ in _) => cbv zeta
  end.

(** ** The host record only gains hostnames *)

Lemma hostnames_grow_refl o : hostnames_grow o o.
Proof. left. reflexivity. Qed.

Lemma hostnames_grow_trans o1 o2 o3 :
  hostnames_grow o1 o2 -> hostnames_grow o2 o3 -> hostnames_grow o1 o3.
Proof.
  intros H12 H23.
  destruct H12 as [-> | [[-> [e ->]] | (l & e & -> & ->)]]; [exact H23 | |].
  - destruct H23 as [-> | [[? _] | (l' & e' & E & ->)]].
    + right. left. eauto.
    + discriminate.
    + injection E as <-. right. left. eauto.
  - destruct H23 as [-> | [[? _] | (l' & e' & E & ->)]].
    + right. right. eauto.
    + discriminate.
    + injection E as <-. right. right. exists l, (app e e').
      rewrite app_assoc. auto.
Qed.

Lemma host_rel_refl s : host_rel s s.
Proof. split; [reflexivity | apply hostnames_grow_refl]. Qed.

Lemma host_rel_trans s1 s2 s3 : host_rel s1 s2 -> host_rel s2 s3 -> host_rel s1 s3.
Proof.
  intros [F12 G12] [F23 G23]. split.
  - intros k Hk. rewrite F23, F12 by exact Hk. reflexivity.
  - eapply hostnames_grow_trans; eassumption.
Qed.

Lemma host_rel_same_hostrec s s' : st_hostrec s' = st_hostrec s -> host_rel s s'.
Proof. intro E. unfold host_rel. rewrite E. apply host_rel_refl. Qed.

#[local] Hint Resolve host_rel_refl host_rel_trans : core.

Ltac prv_host :=
  prv;
  try match goal with
      | |- preserves host_rel (put_data _) =>
          let H := fresh in intros ? ? ? H; injection H as _ <-; apply host_rel_same_hostrec; reflexivity
      | |- preserves host_rel (warn _) =>
          let H := fresh in intros ? ? ? H; injection H as _ <-; apply host_rel_same_hostrec; reflexivity
      end.

Section HostFrame.

Variable E : env.
Hypothesis HE : hostnames_append_only E.

Lemma add_hostnames_host certs : preserves host_rel (add_hostnames E certs).
Proof.
  induction certs as [|cert certs IH]; simpl; [apply preserves_ret; eauto|].
  intros s o s' H. cbn [bind get_hostrec put_hostrec lift] in H.
  unfold dict_mem in H.
  destruct (dict_lookup "hostnames" (st_hostrec s)) as [h|] eqn:D; simpl in H.
  - destruct (add_cert_hostnames E cert h) as [h'|e] eqn:A; simpl in H.
    + eapply host_rel_trans; [|eapply IH; exact H].
      unfold host_rel, hostrec_frame; simpl. split.
      * intros k Hk. apply dict_lookup_set_other. exact Hk.
      * rewrite dict_lookup_set_same, D.
        destruct (HE _ _ _ A) as [-> | (l & e & -> & ->)].
        -- left. reflexivity.
        -- right. right. eauto.
    + injection H as _ <-. apply host_rel_same_hostrec. reflexivity.
  - assert (R1 : host_rel s (mkState (st_data s)
                   (dict_set "hostnames" (JArr []) (st_hostrec s)) (st_log s))).
    { unfold host_rel, hostrec_frame; simpl. split.
      - intros k Hk. apply dict_lookup_set_other. exact Hk.
      - rewrite dict_lookup_set_same, D. right. left. eauto. }
    destruct (add_cert_hostnames E cert (JArr [])) as [h'|e] eqn:A; simpl in H.
    + eapply host_rel_trans; [exact R1|].
      eapply host_rel_trans; [|eapply IH; exact H].
      unfold host_rel, hostrec_frame; simpl. split.
      * intros k Hk. apply dict_lookup_set_other. exact Hk.
      * rewrite !dict_lookup_set_same.
        destruct (HE _ _ _ A) as [-> | (l & e & -> & ->)].
        -- left. reflexivity.
        -- right. right. eauto.
    + injection H as _ <-. exact R1.
Qed.

Lemma update_pairs_host items : preserves host_rel (update_pairs items).
Proof. induction items; simpl; prv_host; auto. Qed.

Lemma assign_unknown_host h unks : preserves host_rel (assign_unknown h unks).
Proof.
  revert h. induction unks; intro h; simpl; prv_host; auto.
  unfold write_headers. prv_host.
Qed.

Lemma zgrap_host_rel : preserves host_rel (zgrap_parser_http E).
Proof.
  unfold zgrap_parser_http, prologue, after_prologue, tls_stage, url_port,
    git_branch, owa_branch, generic, headers_stage, flatten_unknown,
    body_stage, update_data, write_headers.
  prv_host.
  all: first [ apply add_hostnames_host | apply update_pairs_host
             | apply assign_unknown_host | idtac ].
Qed.

End HostFrame.

(** C9: whatever happens during a call, normal return or exception, every
    field of the host record other than [hostnames] is left as it was, and
    the [hostnames] list is unchanged, created, or the former list with
    entries appended, provided [add_cert_hostnames] only appends. *)
Theorem zgrap_hostrec_append_only :
  forall E data hostrec log o s',
    hostnames_append_only E ->
    run E data hostrec log = (o, s') ->
    hostrec_frame hostrec (st_hostrec s').
Proof.
  intros E data hostrec log o s' HE H.
  exact (zgrap_host_rel E HE _ _ _ H).
Qed.

(** ** The caller's data *)

Lemma same_data_refl s : same_data s s.
Proof. reflexivity. Qed.

Lemma same_data_trans s1 s2 s3 : same_data s1 s2 -> same_data s2 s3 -> same_data s1 s3.
Proof. unfold same_data. congruence. Qed.

#[local] Hint Resolve same_data_refl same_data_trans : core.

Ltac prv_data :=
  prv;
  try match goal with
      | |- preserves same_data (put_hostrec _) =>
          let H := fresh in intros ? ? ? H; injection H as _ <-; reflexivity
      | |- preserves same_data (warn _) =>
          let H := fresh in intros ? ? ? H; injection H as _ <-; reflexivity
      end.

Lemma dict_set_set k v v' d : dict_set k v (dict_set k v' d) = dict_set k v d.
Proof.
  induction d as [|[k' w] d IH]; simpl.
  - rewrite String.eqb_refl. reflexivity.
  - destruct (String.eqb k k') eqn:Ek; simpl; rewrite Ek; [reflexivity|].
    rewrite IH. reflexivity.
Qed.

Lemma dict_pop_fst k d : fst (dict_pop k d) = dict_lookup k d.
Proof.
  induction d as [|[k' w] d IH]; simpl; [reflexivity|].
  destruct (String.eqb k k'); [reflexivity|].
  destruct (dict_pop k d) as [o d'] eqn:P. exact IH.
Qed.

Lemma dict_pop_none k d : dict_lookup k d = None -> dict_pop k d = (None, d).
Proof.
  induction d as [|[k' w] d IH]; simpl; [reflexivity|].
  destruct (String.eqb k k'); [discriminate|].
  intro N. rewrite (IH N). reflexivity.
Qed.

Lemma getitem_lookup j k v : getitem j k = Ret v -> lookup_key k j = Some v.
Proof.
  destruct j as [| | | | | d | kvs]; simpl; try discriminate.
  - destruct (dict_lookup k d); congruence.
  - destruct (map_lookup (JStr k) kvs); congruence.
Qed.

Lemma map_set_set k v v' kvs :
  key_eqb k k = true -> map_set k v (map_set k v' kvs) = map_set k v kvs.
Proof.
  intro Kk. induction kvs as [|[k' w] kvs IH]; simpl.
  - rewrite Kk. reflexivity.
  - destruct (key_eqb k k') eqn:Ek; simpl; rewrite Ek; [reflexivity|].
    rewrite IH. reflexivity.
Qed.

Lemma is_dict_set_headers r h : is_dict (set_headers r h) = is_dict r.
Proof. destruct r; reflexivity. Qed.

Lemma set_headers_set r h h' : set_headers (set_headers r h) h' = set_headers r h'.
Proof.
  destruct r; simpl; try reflexivity.
  - rewrite dict_set_set. reflexivity.
  - rewrite map_set_set; reflexivity.
Qed.

Lemma getitem_is_dict j k v : getitem j k = Ret v -> is_dict j = true.
Proof. destruct j; simpl; try discriminate; reflexivity. Qed.

Lemma map_mem_pop k kvs :
  existsb (fun kv => key_eqb k (fst kv)) kvs = true ->
  exists v kvs1, map_pop k kvs = (Some v, kvs1).
Proof.
  induction kvs as [|[k' w] kvs IH]; simpl; [discriminate|].
  destruct (key_eqb k k'); simpl; [eauto|].
  intro M. destruct (IH M) as (v & kvs1 & ->). eauto.
Qed.

Lemma dict_mem_pop k d : dict_mem k d = true -> exists v d1, dict_pop k d = (Some v, d1).
Proof.
  unfold dict_mem. rewrite <- dict_pop_fst.
  destruct (dict_pop k d) as [[v|] d1]; simpl; [eauto | discriminate].
Qed.

Lemma py_in_pop k h :
  py_in k h = Ret true -> is_dict h = true ->
  exists v h1, py_pop k h = (Some v, h1).
Proof.
  intros P D. destruct h; try discriminate D; unfold py_in in P; unfold py_pop;
    injection P as P.
  - destruct (dict_mem_pop _ _ P) as (v & d1 & ->). eauto.
  - destruct (map_mem_pop (JStr k) kvs P) as (v & kvs1 & ->). eauto.
Qed.

Lemma write_headers_step d r h s :
  st_data s = d -> dict_lookup "response" d = Some r -> is_dict r = true ->
  write_headers h s
  = (Ret tt, mkState (dict_set "response" (set_headers r h) d) (st_hostrec s) (st_log s)).
Proof.
  intros Hs R Dr. unfold write_headers, bind, get_data, put_data.
  rewrite Hs, R. destruct r; try discriminate Dr; reflexivity.
Qed.

Section DataFrame.

Variable E : env.

Lemma add_hostnames_data certs : preserves same_data (add_hostnames E certs).
Proof. induction certs; simpl; prv_data; auto. Qed.

Lemma tls_stage_data req res : preserves same_data (tls_stage E req res).
Proof. unfold tls_stage. prv_data; apply add_hostnames_data. Qed.

Lemma url_port_data url : preserves same_data (url_port url).
Proof. unfold url_port. prv_data. Qed.

Lemma git_branch_data resp url res port p : preserves same_data (git_branch resp url res port p).
Proof. unfold git_branch. prv_data. Qed.

Lemma owa_branch_data resp res port p : preserves same_data (owa_branch E resp res port p).
Proof. unfold owa_branch. prv_data. Qed.

Lemma body_stage_data url res body : preserves same_data (body_stage E url res body).
Proof. unfold body_stage. prv_data. Qed.

(** The data after [m], started on [d0]. *)
Variable d0 : dict.

Definition data_post {A} (m : M A) : Prop :=
  forall s o s', st_data s = d0 -> m s = (o, s') -> data_after d0 (st_data s').

Lemma data_post_same {A} (m : M A) : preserves same_data m -> data_post m.
Proof. intros Hm s o s' Hs H. left. rewrite (Hm _ _ _ H). exact Hs. Qed.

Lemma data_post_bind_l {A B} (m : M A) (k : A -> M B) :
  preserves same_data m -> (forall a, data_post (k a)) -> data_post (bind m k).
Proof.
  intros Hm Hk s o s' Hs. unfold bind.
  destruct (m s) as [[a|e] s1] eqn:Em; intro H.
  - eapply Hk; [|exact H]. rewrite (Hm _ _ _ Em). exact Hs.
  - injection H as _ <-. left. rewrite (Hm _ _ _ Em). exact Hs.
Qed.

Lemma data_post_lift {A B} (o : outcome A) (k : A -> M B) :
  (forall a, o = Ret a -> data_post (k a)) -> data_post (bind (lift o) k).
Proof.
  intros Hk s o' s' Hs. unfold bind, lift.
  destruct o as [a|e]; intro H.
  - eapply Hk; eauto.
  - injection H as _ <-. left. exact Hs.
Qed.

Lemma data_post_bind_r {A B} (m : M A) (k : A -> M B) :
  data_post m -> (forall a, preserves same_data (k a)) -> data_post (bind m k).
Proof.
  intros Hm Hk s o s' Hs. unfold bind.
  destruct (m s) as [[a|e] s1] eqn:Em; intro H.
  - rewrite (Hk _ _ _ _ H). eapply Hm; eauto.
  - injection H as _ <-. eapply Hm; eauto.
Qed.

Lemma assign_unknown_data r unks : forall h s o s',
  is_dict r = true ->
  st_data s = dict_set "response" (set_headers r h) d0 ->
  assign_unknown h unks s = (o, s') ->
  exists n h'', store_entries h (firstn n unks) = Some h''
    /\ st_data s' = dict_set "response" (set_headers r h'') d0.
Proof.
  induction unks as [|u us IH]; intros h s o s' Dr Hs H; simpl in H.
  - injection H as _ <-. exists 0, h. auto.
  - unfold bind, lift at 1 in H.
    destruct (getitem u "value") as [v|e] eqn:Gv;
      [|injection H as _ <-; exists 0, h; auto].
    unfold lift at 1 in H.
    destruct (getitem u "key") as [k|e] eqn:Gk;
      [|injection H as _ <-; exists 0, h; auto].
    unfold lift at 1 in H.
    destruct (py_setitem h k v) as [h1|e] eqn:Ps;
      [|injection H as _ <-; exists 0, h; auto].
    rewrite (write_headers_step _ (set_headers r h) h1 s Hs) in H;
      [|apply dict_lookup_set_same | rewrite is_dict_set_headers; exact Dr].
    rewrite set_headers_set, dict_set_set in H.
    apply IH in H; [|exact Dr | reflexivity].
    destruct H as (n & h'' & A & D). exists (S n), h''. split; [|exact D].
    simpl. rewrite Gv, Gk, Ps. exact A.
Qed.

Lemma flatten_post resp headers :
  dict_lookup "response" d0 = Some resp ->
  getitem resp "headers" = Ret headers ->
  py_in "unknown" headers = Ret true ->
  data_post (flatten_unknown headers).
Proof.
  intros R G P. pose proof (getitem_is_dict _ _ _ G) as Dr.
  apply getitem_lookup in G.
  assert (Dh : is_dict headers = true \/ is_dict headers = false)
    by (destruct (is_dict headers); auto).
  destruct Dh as [Dh|Dh];
    [|destruct headers; try discriminate Dh; apply data_post_same; simpl; prv_data].
  destruct (py_in_pop _ _ P Dh) as (v & h1 & Pop).
  assert (Fl : flatten_unknown headers
               = (write_headers h1 ;;
                  unks <- lift (py_iter v) ;; assign_unknown h1 unks))
    by (destruct headers; try discriminate Dh; unfold flatten_unknown;
        rewrite Pop; reflexivity).
  rewrite Fl. intros s o s' Hs H.
  unfold bind at 1 in H.
  rewrite (write_headers_step _ resp h1 s Hs R Dr) in H.
  unfold bind, lift in H.
  right. exists resp, headers.
  destruct (py_iter v) as [unks|e] eqn:Pv.
  - apply (assign_unknown_data resp unks h1) in H; [|exact Dr | reflexivity].
    destruct H as (n & h'' & A & D). exists h''.
    repeat split; auto. exists v, h1. split; [exact Pop|]. right. eauto.
  - injection H as _ <-. exists h1. repeat split; auto.
    exists v, h1. auto.
Qed.

Lemma headers_stage_post resp req res banner :
  dict_lookup "response" d0 = Some resp ->
  data_post (headers_stage E resp req res banner).
Proof.
  intro R. unfold headers_stage.
  apply data_post_lift. intros headers G.
  do 3 (apply data_post_lift; intros ? _). cbv zeta.
  apply data_post_lift. intros has_unk P.
  apply data_post_bind_r.
  - destruct has_unk.
    + exact (flatten_post resp headers R G P).
    + apply data_post_same. prv_data.
  - intro h. prv_data.
Qed.

Lemma generic_post resp req url res port :
  dict_lookup "response" d0 = Some resp ->
  data_post (generic E resp req url res port).
Proof.
  intro R. unfold generic. cbv zeta.
  do 6 (apply data_post_lift; intros ? _).
  apply data_post_bind_r.
  - destruct (truthy _).
    + apply headers_stage_post. exact R.
    + apply data_post_same. prv_data.
  - intros [r b]. prv_data. apply body_stage_data.
Qed.

Lemma after_prologue_post c :
  dict_lookup "response" d0 = Some (c_resp c) ->
  data_post (after_prologue E c).
Proof.
  intro R. unfold after_prologue. cbv zeta.
  destruct (truthy (c_url c)).
  - apply data_post_bind_l; [apply url_port_data | intro port].
    apply data_post_lift; intros path _.
    apply data_post_lift; intros is_git _.
    destruct path as [| b | z | p | l | d | m]; try (apply data_post_same; prv_data; fail).
    destruct is_git; [apply data_post_same, git_branch_data|].
    destruct (str_endswith_s _ _); [apply data_post_same, owa_branch_data|].
    apply generic_post. exact R.
  - apply data_post_lift. intros ? _.
    apply data_post_bind_l; [prv_data | intro port].
    apply generic_post. exact R.
Qed.

End DataFrame.

Lemma prologue_resp E s c s1 :
  prologue E s = (Ret (Some c), s1) ->
  dict_lookup "response" (st_data s1) = Some (c_resp c).
Proof.
  intro H. unfold prologue in H. split_ret; try discriminate.
  all: match goal with
       | T : tls_stage _ _ _ _ = (_, _) |- _ => rewrite (tls_stage_data _ _ _ _ _ _ T)
       end; assumption.
Qed.

Lemma bind_same_r {A B} (m : M A) (k : A -> M B) s o s' :
  (forall a, preserves same_data (k a)) ->
  bind m k s = (o, s') -> exists o1 s1, m s = (o1, s1) /\ st_data s' = st_data s1.
Proof.
  intro Hk. unfold bind. destruct (m s) as [[a|e] s1] eqn:Em; intro H.
  - exists (Ret a), s1. split; [reflexivity | exact (Hk _ _ _ _ H)].
  - injection H as _ <-. eauto.
Qed.

Lemma prologue_data E s o s1 :
  result_ok (st_data s) ->
  prologue E s = (o, s1) -> st_data s1 = reconciled (st_data s).
Proof.
  intros Rk H. unfold prologue in H. unfold bind at 1 in H.
  change (get_data s) with (Ret (st_data s), s) in H. cbv beta iota in H.
  destruct (st_data s) as [|kv d] eqn:D.
  - injection H as _ <-. exact D.
  - apply bind_same_r in H.
    2: { intro u. prv_data. apply tls_stage_data. }
    destruct H as (o1 & s2 & M1 & ->).
    unfold reconciled, result_ok in *.
    destruct (dict_mem "result" (kv :: d)) eqn:Mem.
    + unfold dict_mem in Mem.
      destruct (dict_lookup "result" (kv :: d)) as [j|] eqn:L; [|discriminate].
      rewrite <- dict_pop_fst in L.
      destruct (dict_pop "result" (kv :: d)) as [v d1] eqn:P.
      simpl in L. subst v.
      destruct j as [| b | z | t | l | c | m]; try contradiction.
      cbv beta iota in M1. unfold bind, put_data, update_data, get_data in M1.
      injection M1 as _ <-. reflexivity.
    + unfold dict_mem in Mem.
      destruct (dict_lookup "result" (kv :: d)) eqn:L; [discriminate|].
      rewrite (dict_pop_none _ _ L).
      injection M1 as _ <-. exact D.
Qed.

(** ** The port value *)

Lemma prefix_char c h :
  String.prefix (String c EmptyString) h
  = match h with String c' _ => Ascii.eqb c c' | EmptyString => false end.
Proof.
  destruct h as [|c' h]; simpl; [reflexivity|].
  destruct (ascii_dec c c') as [->|Hne].
  - rewrite Ascii.eqb_refl. destruct h; reflexivity.
  - symmetry. apply Ascii.eqb_neq. exact Hne.
Qed.

Lemma contains_char c h :
  contains_substring (String c EmptyString) h
  = match after_first c h with Some _ => true | None => false end.
Proof.
  induction h as [|c' h IH]; [reflexivity|].
  change (contains_substring (String c EmptyString) (String c' h))
    with (if String.prefix (String c EmptyString) (String c' h) then true
          else contains_substring (String c EmptyString) h).
  rewrite prefix_char. simpl. destruct (Ascii.eqb c c'); [reflexivity | exact IH].
Qed.

Lemma field_lookup k j :
  field k j = match lookup_key k j with Some v => v | None => JNull end.
Proof. destruct j; reflexivity. Qed.

Lemma dget_field j k v : dget j k JNull = Ret v -> field k j = v.
Proof.
  destruct j as [| b | z | t | l | d | m]; simpl; try discriminate.
  - destruct (dict_lookup k d); intro H; injection H as <-; reflexivity.
  - destruct (map_lookup (JStr k) m); intro H; injection H as <-; reflexivity.
Qed.

Lemma getitem_field j k v : getitem j k = Ret v -> field k j = v.
Proof.
  intro H. apply getitem_lookup in H. rewrite field_lookup, H. reflexivity.
Qed.

Lemma dget_dict j k def : is_dict j = true ->
  dget j k def = Ret (match lookup_key k j with Some v => v | None => def end).
Proof.
  destruct j as [| | | | | d | kvs]; try discriminate; intros _; simpl;
    [destruct (dict_lookup k d) | destruct (map_lookup (JStr k) kvs)]; reflexivity.
Qed.

Lemma getitem_dict j k : is_dict j = true ->
  getitem j k = match lookup_key k j with Some v => Ret v | None => Raise KeyError end.
Proof.
  destruct j as [| | | | | d | kvs]; try discriminate; intros _; simpl;
    [destruct (dict_lookup k d) | destruct (map_lookup (JStr k) kvs)]; reflexivity.
Qed.

Lemma url_port_value req url s n s' :
  field "url" req = url -> truthy url = true ->
  url_port url s = (Ret n, s') -> n = inferred_port req.
Proof.
  intros U T H. unfold inferred_port. rewrite U, T. cbv zeta. clear U T.
  unfold url_port in H.
  assert (Dr : is_dict url = true)
    by (destruct url; try discriminate H; reflexivity).
  rewrite !field_lookup.
  rewrite (dget_dict _ _ _ Dr), (dget_dict _ _ _ Dr), (getitem_dict _ _ Dr) in H.
  unfold bind, lift, try_except in H.
  destruct (lookup_key "host" url) as [host|] eqn:Lh;
    [destruct host as [| b | z | h | l | d | m] |]; cbn in H; try discriminate H;
    rewrite ?contains_char in H;
    repeat (match type of H with
            | context [after_first ?c ?h] => destruct (after_first c h)
            | context [py_int ?t] => destruct (py_int t)
            | context [lookup_key "scheme" ?o] => destruct (lookup_key "scheme" o)
            | context [existsb ?f ?l] => destruct (existsb f l)
            | context [dict_mem ?k ?d] => destruct (dict_mem k d)
            end; cbn in H);
    unfold ret, raise in H; cbn; congruence.
Qed.

Lemma generic_port_value E resp req url res port s r s' :
  fp_service_fields E ->
  generic E resp req url res port s = (Ret r, s') -> dict_lookup "port" r = Some (JNum port).
Proof.
  intros F H. unfold generic in H. split_ret.
  all: repeat match goal with
       | H : body_stage _ _ _ _ _ = (Ret _, _) |- _ =>
           rewrite (body_stage_other _ _ _ _ _ _ _ _ H) by discriminate; clear H
       end.
  all: match goal with
       | |- context [match_nmap_svc_fp ?E ?b] =>
           pose proof (fun v Hv => proj1 (F b "port" v Hv) eq_refl) as Fb;
           destruct (match_nmap_svc_fp E b) as [|p l];
           [ | etransitivity; [apply (dict_update_other "port" _ (p :: l)); exact Fb |]]
       end.
  all: repeat match goal with
       | H : headers_stage _ _ _ _ _ _ = (Ret (_, _), _) |- _ =>
           rewrite (headers_stage_other _ _ _ _ _ _ _ _ _ _ H) by discriminate; clear H
       end.
  all: apply dict_lookup_set_same.
Qed.

Lemma git_branch_port_value resp url res port p s r s' :
  git_branch resp url res port p s = (Ret r, s') ->
  r = [] \/ dict_lookup "port" r = Some (JNum port).
Proof.
  intro H. unfold git_branch in H. split_ret; auto.
  right. through_scripts. apply dict_lookup_set_same.
Qed.

Lemma owa_branch_port_value E resp res port p s r s' :
  owa_branch E resp res port p s = (Ret r, s') ->
  r = [] \/ dict_lookup "port" r = Some (JNum port).
Proof.
  intro H. unfold owa_branch in H. split_ret; auto.
  right. through_scripts. apply dict_lookup_set_same.
Qed.

Lemma after_prologue_port_value E c s r s' :
  fp_service_fields E ->
  c_url c = field "url" (c_req c) ->
  after_prologue E c s = (Ret r, s') ->
  r = [] \/ dict_lookup "port" r = Some (JNum (inferred_port (c_req c))).
Proof.
  intros F U H. unfold after_prologue in H. cbv zeta in H.
  destruct (truthy (c_url c)) eqn:T.
  - apply bind_Ret in H. destruct H as (port & s1 & P & H).
    pose proof (url_port_value (c_req c) (c_url c) _ _ _ (eq_sym U) T P) as ->.
    split_ret.
    all: first [ now apply git_branch_port_value in H
               | now apply owa_branch_port_value in H
               | right; now apply generic_port_value in H ].
  - split_ret; right; apply generic_port_value in H; auto; rewrite H.
    all: unfold inferred_port; rewrite <- U, T.
    all: repeat match goal with D : dget _ _ JNull = Ret _ |- _ => apply dget_field in D end.
    all: subst; repeat match goal with
                       | Hb : truthy ?x = _ |- context [truthy ?x] => rewrite Hb
                       end.
    all: reflexivity.
Qed.

Lemma prologue_ctx E s c s1 :
  prologue E s = (Ret (Some c), s1) ->
  c_req c = field "request" (c_resp c) /\ c_url c = field "url" (c_req c).
Proof.
  intro H. unfold prologue in H. split_ret; try discriminate.
  all: simpl; split;
       [ symmetry; apply getitem_field; assumption
       | symmetry; apply dget_field; assumption ].
Qed.

(** ** The address of the host record *)

Lemma addr_rel_refl s : addr_rel s s.
Proof. reflexivity. Qed.

Lemma addr_rel_trans s1 s2 s3 : addr_rel s1 s2 -> addr_rel s2 s3 -> addr_rel s1 s3.
Proof. unfold addr_rel. congruence. Qed.

#[local] Hint Resolve addr_rel_refl addr_rel_trans : core.

Lemma add_hostnames_addr E certs : preserves addr_rel (add_hostnames E certs).
Proof.
  induction certs as [|cert certs IH]; simpl; [apply preserves_ret; eauto|].
  intros s o s' H. cbn [bind get_hostrec put_hostrec lift] in H.
  unfold dict_mem in H.
  destruct (dict_lookup "hostnames" (st_hostrec s)) as [h|] eqn:D; simpl in H;
    match type of H with
    | context [add_cert_hostnames E cert ?h] => destruct (add_cert_hostnames E cert h)
    end; simpl in H.
  all: try (injection H as _ <-; unfold addr_rel; simpl;
            rewrite ?dict_lookup_set_other by discriminate; reflexivity).
  all: eapply addr_rel_trans; [|eapply IH; exact H];
       unfold addr_rel; simpl; rewrite !dict_lookup_set_other by discriminate;
       reflexivity.
Qed.

Lemma update_pairs_addr items : preserves addr_rel (update_pairs items).
Proof.
  induction items as [|it its IH]; simpl; prv; auto.
  all: intros ? ? ? Hp; injection Hp as _ <-; reflexivity.
Qed.

Lemma prologue_addr E : preserves addr_rel (prologue E).
Proof.
  unfold prologue, tls_stage, update_data. prv.
  all: try apply add_hostnames_addr.
  all: try apply update_pairs_addr.
  all: intros ? ? ? Hp; injection Hp as _ <-; reflexivity.
Qed.

Lemma append_script_scripts res sc res' :
  append_script res sc = Ret res' ->
  exists l, dict_lookup "scripts" res' = Some (JArr (app l [sc]))
    /\ ((dict_lookup "scripts" res = None /\ l = [])
        \/ dict_lookup "scripts" res = Some (JArr l)).
Proof.
  unfold append_script. intro H.
  destruct (dict_lookup "scripts" res) as [[| b | z | t | l | d | m]|] eqn:L;
    try discriminate H; injection H as <-.
  - exists l. rewrite dict_lookup_set_same. auto.
  - exists []. rewrite dict_lookup_set_same. auto.
Qed.

Lemma tls_stage_scripts E req s res s' :
  tls_stage E req base_res s = (Ret res, s') ->
  dict_lookup "scripts" res = None
  \/ exists o info, dict_lookup "scripts" res = Some (JArr [script3 "ssl-cert" o info]).
Proof.
  intro H. unfold tls_stage in H. split_ret; auto.
  all: match goal with
       | A : append_script _ _ = Ret _ |- _ =>
           apply append_script_scripts in A; destruct A as (l & -> & [[_ ->] | A]);
           [ right; do 2 eexists; reflexivity | discriminate A ]
       end.
Qed.

Lemma prologue_scripts E s c s1 :
  prologue E s = (Ret (Some c), s1) ->
  exists pre, tls_scripts pre
    /\ ((dict_lookup "scripts" (c_res c) = None /\ pre = [])
        \/ dict_lookup "scripts" (c_res c) = Some (JArr pre)).
Proof.
  intro H. unfold prologue in H. split_ret; try discriminate.
  all: match goal with
       | T : tls_stage _ _ _ _ = (Ret _, _) |- _ =>
           destruct (tls_stage_scripts _ _ _ _ _ T) as [N | (so & si & N)]; simpl;
           [ exists []; split; [left; reflexivity | left; split; [exact N | reflexivity]]
           | exists [script3 "ssl-cert" so si]; split; [right; eauto | right; exact N] ]
       end.
Qed.

(** ** Following the URL *)

Lemma same_state_refl s : same_state s s.
Proof. reflexivity. Qed.

Lemma same_state_trans s1 s2 s3 : same_state s1 s2 -> same_state s2 s3 -> same_state s1 s3.
Proof. unfold same_state. congruence. Qed.

#[local] Hint Resolve same_state_refl same_state_trans : core.

Lemma url_port_state url s o s' : url_port url s = (o, s') -> s' = s.
Proof.
  revert s o s'. change (preserves same_state (url_port url)).
  unfold url_port. prv.
Qed.

Lemma bind_lift_Ret {A B} (a : A) (k : A -> M B) : bind (lift (Ret a)) k = k a.
Proof. reflexivity. Qed.

Lemma field_dget k j v d : field k j = JStr v -> dget j k d = Ret (JStr v).
Proof.
  destruct j as [| b | z | t | l | o | m]; simpl; try discriminate.
  - destruct (dict_lookup k o); congruence.
  - destruct (map_lookup (JStr k) m); congruence.
Qed.

Lemma field_truthy k j v : field k j = JStr v -> truthy j = true.
Proof.
  destruct j as [| b | z | t | l | [|kv o] | [|kv m]]; simpl; try discriminate; reflexivity.
Qed.

(** With a URL whose [path] is a string, the branch taken after line 107. *)
Lemma after_prologue_url E c s r s' p :
  c_url c = field "url" (c_req c) ->
  field "path" (c_url c) = JStr p ->
  after_prologue E c s = (Ret r, s') ->
  let port := inferred_port (c_req c) in
  if str_endswith_s p "/.git/index"
  then git_branch (c_resp c) (c_url c) (c_res c) port p s = (Ret r, s')
  else if str_endswith_s p "/owa/auth/logon.aspx"
  then owa_branch E (c_resp c) (c_res c) port p s = (Ret r, s')
  else generic E (c_resp c) (c_req c) (c_url c) (c_res c) port s = (Ret r, s').
Proof.
  intros U Pp H. cbv zeta. unfold after_prologue in H. cbv zeta in H.
  rewrite (field_truthy _ _ _ Pp) in H.
  apply bind_Ret in H. destruct H as (port & s1 & Pu & H).
  pose proof (url_port_state _ _ _ _ Pu) as ->.
  rewrite <- (url_port_value _ _ _ _ _ (eq_sym U) (field_truthy _ _ _ Pp) Pu).
  rewrite (field_dget _ _ _ JNull Pp), bind_lift_Ret in H.
  cbn [py_endswith] in H. rewrite bind_lift_Ret in H.
  destruct (str_endswith_s p "/.git/index"); [exact H|].
  destruct (str_endswith_s p "/owa/auth/logon.aspx"); exact H.
Qed.

(** Without a truthy URL, the generic path with the TLS default port. *)
Lemma after_prologue_nourl E c s r s' :
  c_url c = field "url" (c_req c) ->
  truthy (c_url c) = false ->
  after_prologue E c s = (Ret r, s') ->
  generic E (c_resp c) (c_req c) (c_url c) (c_res c) (inferred_port (c_req c)) s = (Ret r, s').
Proof.
  intros U T H. unfold after_prologue in H. cbv zeta in H. rewrite T in H.
  unfold inferred_port. rewrite <- U, T.
  apply bind_Ret in H. destruct H as (t1 & s1 & L1 & H). apply lift_inv in L1.
  destruct L1 as [L1 <-]. apply dget_field in L1. rewrite L1.
  destruct (truthy t1); simpl in H |- *.
  - exact H.
  - apply bind_Ret in H. destruct H as (port & s2 & P & H).
    apply bind_Ret in P. destruct P as (t2 & s3 & L2 & P). apply lift_inv in L2.
    destruct L2 as [L2 <-]. apply dget_field in L2. rewrite L2.
    apply ret_inv in P. destruct P as [P <-]. injection P as <-. exact H.
Qed.

(** What a normal return tells about the prologue. *)
Lemma run_ctx E data hostrec log r s' :
  result_ok data ->
  run E data hostrec log = (Ret r, s') ->
  r = []
  \/ exists c s1,
       dict_lookup "response" (reconciled data) = Some (c_resp c)
       /\ c_req c = field "request" (c_resp c)
       /\ c_url c = field "url" (c_req c)
       /\ dict_lookup "addr" (st_hostrec s1) = dict_lookup "addr" hostrec
       /\ (exists pre, tls_scripts pre
             /\ ((dict_lookup "scripts" (c_res c) = None /\ pre = [])
                 \/ dict_lookup "scripts" (c_res c) = Some (JArr pre)))
       /\ after_prologue E c s1 = (Ret r, s').
Proof.
  intros Rk H. unfold run, zgrap_parser_http in H.
  apply bind_Ret in H. destruct H as (c & s1 & P & H).
  destruct c as [c|]; [right | left; injection H as <- _; reflexivity].
  pose proof (prologue_data E (mkState data hostrec log) _ _ Rk P) as D.
  pose proof (prologue_resp _ _ _ _ P) as R.
  destruct (prologue_ctx _ _ _ _ P) as [Q U].
  pose proof (prologue_addr E _ _ _ P) as A.
  simpl in D. rewrite D in R.
  exists c, s1. repeat split; auto.
  exact (prologue_scripts _ _ _ _ P).
Qed.

(** ** The detectors *)

Lemma substring_empty a b : substring a b EmptyString = EmptyString.
Proof. destruct a, b; reflexivity. Qed.

Lemma substring_prefix l m s : (l <= m)%nat ->
  substring 0 l (substring 0 m s) = substring 0 l s.
Proof.
  revert m s. induction l as [|l IH]; intros m s Hl; [destruct m, s; reflexivity|].
  destruct m as [|m]; [lia|]. destruct s as [|c s]; [reflexivity|].
  simpl. rewrite IH by lia. reflexivity.
Qed.

Lemma substring_substring n m k l s : (k + l <= m)%nat ->
  substring k l (substring n m s) = substring (n + k) l s.
Proof.
  revert s. induction n as [|n IH]; intro s; simpl.
  - revert m s. induction k as [|k IHk]; intros m s Hkl; simpl.
    + apply substring_prefix. lia.
    + destruct m as [|m]; [lia|]. destruct s as [|c s]; [apply substring_empty|].
      simpl. apply IHk. lia.
  - destruct s as [|c s]; intro Hkl.
    + rewrite !substring_empty. reflexivity.
    + apply IH. exact Hkl.
Qed.

Lemma owa_path_not_git p :
  str_endswith_s p "/owa/auth/logon.aspx" = true ->
  str_endswith_s p "/.git/index" = false.
Proof.
  unfold str_endswith_s. cbn [String.length]. intro O.
  apply andb_prop in O. destruct O as [O1 O2].
  apply Nat.leb_le in O1. apply String.eqb_eq in O2.
  destruct (Nat.leb 11 (String.length p)) eqn:G1; [|reflexivity].
  destruct (String.eqb (substring (String.length p - 11) 11 p) "/.git/index") eqn:G2;
    [|reflexivity].
  apply String.eqb_eq in G2.
  replace (String.length p - 11)%nat with (String.length p - 20 + 9)%nat in G2 by lia.
  rewrite <- (substring_substring (String.length p - 20) 20 9 11 p) in G2 by lia.
  rewrite O2 in G2. discriminate G2.
Qed.

Lemma dget_body resp b : dget resp "body" (JStr "") = Ret b -> body_or_empty resp = b.
Proof.
  destruct resp as [| x | z | t | l | d | m]; simpl; try discriminate.
  - destruct (dict_lookup "body" d); intro H; injection H as <-; reflexivity.
  - destruct (map_lookup (JStr "body") m); intro H; injection H as <-; reflexivity.
Qed.

Lemma git_branch_fails resp url res port p s r s' :
  git_check_fails resp = true ->
  git_branch resp url res port p s = (Ret r, s') -> r = [].
Proof.
  intros F H. unfold git_branch in H. split_ret; auto.
  exfalso. unfold git_check_fails in F.
  repeat match goal with
         | D : dget resp "status_code" JNull = Ret _ |- _ => apply dget_field in D
         | D : dget resp "body" (JStr "") = Ret _ |- _ => apply dget_body in D
         end.
  subst. match goal with
         | X : py_startswith ?b _ = Ret _ |- _ =>
             destruct b; simpl in X; try discriminate X; injection X as X
         end.
  match goal with
  | X : negb (is_num _ _) = false, Y : String.prefix _ _ = ?x, Z : negb ?x = false |- _ =>
      rewrite X, Y, Z in F; discriminate F
  end.
Qed.

Lemma owa_branch_fails E resp res port p s r s' :
  set_order_perm E ->
  owa_check_fails resp = true ->
  owa_branch E resp res port p s = (Ret r, s') -> r = [].
Proof.
  intros So F H. unfold owa_branch in H. split_ret; auto.
  exfalso. unfold owa_check_fails in F.
  repeat match goal with
         | D : dget resp "status_code" JNull = Ret _ |- _ => apply dget_field in D
         | D : dget resp "body" (JStr "") = Ret _ |- _ => apply dget_body in D
         end.
  subst. match goal with
         | X : regex_subject ?b = Ret _ |- _ =>
             destruct b; simpl in X; try discriminate X; injection X as <-
         end.
  match goal with
  | X : negb (is_num _ _) = false |- _ => rewrite X in F
  end.
  match goal with
  | X : set_order E (dedup_strings ?l) = _ :: _ |- _ =>
      destruct l; simpl in F; [|discriminate F];
      pose proof (So []) as Pm; simpl in X; rewrite X in Pm;
      apply Permutation_sym, Permutation_nil in Pm; discriminate Pm
  end.
Qed.

(** C4: when the URL path matches a detector's suffix
    ([/.git/index] or [/owa/auth/logon.aspx]) but its content check
    fails (status other than 200, or a body not starting with [DIRC],
    or one without any OWA version marker), a call that returns gives
    the empty mapping: it never falls through to the generic path.  The
    OWA check relies on a set being empty exactly when its iteration
    is. *)
Theorem zgrap_detector_hard_fail :
  forall E data hostrec log r s' resp p,
    result_ok data -> set_order_perm E ->
    dict_lookup "response" (reconciled data) = Some resp ->
    field "path" (field "url" (field "request" resp)) = JStr p ->
    (str_endswith_s p "/.git/index" && git_check_fails resp
     || str_endswith_s p "/owa/auth/logon.aspx" && owa_check_fails resp) = true ->
    run E data hostrec log = (Ret r, s') -> r = [].
Proof.
  intros E data hostrec log r s' resp p Rk So R0 Pp F H.
  destruct (run_ctx _ _ _ _ _ _ Rk H)
    as [-> | (c & s1 & R & Q & U & _ & _ & Hc)]; [reflexivity|].
  rewrite R0 in R. injection R as ->.
  rewrite <- Q, <- U in Pp.
  pose proof (after_prologue_url _ _ _ _ _ _ U Pp Hc) as G. cbv zeta in G.
  destruct (str_endswith_s p "/.git/index") eqn:Gp; simpl in F.
  - destruct (git_check_fails (c_resp c)) eqn:Gf.
    + exact (git_branch_fails _ _ _ _ _ _ _ _ Gf G).
    + apply andb_prop in F. destruct F as [Op _].
      rewrite (owa_path_not_git _ Op) in Gp. discriminate Gp.
  - apply andb_prop in F. destruct F as [Op Of].
    rewrite Op in G.
    exact (owa_branch_fails _ _ _ _ _ _ _ _ So Of G).
Qed.

(** ** Sorting the OWA versions *)

Lemma lex_ltb_irrefl a : lex_ltb a a = false.
Proof.
  induction a as [|x a IH]; simpl; [reflexivity|].
  rewrite Z.ltb_irrefl. exact IH.
Qed.

Lemma lex_ltb_trans a b c :
  lex_ltb a b = true -> lex_ltb b c = true -> lex_ltb a c = true.
Proof.
  revert b c. induction a as [|x a IH]; intros [|y b] [|z c]; simpl; try discriminate; auto.
  destruct (Z.ltb_spec x y), (Z.ltb_spec y x), (Z.ltb_spec y z), (Z.ltb_spec z y),
    (Z.ltb_spec x z), (Z.ltb_spec z x); try lia; try discriminate; auto.
  assert (x = y) by lia. assert (y = z) by lia. subst. apply IH.
Qed.

Lemma insert_version_perm v l : Permutation (insert_version v l) (v :: l).
Proof.
  induction l as [|w l IH]; simpl; [reflexivity|].
  destruct (lex_ltb (version_key v) (version_key w)); [reflexivity|].
  eapply perm_trans; [apply perm_skip, IH | apply perm_swap].
Qed.

Lemma sort_versions_perm l : Permutation (sort_versions l) l.
Proof.
  unfold sort_versions.
  assert (G : forall acc, Permutation (fold_left (fun acc v => insert_version v acc) l acc)
                                      (app l acc)).
  { induction l as [|v l IH]; intro acc; simpl; [reflexivity|].
    eapply perm_trans; [apply IH|].
    eapply perm_trans; [apply Permutation_app_head, insert_version_perm|].
    apply Permutation_sym, Permutation_middle. }
  rewrite <- (app_nil_r l) at 2. apply G.
Qed.

Lemma insert_version_least v l : head_least l -> head_least (insert_version v l).
Proof.
  unfold head_least. destruct l as [|w l]; simpl; intro Hl.
  - intros u [<-|[]]. apply lex_ltb_irrefl.
  - destruct (lex_ltb (version_key v) (version_key w)) eqn:Vw; simpl.
    + intros u [<-|Hu]; [apply lex_ltb_irrefl|].
      destruct (lex_ltb (version_key u) (version_key v)) eqn:Uv; [|reflexivity].
      pose proof (lex_ltb_trans _ _ _ Uv Vw) as T.
      pose proof (Hl u Hu) as T'. congruence.
    + intros u [<-|Hu]; [apply Hl; left; reflexivity|].
      apply (Permutation_in _ (insert_version_perm v l)) in Hu.
      destruct Hu as [<-|Hu]; [exact Vw|]. apply Hl. right. exact Hu.
Qed.

Lemma sort_versions_least l : head_least (sort_versions l).
Proof.
  unfold sort_versions.
  assert (G : forall acc, head_least acc ->
                head_least (fold_left (fun acc v => insert_version v acc) l acc)).
  { induction l as [|v l IH]; intros acc Ha; simpl; [exact Ha|].
    apply IH, insert_version_least, Ha. }
  apply G. intros u [].
Qed.

Lemma field_body resp b : field "body" resp = JStr b -> body_or_empty resp = JStr b.
Proof.
  destruct resp as [| x | z | t | l | d | m]; simpl; try discriminate.
  - destruct (dict_lookup "body" d); congruence.
  - destruct (map_lookup (JStr "body") m); congruence.
Qed.

(** ** Missing fields *)

Lemma bind_run {A B} (m : M A) (k : A -> M B) s a s1 :
  m s = (Ret a, s1) -> bind m k s = k a s1.
Proof. unfold bind. intro H. rewrite H. reflexivity. Qed.

Lemma merge_step data h l :
  result_ok data ->
  (if dict_mem "result" data then
     let '(v, d1) := dict_pop "result" data in
     put_data d1 ;;
     update_data (match v with Some v => v | None => JNull end)
   else ret tt) (mkState data h l)
  = (Ret tt, mkState (reconciled data) h l).
Proof.
  intro Rk. unfold reconciled, result_ok, dict_mem in *.
  destruct (dict_lookup "result" data) as [j|] eqn:L.
  - rewrite <- dict_pop_fst in L.
    destruct (dict_pop "result" data) as [v d1] eqn:P. simpl in L. subst v.
    destruct j as [| b | z | t | ls | c | m]; try contradiction. reflexivity.
  - rewrite (dict_pop_none _ _ L). reflexivity.
Qed.

Lemma keys_mem f d :
  existsb (is_str f) (map (fun kv => JStr (fst kv)) d) = dict_mem f d.
Proof.
  unfold dict_mem. induction d as [|[k v] d IH]; simpl; [reflexivity|].
  destruct (String.eqb f k); [reflexivity | exact IH].
Qed.

Lemma keys_hashable (d : dict) : forallb hashable (map (fun kv => JStr (fst kv)) d) = true.
Proof. induction d as [|kv d IH]; simpl; [reflexivity | exact IH]. Qed.

Lemma prologue_no_response E data h l :
  data <> [] -> result_ok data ->
  dict_lookup "response" (reconciled data) = None ->
  prologue E (mkState data h l)
  = (Ret None, mkState (reconciled data) h (app l [MissingResponse])).
Proof.
  intros Ne Rk N. unfold prologue.
  rewrite (bind_run get_data _ (mkState data h l) data _ eq_refl).
  destruct data as [|kv d]; [contradiction|].
  rewrite (bind_run _ _ _ _ _ (merge_step _ h l Rk)).
  rewrite (bind_run get_data _ (mkState (reconciled (kv :: d)) h l) _ _ eq_refl).
  cbn [st_data]. rewrite N. reflexivity.
Qed.

Lemma prologue_missing E data h l d :
  data <> [] -> result_ok data ->
  dict_lookup "response" (reconciled data) = Some (JObj d) ->
  missing_fields d <> [] ->
  prologue E (mkState data h l)
  = (Ret None, mkState (reconciled data) h
                 (app l [MissingFields (set_order E (missing_fields d))])).
Proof.
  intros Ne Rk R Ms. unfold prologue.
  rewrite (bind_run get_data _ (mkState data h l) data _ eq_refl).
  destruct data as [|kv d0]; [contradiction|].
  rewrite (bind_run _ _ _ _ _ (merge_step _ h l Rk)).
  rewrite (bind_run get_data _ (mkState (reconciled (kv :: d0)) h l) _ _ eq_refl).
  cbn [st_data]. rewrite R. cbn [py_iter]. rewrite bind_lift_Ret, keys_hashable.
  assert (F : filter (fun f => negb (existsb (is_str f) (map (fun kv => JStr (fst kv)) d)))
                needed_fields = missing_fields d).
  { unfold missing_fields. apply filter_ext. intro f. rewrite keys_mem. reflexivity. }
  rewrite F. destruct (missing_fields d) as [|m ms]; [contradiction|].
  reflexivity.
Qed.

Lemma prologue_not_none E data h l d o s1 :
  result_ok data ->
  dict_lookup "response" (reconciled data) = Some (JObj d) ->
  missing_fields d = [] ->
  prologue E (mkState data h l) = (o, s1) -> o <> Ret None.
Proof.
  intros Rk R Mf. unfold prologue.
  rewrite (bind_run get_data _ (mkState data h l) data _ eq_refl).
  destruct data as [|kv d0]; [cbv in R; discriminate R|].
  rewrite (bind_run _ _ _ _ _ (merge_step _ h l Rk)).
  rewrite (bind_run get_data _ (mkState (reconciled (kv :: d0)) h l) _ _ eq_refl).
  cbn [st_data]. rewrite R. cbn [py_iter]. rewrite bind_lift_Ret, keys_hashable.
  assert (F : filter (fun f => negb (existsb (is_str f) (map (fun kv => JStr (fst kv)) d)))
                needed_fields = missing_fields d).
  { unfold missing_fields. apply filter_ext. intro f. rewrite keys_mem. reflexivity. }
  rewrite F, Mf. intros H ->. split_ret. all: congruence.
Qed.

(** What a normal return tells about a complete response. *)
Lemma run_some E data hostrec log r s' d :
  result_ok data ->
  dict_lookup "response" (reconciled data) = Some (JObj d) ->
  missing_fields d = [] ->
  run E data hostrec log = (Ret r, s') ->
  exists c s1,
    c_resp c = JObj d
    /\ c_req c = field "request" (c_resp c)
    /\ c_url c = field "url" (c_req c)
    /\ dict_lookup "addr" (st_hostrec s1) = dict_lookup "addr" hostrec
    /\ (exists pre, tls_scripts pre
          /\ ((dict_lookup "scripts" (c_res c) = None /\ pre = [])
              \/ dict_lookup "scripts" (c_res c) = Some (JArr pre)))
    /\ after_prologue E c s1 = (Ret r, s').
Proof.
  intros Rk R0 Mf H. unfold run, zgrap_parser_http in H.
  apply bind_Ret in H. destruct H as (c & s1 & P & H).
  destruct c as [c|];
    [| exfalso; exact (prologue_not_none _ _ _ _ _ _ _ Rk R0 Mf P eq_refl)].
  pose proof (prologue_data E (mkState data hostrec log) _ _ Rk P) as D.
  pose proof (prologue_resp _ _ _ _ P) as R.
  destruct (prologue_ctx _ _ _ _ P) as [Q U].
  pose proof (prologue_addr E _ _ _ P) as A.
  simpl in D. rewrite D, R0 in R. injection R as R.
  exists c, s1. repeat split; auto.
  exact (prologue_scripts _ _ _ _ P).
Qed.

(** C2 (amended): take a [response] mapping that has [request],
    [status_code] and [status_line], whose URL path ends with
    [/.git/index] (for instance [/x/.git/index]), whose status is 200 and
    whose body is a string starting with [DIRC].  A call that returns
    gives a record whose scripts are the ones of the TLS step (none, or
    one [ssl-cert] script) followed by exactly one [http-git] script,
    whose repository string is the host address, [:], the inferred port
    and the path without its last five characters [index] (so
    [/x/.git/], with the trailing slash), and whose payload lists
    [files-found] [[.git/index]]. *)
Theorem zgrap_git_record :
  forall E data hostrec log r s' d p b addr,
    result_ok data ->
    dict_lookup "response" (reconciled data) = Some (JObj d) ->
    missing_fields d = [] ->
    field "path" (field "url" (field "request" (JObj d))) = JStr p ->
    str_endswith_s p "/.git/index" = true ->
    is_num 200 (field "status_code" (JObj d)) = true ->
    field "body" (JObj d) = JStr b -> String.prefix "DIRC" b = true ->
    dict_lookup "addr" hostrec = Some addr ->
    run E data hostrec log = (Ret r, s') ->
    exists pre, tls_scripts pre
      /\ dict_lookup "scripts" r
         = Some (JArr (app pre
              [git_script (py_str addr ++ ":"
                           ++ z_dec (inferred_port (field "request" (JObj d)))
                           ++ drop_last 5 p)])).
Proof.
  intros E data hostrec log r s' d p b addr Rk R0 Mf Pp Pg St Bd Dc A H.
  destruct (run_some _ _ _ _ _ _ _ Rk R0 Mf H)
    as (c & s1 & R & Q & U & Ad & (pre & Tp & Sc) & Hc).
  rewrite <- R in Pp, St, Bd |- *.
  rewrite <- Q in Pp |- *. rewrite <- U in Pp.
  pose proof (after_prologue_url _ _ _ _ _ _ U Pp Hc) as G. cbv zeta in G.
  rewrite Pg in G. clear Hc.
  unfold git_branch in G. split_ret.
  all: repeat match goal with
         | D : dget _ "status_code" JNull = Ret ?sc |- _ =>
             apply dget_field in D; rewrite <- D in *; clear D
         | D : dget _ "body" (JStr "") = Ret _ |- _ =>
             apply dget_body in D; rewrite (field_body _ _ Bd) in D; subst
         | X : py_startswith (JStr _) _ = Ret _ |- _ => simpl in X; injection X as <-
         end.
  all: try match goal with
           | X : negb (is_num _ _) = true |- _ => rewrite St in X; discriminate X
           | X : negb (String.prefix _ _) = true |- _ => rewrite Dc in X; discriminate X
           end.
  exists pre. split; [exact Tp|].
  match goal with
  | X : getitem (JObj _) "addr" = Ret _ |- _ =>
      simpl in X; rewrite Ad, A in X; injection X as <-
  end.
  match goal with
  | X : append_script _ _ = Ret _ |- _ =>
      apply append_script_scripts in X; destruct X as (l & -> & L)
  end.
  rewrite dict_lookup_set_other in L by discriminate.
  destruct Sc as [[N ->] | N]; destruct L as [[L ->] | L]; congruence.
Qed.

Lemma owa_finditer_fuel_none f s :
  contains_substring owa_prefix s = false -> owa_finditer_fuel f s = [].
Proof.
  revert s. induction f as [|f IH]; intros s C; [reflexivity|].
  destruct s as [|a s'].
  - reflexivity.
  - cbn [contains_substring] in C.
    destruct (String.prefix owa_prefix (String a s')) eqn:P; [discriminate C|].
    cbn [owa_finditer_fuel]. unfold owa_at. rewrite P. apply IH. exact C.
Qed.

(** A body in which no double quote is followed by [/owa/] holds no
    version marker. *)
Lemma owa_finditer_none s :
  contains_substring owa_prefix s = false -> owa_finditer s = [].
Proof. apply owa_finditer_fuel_none. Qed.

Lemma dedup_strings_nil l : dedup_strings l = [] -> l = [].
Proof. destruct l; simpl; congruence. Qed.

(** C6 (amended): take a [response] mapping that has [request],
    [status_code] and [status_line], whose URL path ends with
    [/owa/auth/logon.aspx], whose status is 200 and whose body is a
    string.  A marker is a double quote, [/owa/], optionally [auth/], a
    dotted numeric version and [/].  When the body holds at least one
    marker, a call that returns gives a record whose scripts are the
    ones of the TLS step followed by exactly one [http-app] script built
    from the distinct versions found: they are listed in an order with
    the reported version first, and no found version has a smaller
    integer tuple than it; with more than one version the output joins
    them with [ / ] and adds the [(multiple versions found!)] note.
    When the body holds no marker, in particular when no double quote
    precedes any [/owa/] in it, a call that returns gives [{}]. *)
Theorem zgrap_owa_record :
  forall E data hostrec log r s' d p b,
    result_ok data -> set_order_perm E ->
    dict_lookup "response" (reconciled data) = Some (JObj d) ->
    missing_fields d = [] ->
    field "path" (field "url" (field "request" (JObj d))) = JStr p ->
    str_endswith_s p "/owa/auth/logon.aspx" = true ->
    is_num 200 (field "status_code" (JObj d)) = true ->
    field "body" (JObj d) = JStr b ->
    run E data hostrec log = (Ret r, s') ->
    (owa_finditer b <> [] ->
     exists pre sorted, tls_scripts pre
       /\ Permutation sorted (dedup_strings (owa_finditer b))
       /\ head_least sorted
       /\ dict_lookup "scripts" r
          = Some (JArr (app pre
               [owa_script (drop_last 15 p) (owa_output (drop_last 15 p) sorted)
                           (hd "" sorted)])))
    /\ (owa_finditer b = [] \/ contains_substring owa_prefix b = false -> r = []).
Proof.
  intros E data hostrec log r s' d p b Rk So R0 Mf Pp Po St Bd H.
  destruct (run_some _ _ _ _ _ _ _ Rk R0 Mf H)
    as (c & s1 & R & Q & U & _ & (pre & Tp & Sc) & Hc).
  rewrite <- R in Pp, St, Bd. rewrite <- Q, <- U in Pp.
  pose proof (after_prologue_url _ _ _ _ _ _ U Pp Hc) as G. cbv zeta in G.
  rewrite (owa_path_not_git _ Po), Po in G. clear Hc.
  split.
  - intro Ne. unfold owa_branch in G. split_ret.
    all: repeat match goal with
           | D : dget _ "status_code" JNull = Ret ?sc |- _ =>
               apply dget_field in D; rewrite <- D in *; clear D
           | D : dget _ "body" (JStr "") = Ret _ |- _ =>
               apply dget_body in D; rewrite (field_body _ _ Bd) in D; subst
           | D : regex_subject (JStr _) = Ret _ |- _ => simpl in D; injection D as <-
           end.
    all: try match goal with
             | X : negb (is_num _ _) = true |- _ => rewrite St in X; discriminate X
             end.
    all: match goal with
         | X : set_order _ (dedup_strings _) = [] |- _ =>
             exfalso; apply Ne, dedup_strings_nil;
             pose proof (So (dedup_strings (owa_finditer b))) as Pm;
             rewrite X in Pm; exact (Permutation_nil Pm)
         | X : set_order _ (dedup_strings _) = ?v :: ?vs |- _ =>
             exists pre, (sort_versions (v :: vs));
             pose proof (So (dedup_strings (owa_finditer b))) as Pm; rewrite X in Pm
         end.
    split; [exact Tp|]. split; [|split; [apply sort_versions_least|]].
    + eapply perm_trans; [apply sort_versions_perm | exact Pm].
    + match goal with
      | X : append_script _ _ = Ret _ |- _ =>
          apply append_script_scripts in X; destruct X as (sl & -> & L)
      end.
      rewrite dict_lookup_set_other in L by discriminate.
      destruct Sc as [[N ->] | N]; destruct L as [[L ->] | L]; congruence.
  - intro Nf. refine (owa_branch_fails _ _ _ _ _ _ _ _ So _ G).
    unfold owa_check_fails. rewrite St, (field_body _ _ Bd). simpl.
    destruct Nf as [-> | Nq]; [reflexivity|]. rewrite (owa_finditer_none _ Nq). reflexivity.
Qed.

Lemma prologue_bad_result E data h l n :
  dict_lookup "result" data = Some (JNum n) ->
  fst (prologue E (mkState data h l)) = Raise TypeError.
Proof.
  intro L. unfold prologue.
  rewrite (bind_run get_data _ (mkState data h l) data _ eq_refl).
  destruct data as [|kv d0]; [discriminate L|].
  assert (Mm : dict_mem "result" (kv :: d0) = true) by (unfold dict_mem; rewrite L; reflexivity).
  rewrite <- dict_pop_fst in L.
  destruct (dict_pop "result" (kv :: d0)) as [v d1] eqn:P. simpl in L. subst v.
  rewrite Mm. reflexivity.
Qed.

Lemma prologue_bad_response E data h l n :
  result_ok data ->
  dict_lookup "response" (reconciled data) = Some (JNum n) ->
  fst (prologue E (mkState data h l)) = Raise TypeError.
Proof.
  intros Rk R. unfold prologue.
  rewrite (bind_run get_data _ (mkState data h l) data _ eq_refl).
  destruct data as [|kv d0]; [cbv in R; discriminate R|].
  rewrite (bind_run _ _ _ _ _ (merge_step _ h l Rk)).
  rewrite (bind_run get_data _ (mkState (reconciled (kv :: d0)) h l) _ _ eq_refl).
  cbn [st_data]. rewrite R. reflexivity.
Qed.

Lemma run_raises E data h l o s' e :
  fst (prologue E (mkState data h l)) = Raise e ->
  run E data h l = (o, s') -> o = Raise e.
Proof.
  intros P H. unfold run, zgrap_parser_http, bind in H.
  destruct (prologue E (mkState data h l)) as [[c|e'] s1]; simpl in P; [discriminate P|].
  injection P as ->. injection H as <- _. reflexivity.
Qed.

(** C5 (amended): an empty [data] gives [{}] and changes nothing, not
    even the log.  For non-empty data whose [result] wrapper, if any, is
    a mapping, a reconciled shape without [response] gives [{}] and the
    one warning about [response]; a [response] mapping lacking some of
    [request], [status_code] and [status_line] gives [{}] and one
    warning naming exactly the missing fields (in set iteration order);
    no exception is raised in either case.  A [result] value that is a
    number, or (after the merge of a mapping [result]) a [response]
    value that is a number, raises [TypeError]. *)
Theorem zgrap_missing_fields_warning :
  forall E data hostrec log o s',
    set_order_perm E ->
    run E data hostrec log = (o, s') ->
    (data = [] -> o = Ret [] /\ s' = mkState [] hostrec log)
    /\ (data <> [] -> result_ok data ->
        (dict_lookup "response" (reconciled data) = None ->
           o = Ret [] /\ st_log s' = app log [MissingResponse])
        /\ (forall d, dict_lookup "response" (reconciled data) = Some (JObj d) ->
              missing_fields d <> [] ->
              o = Ret []
              /\ exists fs, st_log s' = app log [MissingFields fs]
                            /\ Permutation fs (missing_fields d)))
    /\ (forall n, dict_lookup "result" data = Some (JNum n) -> o = Raise TypeError)
    /\ (forall n, result_ok data ->
          dict_lookup "response" (reconciled data) = Some (JNum n) -> o = Raise TypeError).
Proof.
  intros E data hostrec log o s' So H.
  split; [|split; [|split]].
  - intros ->.
    change (run E [] hostrec log) with ((Ret [], mkState [] hostrec log) : outcome dict * state)
      in H.
    injection H as <- <-. split; reflexivity.
  - intros Ne Rk. unfold run, zgrap_parser_http in H. split.
    + intro N. rewrite (bind_run _ _ _ _ _ (prologue_no_response E _ _ _ Ne Rk N)) in H.
      injection H as <- <-. split; reflexivity.
    + intros d R Ms.
      rewrite (bind_run _ _ _ _ _ (prologue_missing E _ _ _ _ Ne Rk R Ms)) in H.
      injection H as <- <-. split; [reflexivity|].
      eexists. split; [reflexivity | apply So].
  - intros n L. exact (run_raises _ _ _ _ _ _ _ (prologue_bad_result E _ hostrec log _ L) H).
  - intros n Rk R.
    exact (run_raises _ _ _ _ _ _ _ (prologue_bad_response E _ hostrec log _ Rk R) H).
Qed.

(** ** The [http-headers] script *)

Lemma scripts_from_append l res sc res' :
  scripts_from l res -> append_script res sc = Ret res' -> scripts_from l res'.
Proof.
  intros [post L] A. unfold append_script in A. rewrite L in A. injection A as <-.
  exists (app post [sc]). rewrite dict_lookup_set_same, app_assoc. reflexivity.
Qed.

Lemma scripts_from_same l res res' :
  scripts_from l res -> dict_lookup "scripts" res' = dict_lookup "scripts" res ->
  scripts_from l res'.
Proof. intros [post L] E. exists post. rewrite E. exact L. Qed.

Ltac scripts_chain :=
  repeat match goal with
  | S : scripts_from ?l ?res, A : append_script ?res _ = Ret ?res' |- _ =>
      pose proof (scripts_from_append _ _ _ _ S A); clear S A
  end.

Lemma body_stage_from E url res body s r s' l :
  scripts_from l res -> body_stage E url res body s = (Ret r, s') -> scripts_from l r.
Proof.
  intros S H. unfold body_stage in H. split_ret; scripts_chain; assumption.
Qed.

Lemma assign_unknown_ret unks : forall h h'' s j s',
  assign_entries h unks = Some h'' ->
  assign_unknown (JObj h) unks s = (Ret j, s') -> j = JObj h''.
Proof.
  induction unks as [|u us IH]; intros h h'' s j s' A H; simpl in A, H.
  - injection A as <-. injection H as <- _. reflexivity.
  - destruct (lookup_key "key" u) as [[| b | z | k | l | d | m]|] eqn:Lk;
      try discriminate A.
    destruct (lookup_key "value" u) as [v|] eqn:Lv; [|discriminate A].
    apply bind_Ret in H. destruct H as (v' & s1 & Gv & H). apply lift_inv in Gv.
    destruct Gv as [Gv <-]. apply getitem_lookup in Gv. rewrite Lv in Gv.
    injection Gv as <-.
    apply bind_Ret in H. destruct H as (k' & s2 & Gk & H). apply lift_inv in Gk.
    destruct Gk as [Gk <-]. apply getitem_lookup in Gk. rewrite Lk in Gk.
    injection Gk as <-.
    apply bind_Ret in H. destruct H as (h1 & s3 & Ps & H). apply lift_inv in Ps.
    destruct Ps as [Ps <-]. cbn in Ps. injection Ps as <-.
    apply bind_Ret in H. destruct H as (t & s4 & _ & H).
    exact (IH _ _ _ _ _ A H).
Qed.

Lemma header_entries_ok h acc out a o :
  header_entries (str_keys h) acc out = Ret (a, o) ->
  a = app acc (flat_map (fun '(k, vs) =>
                           match py_iter vs with
                           | Ret l => map (header_entry (replace_char "_" "-" k)) l
                           | Raise _ => []
                           end) h)
  /\ o = app out (header_lines h).
Proof.
  revert acc out. induction h as [|[k vs] h IH]; intros acc out H; simpl in H.
  - injection H as <- <-. rewrite !app_nil_r. auto.
  - destruct (py_iter vs) as [vals|e] eqn:P; [|discriminate H].
    apply IH in H. destruct H as [-> ->].
    unfold header_lines. simpl. rewrite P, !app_assoc. auto.
Qed.

Lemma flatten_ret h h' s j s' :
  flattened h = Some h' ->
  flatten_unknown (JObj h) s = (Ret j, s') -> j = JObj h'.
Proof.
  unfold flattened, flatten_unknown, py_pop. intros F H.
  destruct (dict_pop "unknown" h) as [[v|] h1] eqn:P.
  - apply bind_Ret in H. destruct H as (t & s1 & _ & H).
    apply bind_Ret in H. destruct H as (unks & s2 & Pu & H). apply lift_inv in Pu.
    destruct Pu as [Pu <-]. rewrite Pu in F.
    exact (assign_unknown_ret _ _ _ _ _ _ F H).
  - apply bind_Ret in H. destruct H as (t & s1 & _ & H).
    apply bind_Ret in H. destruct H as (unks & s2 & Pu & H). apply lift_inv in Pu.
    destruct Pu as [Pu _]. cbn in Pu. discriminate Pu.
Qed.

Lemma flattened_none h h' : dict_mem "unknown" h = false -> flattened h = Some h' -> h' = h.
Proof.
  unfold dict_mem, flattened. intros M F.
  destruct (dict_lookup "unknown" h) eqn:L; [discriminate|].
  rewrite (dict_pop_none _ _ L) in F. congruence.
Qed.

Ltac step_lift H :=
  let x := fresh "x" in let s := fresh "s" in let G := fresh "G" in
  apply bind_Ret in H; destruct H as (x & s & G & H);
  apply lift_inv in G; destruct G as [G <-].

Lemma headers_stage_script E resp req res banner s res1 b1 s1 h h' pre :
  field "headers" resp = JObj h -> flattened h = Some h' ->
  ((dict_lookup "scripts" res = None /\ pre = [])
   \/ dict_lookup "scripts" res = Some (JArr pre)) ->
  headers_stage E resp req res banner s = (Ret (res1, b1), s1) ->
  let line := py_str (field "name" (field "protocol" resp)) ++ " "
              ++ py_str (field "status_line" resp) in
  scripts_from
    (app pre [script3 "http-headers"
                (JStr (join nl (line :: app (header_lines h')
                                         (method_lines (field "method" req)))))
                (JArr (header_payload line h'))]) res1.
Proof.
  intros Fh Fl Sc H. cbv zeta. unfold headers_stage in H.
  step_lift H. apply getitem_field in G. rewrite Fh in G. subst.
  step_lift H. apply getitem_field in G. subst.
  step_lift H. apply getitem_field in G. subst.
  step_lift H. apply getitem_field in G. subst.
  step_lift H. cbn in G. injection G as <-.
  apply bind_Ret in H. destruct H as (hj & s2 & Fu & H).
  assert (hj = JObj h') as ->.
  { destruct (dict_mem "unknown" h) eqn:Mu.
    - exact (flatten_ret _ _ _ _ _ Fl Fu).
    - apply ret_inv in Fu. destruct Fu as [Fu _].
      pose proof (flattened_none _ _ Mu Fl). congruence. }
  step_lift H. cbn in G. injection G as <-.
  apply bind_Ret in H. destruct H as ([hh out] & s3 & G & H).
  apply lift_inv in G. destruct G as [G <-].
  apply header_entries_ok in G. destruct G as [-> ->].
  apply bind_Ret in H. destruct H as (res2 & s4 & G & H). cbn beta iota in G.
  step_lift G. apply dget_field in G0. subst.
  apply lift_inv in G. destruct G as [G <-].
  assert (S2 : scripts_from
    (app pre [script3 "http-headers"
                (JStr (join nl ((py_str (field "name" (field "protocol" resp)) ++ " "
                                 ++ py_str (field "status_line" resp))
                                :: app (header_lines h')
                                     (method_lines (field "method" req)))))
                (JArr (header_payload (py_str (field "name" (field "protocol" resp)) ++ " "
                                ++ py_str (field "status_line" resp)) h'))]) res2).
  { apply append_script_scripts in G. destruct G as (l & L & Sl).
    exists []. rewrite app_nil_r, L. unfold method_lines.
    replace l with pre by (destruct Sc as [[N ->] | N]; destruct Sl as [[N' ->] | N'];
                            congruence).
    destruct (truthy (field "method" req)); [reflexivity | rewrite app_nil_r; reflexivity]. }
  clear G. split_ret; scripts_chain; assumption.
Qed.

Lemma fp_scripts E b l res :
  fp_service_fields E -> scripts_from l res ->
  scripts_from l (match match_nmap_svc_fp E b with
                  | [] => res
                  | info => dict_update res info
                  end).
Proof.
  intros F S. pose proof (fun v Hv => proj2 (F b "scripts" v Hv) eq_refl) as Fb.
  destruct (match_nmap_svc_fp E b) as [|p l']; [exact S|].
  apply (scripts_from_same _ _ _ S). apply dict_update_other. exact Fb.
Qed.

Lemma generic_headers_script E resp req url res port s r s' h h' pre :
  fp_service_fields E ->
  field "headers" resp = JObj h -> h <> [] -> flattened h = Some h' ->
  ((dict_lookup "scripts" res = None /\ pre = [])
   \/ dict_lookup "scripts" res = Some (JArr pre)) ->
  generic E resp req url res port s = (Ret r, s') ->
  let line := py_str (field "name" (field "protocol" resp)) ++ " "
              ++ py_str (field "status_line" resp) in
  scripts_from
    (app pre [script3 "http-headers"
                (JStr (join nl (line :: app (header_lines h')
                                         (method_lines (field "method" req)))))
                (JArr (header_payload line h'))]) r.
Proof.
  intros F Fh Hne Fl Sc H. unfold generic in H. cbv zeta in H.
  do 5 step_lift H.
  apply bind_Ret in H. destruct H as (hs & s9 & Gh & H).
  apply lift_inv in Gh. destruct Gh as [Gh <-].
  apply dget_field in Gh. rewrite Fh in Gh. subst hs.
  destruct h as [|kv h0]; [contradiction|]. cbn [truthy] in H.
  apply bind_Ret in H. destruct H as ([res1 b1] & s2 & Hs & H).
  eapply headers_stage_script in Hs; [| exact Fh | exact Fl |].
  2:{ rewrite dict_lookup_set_other by discriminate. exact Sc. }
  cbv zeta in Hs. pose proof (fp_scripts E b1 _ _ F Hs) as Hf. clear Hs.
  apply bind_Ret in H. destruct H as (body & s8 & Gb & H).
  apply lift_inv in Gb. destruct Gb as [_ <-].
  destruct (truthy body).
  - exact (body_stage_from _ _ _ _ _ _ _ _ Hf H).
  - apply ret_inv in H. destruct H as [H _]. injection H as Hr. subst r. exact Hf.
Qed.

Lemma after_prologue_path E c s r s' :
  truthy (c_url c) = true -> after_prologue E c s = (Ret r, s') ->
  exists p, field "path" (c_url c) = JStr p.
Proof.
  intros T H. unfold after_prologue in H. cbv zeta in H. rewrite T in H.
  apply bind_Ret in H. destruct H as (port & s1 & _ & H).
  apply bind_Ret in H. destruct H as (path & s2 & Gp & H).
  apply lift_inv in Gp. destruct Gp as [Gp <-]. apply dget_field in Gp.
  apply bind_Ret in H. destruct H as (g & s3 & _ & H).
  destruct path as [| b | z | p | l | d | m]; try discriminate H. eauto.
Qed.

(** C8 (amended): on the generic path (no URL, or a URL path ending
    neither with [/.git/index] nor with [/owa/auth/logon.aspx]), when the
    response carries a non-empty headers mapping [h] whose [unknown]
    bucket flattens into [h'] (each [unknown] entry written into the
    mapping under its own key, in order, so that a later entry replaces
    an earlier one and a named header of the same key), a non-empty
    record has, after the scripts of the TLS step, an [http-headers]
    script whose structured payload is the [_status] entry with value
    [protocol name, space, status line] followed by the entries of [h'],
    and whose output text is that line, the header lines of [h'] and,
    only when the request method is truthy, an empty line and the
    [(Request type: ...)] line. *)
Theorem zgrap_http_headers_script :
  forall E data hostrec log r s' resp h h',
    result_ok data -> fp_service_fields E ->
    dict_lookup "response" (reconciled data) = Some resp ->
    (forall p, field "path" (field "url" (field "request" resp)) = JStr p ->
       str_endswith_s p "/.git/index" = false
       /\ str_endswith_s p "/owa/auth/logon.aspx" = false) ->
    field "headers" resp = JObj h -> h <> [] -> flattened h = Some h' ->
    run E data hostrec log = (Ret r, s') -> r <> [] ->
    let line := py_str (field "name" (field "protocol" resp)) ++ " "
                ++ py_str (field "status_line" resp) in
    exists pre post, tls_scripts pre
      /\ dict_lookup "scripts" r
         = Some (JArr (app pre
              (script3 "http-headers"
                 (JStr (join nl (line :: app (header_lines h')
                                          (method_lines (field "method" (field "request" resp))))))
                 (JArr (header_payload line h'))
               :: post))).
Proof.
  intros E data hostrec log r s' resp h h' Rk F R0 Route Fh Hne Fl H Hne'. cbv zeta.
  destruct (run_ctx _ _ _ _ _ _ Rk H)
    as [-> | (c & s1 & R & Q & U & _ & (pre & Tp & Sc) & Hc)]; [contradiction|].
  rewrite R0 in R. injection R as ->.
  assert (G : generic E (c_resp c) (c_req c) (c_url c) (c_res c)
                (inferred_port (c_req c)) s1 = (Ret r, s')).
  { destruct (truthy (c_url c)) eqn:T.
    - destruct (after_prologue_path _ _ _ _ _ T Hc) as [p Pp].
      pose proof (after_prologue_url _ _ _ _ _ _ U Pp Hc) as G. cbv zeta in G.
      rewrite U, Q in Pp. destruct (Route p Pp) as [Eg Eo]. rewrite Eg, Eo in G. exact G.
    - exact (after_prologue_nourl _ _ _ _ _ U T Hc). }
  destruct (generic_headers_script _ _ _ _ _ _ _ _ _ _ _ _ F Fh Hne Fl Sc G)
    as [post L].
  exists pre, post. split; [exact Tp|]. rewrite L, <- Q, <- app_assoc. reflexivity.
Qed.

(** ** The caller's data after a returning call *)

Lemma bind_Ret_same {A B} (m : M A) (k : A -> M B) s b s' :
  (forall a, preserves same_data (k a)) -> bind m k s = (Ret b, s') ->
  exists a s1, m s = (Ret a, s1) /\ st_data s' = st_data s1.
Proof.
  intros Hk H. apply bind_Ret in H. destruct H as (a & s1 & M1 & K).
  exists a, s1. split; [exact M1 | exact (Hk _ _ _ _ K)].
Qed.

Lemma assign_unknown_full d0 r unks : forall h s j s',
  is_dict r = true ->
  st_data s = dict_set "response" (set_headers r h) d0 ->
  assign_unknown h unks s = (Ret j, s') ->
  store_entries h unks = Some j
  /\ st_data s' = dict_set "response" (set_headers r j) d0.
Proof.
  induction unks as [|u us IH]; intros h s j s' Dr Hs H; simpl in H.
  - injection H as <- <-. auto.
  - apply bind_Ret in H. destruct H as (v & s1 & Gv & H). apply lift_inv in Gv.
    destruct Gv as [Gv <-].
    apply bind_Ret in H. destruct H as (k & s2 & Gk & H). apply lift_inv in Gk.
    destruct Gk as [Gk <-].
    apply bind_Ret in H. destruct H as (h1 & s3 & Ps & H). apply lift_inv in Ps.
    destruct Ps as [Ps <-].
    apply bind_Ret in H. destruct H as (t & s4 & W & H).
    rewrite (write_headers_step _ (set_headers r h) h1 _ Hs) in W;
      [|apply dict_lookup_set_same | rewrite is_dict_set_headers; exact Dr].
    injection W as _ <-.
    apply IH in H;
      [|exact Dr | simpl; rewrite set_headers_set, dict_set_set; reflexivity].
    destruct H as [A D]. split; [|exact D].
    simpl. rewrite Gv, Gk, Ps. exact A.
Qed.

Lemma flatten_full d0 resp hj s j s' :
  st_data s = d0 -> dict_lookup "response" d0 = Some resp -> is_dict resp = true ->
  py_in "unknown" hj = Ret true ->
  flatten_unknown hj s = (Ret j, s') ->
  flatten_all hj = Some j
  /\ st_data s' = dict_set "response" (set_headers resp j) d0.
Proof.
  intros Hs R Dr P H.
  assert (Dh : is_dict hj = true)
    by (destruct hj; try reflexivity; simpl in H; discriminate H).
  destruct (py_in_pop _ _ P Dh) as (v & h1 & Pop).
  assert (Fl : flatten_unknown hj
               = (write_headers h1 ;;
                  unks <- lift (py_iter v) ;; assign_unknown h1 unks))
    by (destruct hj; try discriminate Dh; unfold flatten_unknown;
        rewrite Pop; reflexivity).
  rewrite Fl in H. apply bind_Ret in H. destruct H as (t & s1 & W & H).
  rewrite (write_headers_step _ resp h1 s Hs R Dr) in W. injection W as _ <-.
  apply bind_Ret in H. destruct H as (unks & s2 & Pu & H). apply lift_inv in Pu.
  destruct Pu as [Pu Es2]. subst s2.
  eapply (assign_unknown_full d0 resp unks h1) in H; [|exact Dr | reflexivity].
  destruct H as [A D].
  split; [|exact D]. unfold flatten_all. rewrite Pop, Pu. exact A.
Qed.

Lemma headers_stage_full E d0 resp req res banner s r s' :
  st_data s = d0 -> dict_lookup "response" d0 = Some resp ->
  py_in "unknown" (field "headers" resp) = Ret true ->
  headers_stage E resp req res banner s = (Ret r, s') ->
  exists h'', flatten_all (field "headers" resp) = Some h''
    /\ st_data s' = dict_set "response" (set_headers resp h'') d0.
Proof.
  intros Hs R P H. unfold headers_stage in H.
  apply bind_Ret in H. destruct H as (hj & s1 & G & H). apply lift_inv in G.
  destruct G as [G <-].
  pose proof (getitem_is_dict _ _ _ G) as Dr. apply getitem_field in G.
  rewrite G in P |- *.
  step_lift H. step_lift H. step_lift H. step_lift H.
  match goal with Q : py_in "unknown" hj = Ret _ |- _ => rewrite P in Q; injection Q as <- end.
  apply bind_Ret_same in H; [|intro a; prv_data].
  destruct H as (hj' & s2 & F & D).
  destruct (flatten_full d0 resp hj _ hj' s2 Hs R Dr P F) as [A D1].
  exists hj'. split; [exact A | rewrite D; exact D1].
Qed.

Lemma generic_full E d0 resp req url res port s r s' :
  st_data s = d0 -> dict_lookup "response" d0 = Some resp ->
  truthy (field "headers" resp) = true ->
  py_in "unknown" (field "headers" resp) = Ret true ->
  generic E resp req url res port s = (Ret r, s') ->
  exists h'', flatten_all (field "headers" resp) = Some h''
    /\ st_data s' = dict_set "response" (set_headers resp h'') d0.
Proof.
  intros Hs R T P H. unfold generic in H. cbv zeta in H.
  step_lift H. step_lift H. step_lift H. step_lift H. step_lift H. step_lift H.
  match goal with
  | Q : dget resp "headers" JNull = Ret _ |- _ => apply dget_field in Q; rewrite <- Q in H
  end.
  rewrite T in H.
  apply bind_Ret_same in H; [|intros [r1 b]; prv_data; apply body_stage_data].
  destruct H as ([r1 b1] & s1 & Hh & D).
  destruct (headers_stage_full E d0 resp req _ _ _ _ _ Hs R P Hh) as (h'' & A & D1).
  exists h''. split; [exact A | rewrite D; exact D1].
Qed.

(** C10: a call works on the caller's [data] in place.  Whatever happens
    during the call, the caller's mapping afterwards is the reconciled
    shape (the [result] key popped and its contents merged into the top
    level), either as it is or with the [headers] mapping of its
    [response] replaced by a flattened one: the [unknown] bucket popped
    and some of its entries assigned.  When the call returns on the
    generic path (no URL, or a URL path ending with neither detector
    suffix) for a complete response whose truthy [headers] contain
    [unknown], the flattening has run to its end: the caller's
    [response] carries the headers with [unknown] popped and every entry
    of it assigned. *)
Theorem zgrap_data_reconciled :
  forall E data hostrec log o s',
    result_ok data ->
    run E data hostrec log = (o, s') ->
    data_after (reconciled data) (st_data s')
    /\ forall r d,
         o = Ret r ->
         dict_lookup "response" (reconciled data) = Some (JObj d) ->
         missing_fields d = [] ->
         generic_route (field "request" (JObj d)) = true ->
         truthy (field "headers" (JObj d)) = true ->
         py_in "unknown" (field "headers" (JObj d)) = Ret true ->
         exists h'', flatten_all (field "headers" (JObj d)) = Some h''
           /\ st_data s' = dict_set "response" (set_headers (JObj d) h'') (reconciled data).
Proof.
  intros E data hostrec log o s' Rk H. split.
  - unfold run, zgrap_parser_http, bind in H.
    destruct (prologue E (mkState data hostrec log)) as [[c|e] s1] eqn:P.
    + pose proof (prologue_data E (mkState data hostrec log) _ _ Rk P) as D. simpl in D.
      destruct c as [c|].
      * pose proof (prologue_resp _ _ _ _ P) as R. rewrite D in R.
        exact (after_prologue_post E (reconciled data) c R s1 o s' D H).
      * injection H as _ <-. left. exact D.
    + injection H as _ <-. left.
      exact (prologue_data E (mkState data hostrec log) _ _ Rk P).
  - intros r d -> R0 Mf Gr Th Pu.
    unfold run, zgrap_parser_http in H.
    apply bind_Ret in H. destruct H as (c & s1 & P & H).
    destruct c as [c|];
      [| exfalso; exact (prologue_not_none _ _ _ _ _ _ _ Rk R0 Mf P eq_refl)].
    pose proof (prologue_data E (mkState data hostrec log) _ _ Rk P) as D.
    pose proof (prologue_resp _ _ _ _ P) as R.
    destruct (prologue_ctx _ _ _ _ P) as [Q U].
    simpl in D. rewrite D in R. rewrite R0 in R. injection R as R.
    assert (Ha : after_prologue E c s1 = (Ret r, s')) by exact H.
    assert (Hg : generic E (c_resp c) (c_req c) (c_url c) (c_res c)
                   (inferred_port (c_req c)) s1 = (Ret r, s')).
    { unfold generic_route in Gr. rewrite R, <- Q, <- U in Gr.
      destruct (truthy (c_url c)) eqn:Tu.
      - simpl in Gr.
        destruct (field "path" (c_url c)) as [| b | z | p | l | o | m] eqn:Pp;
          try discriminate Gr.
        pose proof (after_prologue_url E c s1 r s' p U Pp Ha) as Hu. cbv zeta in Hu.
        apply andb_prop in Gr. destruct Gr as [G1 G2].
        apply negb_true_iff in G1, G2. rewrite G1, G2 in Hu. exact Hu.
      - exact (after_prologue_nourl E c s1 r s' U Tu Ha). }
    rewrite <- R in Hg.
    exact (generic_full E (reconciled data) (JObj d) _ _ _ _ s1 r s' D R0 Th Pu Hg).
Qed.

(** ** C1: incomplete input *)

(** C1 (code bug): two well-formed but incomplete zgrab results make the
    parser raise, whatever the collaborators, host record and log: a URL
    without [path] ([url.get('path').endswith] on [None], line 109) raises
    [AttributeError], and a response without [protocol]
    ([resp['protocol']], line 164) raises [KeyError]. *)
Theorem zgrap_incomplete_input_raises :
  forall E hostrec log,
    fst (run E sample_no_path hostrec log) = Raise AttributeError
    /\ fst (run E sample_no_protocol hostrec log) = Raise KeyError.
Proof. intros E hostrec log. split; reflexivity. Qed.

(** ** The sample collaborators satisfy the contracts *)

Lemma demo_env_fp : fp_service_fields demo_env.
Proof. intros b k v []. Qed.

Lemma demo_env_order : set_order_perm demo_env.
Proof. intro l. apply Permutation_refl. Qed.

Lemma demo_tls_env_append : hostnames_append_only demo_tls_env.
Proof.
  intros c h h' H. destruct h as [| b | z | t | l | d | m]; simpl in H; injection H as <-;
    eauto.
Qed.

Lemma run_result E data hostrec log :
  (exists r, fst (run E data hostrec log) = Ret r) ->
  run E data hostrec log = (Ret (result_of (run E data hostrec log)), snd (run E data hostrec log)).
Proof.
  intros [r H]. unfold result_of. destruct (run E data hostrec log) as [o s]. simpl in *.
  rewrite H. reflexivity.
Qed.

(** ** Counterexamples *)

(** The repository string keeps the trailing slash, and a TLS
    certificate adds an [ssl-cert] script before [http-git]. *)
Lemma git_record_counterexample :
  result_scripts (run demo_env sample_git demo_host [])
    = Some (JArr [git_script "192.0.2.1:80/x/.git/"])
  /\ result_scripts (run demo_tls_env sample_git_tls demo_host [])
    = Some (JArr [script3 "ssl-cert" (JStr "Subject: CN=example.com")
                    (JArr [JObj [("subject", JStr "example.com")]]);
                  git_script "192.0.2.1:80/x/.git/"]).
Proof. split; vm_compute; reflexivity. Qed.

(** The host [example.com:-1] gives port -1; a truthy [tls_log] without
    [handshake_log] gives 443 with no TLS data found; an empty
    [tls_handshake] is TLS data found but gives 80. *)
Lemma port_inferred_counterexample :
  dict_lookup "port" (result_of (run demo_env sample_host_port demo_host [])) = Some (JNum (-1))
  /\ dict_lookup "port" (result_of (run demo_env sample_tls_log demo_host [])) = Some (JNum 443)
  /\ dict_lookup "service_tunnel" (result_of (run demo_env sample_tls_log demo_host [])) = None
  /\ dict_lookup "port" (result_of (run demo_env sample_empty_handshake demo_host []))
     = Some (JNum 80)
  /\ dict_lookup "service_tunnel" (result_of (run demo_env sample_empty_handshake demo_host []))
     = Some (JStr "ssl").
Proof. repeat split; vm_compute; reflexivity. Qed.

(** An empty [data] gives [{}] with no warning; a [result] or a
    [response] that is a number raises [TypeError]. *)
Lemma missing_fields_counterexample :
  run demo_env [] demo_host [] = (Ret [], mkState [] demo_host [])
  /\ fst (run demo_env sample_bad_result demo_host []) = Raise TypeError
  /\ fst (run demo_env sample_bad_response demo_host []) = Raise TypeError.
Proof. repeat split; vm_compute; reflexivity. Qed.

(** A version marker that no double quote precedes is not found. *)
Lemma owa_record_counterexample :
  fst (run demo_env sample_owa_unquoted demo_host []) = Ret [].
Proof. vm_compute. reflexivity. Qed.

(** The [unknown] entry [server] replaces the named [server] header, and
    of two [unknown] entries with the key [x_y] only the last remains. *)
Lemma http_headers_counterexample :
  result_scripts (run demo_env sample_unknown demo_host [])
  = Some (JArr [script3 "http-headers"
                  (JStr (join nl ["HTTP/1.1 200 OK"; "server: b"; "x-y: 2"; "";
                                  "(Request type: GET)"]))
                  (JArr [status_entry "HTTP/1.1 200 OK";
                         header_entry "server" (JStr "b");
                         header_entry "x-y" (JStr "2")]);
                script3 "http-server-header" (JStr "b") (JArr [JStr "b"])]).
Proof. vm_compute. reflexivity. Qed.

(** ** Witnesses: the theorems applied to the sample inputs *)

Lemma zgrap_git_record_witness :
  exists pre, tls_scripts pre
    /\ dict_lookup "scripts" (result_of (run demo_tls_env sample_git_tls demo_host []))
       = Some (JArr (app pre
            [git_script (py_str (JStr "192.0.2.1") ++ ":"
                         ++ z_dec (inferred_port
                                     (field "request" (JObj (response_dict sample_git_tls))))
                         ++ drop_last 5 "/x/.git/index")])).
Proof.
  apply (zgrap_git_record demo_tls_env sample_git_tls demo_host []
           (result_of (run demo_tls_env sample_git_tls demo_host []))
           (snd (run demo_tls_env sample_git_tls demo_host []))
           (response_dict sample_git_tls) "/x/.git/index" "DIRC0000" (JStr "192.0.2.1")).
  - vm_compute. exact I.
  - reflexivity.
  - reflexivity.
  - reflexivity.
  - reflexivity.
  - reflexivity.
  - reflexivity.
  - reflexivity.
  - reflexivity.
  - apply run_result. eexists. vm_compute. reflexivity.
Defined.

Lemma zgrap_detector_hard_fail_witness :
  result_of (run demo_env sample_git_html demo_host []) = [].
Proof.
  apply (zgrap_detector_hard_fail demo_env sample_git_html demo_host []
           (result_of (run demo_env sample_git_html demo_host []))
           (snd (run demo_env sample_git_html demo_host []))
           (response_of sample_git_html) "/x/.git/index").
  - vm_compute. exact I.
  - exact demo_env_order.
  - reflexivity.
  - reflexivity.
  - vm_compute. reflexivity.
  - apply run_result. eexists. vm_compute. reflexivity.
Defined.

Lemma zgrap_missing_fields_warning_witness :
  let o := fst (run demo_env sample_missing demo_host []) in
  let s' := snd (run demo_env sample_missing demo_host []) in
  (sample_missing = [] -> o = Ret [] /\ s' = mkState [] demo_host [])
  /\ (sample_missing <> [] -> result_ok sample_missing ->
      (dict_lookup "response" (reconciled sample_missing) = None ->
         o = Ret [] /\ st_log s' = app [] [MissingResponse])
      /\ (forall d, dict_lookup "response" (reconciled sample_missing) = Some (JObj d) ->
            missing_fields d <> [] ->
            o = Ret [] /\ exists fs, st_log s' = app [] [MissingFields fs]
                                     /\ Permutation fs (missing_fields d)))
  /\ (forall n, dict_lookup "result" sample_missing = Some (JNum n) -> o = Raise TypeError)
  /\ (forall n, result_ok sample_missing ->
        dict_lookup "response" (reconciled sample_missing) = Some (JNum n) ->
        o = Raise TypeError).
Proof.
  apply (zgrap_missing_fields_warning demo_env sample_missing demo_host []
           (fst (run demo_env sample_missing demo_host []))
           (snd (run demo_env sample_missing demo_host []))).
  - exact demo_env_order.
  - vm_compute. reflexivity.
Defined.

Lemma zgrap_owa_record_witness :
  (owa_finditer owa_body <> [] ->
   exists pre sorted, tls_scripts pre
     /\ Permutation sorted (dedup_strings (owa_finditer owa_body))
     /\ head_least sorted
     /\ dict_lookup "scripts" (result_of (run demo_env sample_owa demo_host []))
        = Some (JArr (app pre
             [owa_script (drop_last 15 "/owa/auth/logon.aspx")
                (owa_output (drop_last 15 "/owa/auth/logon.aspx") sorted) (hd "" sorted)])))
  /\ (owa_finditer owa_body = [] \/ contains_substring owa_prefix owa_body = false ->
      result_of (run demo_env sample_owa demo_host []) = []).
Proof.
  apply (zgrap_owa_record demo_env sample_owa demo_host []
           (result_of (run demo_env sample_owa demo_host []))
           (snd (run demo_env sample_owa demo_host []))
           (response_dict sample_owa) "/owa/auth/logon.aspx" owa_body).
  - vm_compute. exact I.
  - exact demo_env_order.
  - reflexivity.
  - reflexivity.
  - reflexivity.
  - reflexivity.
  - reflexivity.
  - reflexivity.
  - apply run_result. eexists. vm_compute. reflexivity.
Defined.

Lemma zgrap_nonempty_result_has_port_witness :
  dict_lookup "port" (result_of (run demo_env sample_git demo_host [])) <> None.
Proof.
  apply (zgrap_nonempty_result_has_port demo_env sample_git demo_host []
           (result_of (run demo_env sample_git demo_host []))
           (snd (run demo_env sample_git demo_host []))).
  - apply run_result. eexists. vm_compute. reflexivity.
  - vm_compute. intro H. discriminate H.
Defined.

Lemma zgrap_http_headers_script_witness :
  let resp := response_of sample_unknown in
  let h' := match flattened sample_headers with Some h => h | None => [] end in
  let line := py_str (field "name" (field "protocol" resp)) ++ " "
              ++ py_str (field "status_line" resp) in
  exists pre post, tls_scripts pre
    /\ dict_lookup "scripts" (result_of (run demo_env sample_unknown demo_host []))
       = Some (JArr (app pre
            (script3 "http-headers"
               (JStr (join nl (line :: app (header_lines h')
                                        (method_lines (field "method" (field "request" resp))))))
               (JArr (header_payload line h'))
             :: post))).
Proof.
  apply (zgrap_http_headers_script demo_env sample_unknown demo_host []
           (result_of (run demo_env sample_unknown demo_host []))
           (snd (run demo_env sample_unknown demo_host []))
           (response_of sample_unknown) sample_headers
           (match flattened sample_headers with Some h => h | None => [] end)).
  - vm_compute. exact I.
  - exact demo_env_fp.
  - reflexivity.
  - intros p Hp. vm_compute in Hp. discriminate Hp.
  - reflexivity.
  - vm_compute. intro H. discriminate H.
  - vm_compute. reflexivity.
  - apply run_result. eexists. vm_compute. reflexivity.
  - vm_compute. intro H. discriminate H.
Defined.

Lemma zgrap_hostrec_append_only_witness :
  hostrec_frame demo_host (st_hostrec (snd (run demo_tls_env sample_git_tls demo_host []))).
Proof.
  apply (zgrap_hostrec_append_only demo_tls_env sample_git_tls demo_host []
           (fst (run demo_tls_env sample_git_tls demo_host []))
           (snd (run demo_tls_env sample_git_tls demo_host []))).
  - exact demo_tls_env_append.
  - vm_compute. reflexivity.
Defined.

Lemma zgrap_data_reconciled_witness :
  data_after (reconciled sample_unknown_zgrab2)
    (st_data (snd (run demo_env sample_unknown_zgrab2 demo_host [])))
  /\ exists h'', flatten_all (field "headers" (JObj (response_dict sample_unknown_zgrab2)))
                 = Some h''
       /\ st_data (snd (run demo_env sample_unknown_zgrab2 demo_host []))
          = dict_set "response"
              (set_headers (JObj (response_dict sample_unknown_zgrab2)) h'')
              (reconciled sample_unknown_zgrab2).
Proof.
  destruct (zgrap_data_reconciled demo_env sample_unknown_zgrab2 demo_host []
              (fst (run demo_env sample_unknown_zgrab2 demo_host []))
              (snd (run demo_env sample_unknown_zgrab2 demo_host [])))
    as [Da W].
  - vm_compute. exact I.
  - vm_compute. reflexivity.
  - split; [exact Da|].
    apply (W (match fst (run demo_env sample_unknown_zgrab2 demo_host []) with
              | Ret r => r | Raise _ => [] end)
             (response_dict sample_unknown_zgrab2));
      vm_compute; reflexivity.
Defined.

(** * Further properties of the parser *)

(** ** [int('%d' % n) == n] *)

Lemma digit_ascii c :
  is_digit c = true ->
  is_space c = false /\ Ascii.eqb c "-" = false /\ Ascii.eqb c "+" = false.
Proof.
  destruct c as [[] [] [] [] [] [] [] []]; vm_compute; intro H;
    solve [discriminate H | repeat split].
Qed.

Lemma digit_char_ok (d : Z) : (0 <= d < 10)%Z ->
  is_digit (digit_char d) = true /\ digit_val (digit_char d) = d.
Proof.
  intro Hd.
  assert (d = 0 \/ d = 1 \/ d = 2 \/ d = 3 \/ d = 4 \/ d = 5 \/ d = 6 \/ d = 7
          \/ d = 8 \/ d = 9)%Z as Hc by lia.
  repeat destruct Hc as [-> | Hc]; [..| subst d]; split; reflexivity.
Qed.

Lemma pos_digits_parse f : forall (n : Z) acc (a : Z) b, (0 <= n)%Z -> (Z.to_nat n < f)%nat ->
  exists k, (0 <= k)%Z /\
    parse_digits (list_ascii_of_string (pos_digits f n acc)) a b
    = parse_digits (list_ascii_of_string acc) (a * 10 ^ k + n)%Z true.
Proof.
  induction f as [|f IH]; intros n acc a b Hn Hf; [lia|].
  pose proof (Z.mod_pos_bound n 10 ltac:(lia)) as Hm.
  destruct (digit_char_ok (n mod 10) Hm) as [Dd Dv].
  simpl pos_digits. destruct (n <? 10)%Z eqn:N.
  - apply Z.ltb_lt in N. exists 1%Z. split; [lia|].
    cbn [list_ascii_of_string parse_digits]. rewrite Dd, Dv, Z.mod_small by lia.
    reflexivity.
  - apply Z.ltb_ge in N.
    pose proof (Z.div_lt n 10 ltac:(lia) ltac:(lia)) as Hd.
    pose proof (Z.div_pos n 10 ltac:(lia) ltac:(lia)) as Hp.
    destruct (IH (n / 10)%Z (String (digit_char (n mod 10)) acc) a b Hp ltac:(lia))
      as (k & Hk & P).
    exists (k + 1)%Z. split; [lia|]. rewrite P. cbn [list_ascii_of_string parse_digits].
    rewrite Dd, Dv.
    f_equal. rewrite Z.pow_add_r by lia. pose proof (Z.div_mod n 10 ltac:(lia)). nia.
Qed.

Lemma pos_digits_digits f : forall (n : Z) acc,
  (0 <= n)%Z -> Forall (fun c => is_digit c = true) (list_ascii_of_string acc) ->
  Forall (fun c => is_digit c = true) (list_ascii_of_string (pos_digits f n acc)).
Proof.
  induction f as [|f IH]; intros n acc Hn Ha; [exact Ha|].
  pose proof (Z.mod_pos_bound n 10 ltac:(lia)) as Hm.
  destruct (digit_char_ok (n mod 10) Hm) as [Dd _].
  simpl pos_digits. destruct (n <? 10)%Z.
  - cbn [list_ascii_of_string]. constructor; assumption.
  - apply IH; [apply Z.div_pos; lia | cbn [list_ascii_of_string]; constructor; assumption].
Qed.

Lemma pos_digits_cons f n acc : exists c r,
  list_ascii_of_string (pos_digits (S f) n acc) = c :: r.
Proof.
  revert n acc. induction f as [|f IH]; intros n acc; simpl pos_digits.
  - destruct (n <? 10)%Z; cbn [list_ascii_of_string]; eauto.
  - destruct (n <? 10)%Z; [cbn [list_ascii_of_string]; eauto | apply IH].
Qed.

Lemma lstrip_id l : Forall (fun c => is_space c = false) l -> lstrip l = l.
Proof. intro H. destruct H as [|c l Hc _]; simpl; [reflexivity | rewrite Hc; reflexivity]. Qed.

Lemma strip_id l : Forall (fun c => is_space c = false) l -> strip l = l.
Proof.
  intro H. unfold strip. rewrite (lstrip_id l H), lstrip_id, rev_involutive; [reflexivity|].
  apply Forall_rev. exact H.
Qed.

Lemma digits_no_space l :
  Forall (fun c => is_digit c = true) l -> Forall (fun c => is_space c = false) l.
Proof. apply Forall_impl. intros c Hc. exact (proj1 (digit_ascii c Hc)). Qed.

Lemma py_int_z_dec n : py_int (z_dec n) = Some n.
Proof.
  unfold py_int, z_dec. destruct (n <? 0)%Z eqn:N.
  - apply Z.ltb_lt in N.
    pose proof (pos_digits_digits (S (Z.to_nat (- n)%Z)) (- n)%Z "" ltac:(lia) (Forall_nil _))
      as Dg.
    cbn [list_ascii_of_string].
    rewrite strip_id by (constructor; [reflexivity | apply digits_no_space; exact Dg]).
    cbn [Ascii.eqb Bool.eqb]. 
    destruct (pos_digits_parse (S (Z.to_nat (- n)%Z)) (- n)%Z "" 0 false ltac:(lia) ltac:(lia))
      as (k & _ & P).
    rewrite P. cbn [list_ascii_of_string parse_digits option_map]. f_equal. lia.
  - apply Z.ltb_ge in N.
    pose proof (pos_digits_digits (S (Z.to_nat n)) n "" N (Forall_nil _)) as Dg.
    rewrite strip_id by (apply digits_no_space; exact Dg).
    destruct (pos_digits_cons (Z.to_nat n) n "") as (c & r & L).
    destruct (pos_digits_parse (S (Z.to_nat n)) n "" 0 false N ltac:(lia)) as (k & _ & P).
    rewrite L in Dg, P |- *. inversion Dg as [|c' r' Dc]; subst.
    destruct (digit_ascii c Dc) as (_ & -> & ->). rewrite P. reflexivity.
Qed.

(** ** The port of the URL *)

Lemma after_first_app c h t :
  after_first c h = None -> after_first c (h ++ String c t) = Some t.
Proof.
  induction h as [|c' h IH]; simpl; intro H.
  - rewrite Ascii.eqb_refl. reflexivity.
  - destruct (Ascii.eqb c c'); [discriminate H | exact (IH H)].
Qed.

(** Lines 97-107 on a URL whose [host] is a string. *)
Lemma url_port_host u hs s :
  dict_lookup "host" u = Some (JStr hs) ->
  url_port (JObj u) s
  = (Ret (match after_first ":" hs with
          | Some t => match py_int t with
                      | Some n => n
                      | None => if is_str "https" (field "scheme" (JObj u)) then 443%Z else 80%Z
                      end
          | None => if is_str "https" (field "scheme" (JObj u)) then 443%Z else 80%Z
          end), s).
Proof.
  intro L. unfold url_port, bind, lift, ret, raise, try_except, dget, getitem.
  rewrite L. cbn [py_in]. rewrite contains_char.
  unfold field. cbn [py_split_colon_1].
  destruct (after_first ":" hs) as [t|]; [|destruct (dict_lookup "scheme" u); reflexivity].
  destruct (py_int t); [reflexivity|].
  cbn [exn_eqb]. destruct (dict_lookup "scheme" u); reflexivity.
Qed.

(** Without a [host], the scheme decides. *)
Lemma url_port_nohost u s :
  dict_lookup "host" u = None ->
  url_port (JObj u) s
  = (Ret (if is_str "https" (field "scheme" (JObj u)) then 443%Z else 80%Z), s).
Proof.
  intro L. unfold url_port, bind, lift, ret, dget.
  rewrite L. cbn [py_in contains_substring String.prefix]. unfold field.
  destruct (dict_lookup "scheme" u); reflexivity.
Qed.

(** X1: An explicit port: a host [h:n], [h] without [:], gives port [n], for
    every integer [n] written in decimal. *)
Theorem url_port_explicit :
  forall u h n s,
    after_first ":" h = None ->
    dict_lookup "host" u = Some (JStr (h ++ ":" ++ z_dec n)) ->
    url_port (JObj u) s = (Ret n, s).
Proof.
  intros u h n s Nh L. rewrite (url_port_host _ _ s L).
  change (h ++ ":" ++ z_dec n) with (h ++ String ":" (z_dec n)).
  rewrite (after_first_app ":" h (z_dec n) Nh), py_int_z_dec. reflexivity.
Qed.

(** X2: No usable port in the host (no [host], no [:], or a text after the
    first [:] that [int] refuses): 443 for the scheme [https], else 80; the
    [ValueError] is not propagated. *)
Theorem url_port_default :
  forall u s,
    match dict_lookup "host" u with
    | None => True
    | Some (JStr hs) =>
        match after_first ":" hs with Some t => py_int t = None | None => True end
    | Some _ => False
    end ->
    url_port (JObj u) s
    = (Ret (if is_str "https" (field "scheme" (JObj u)) then 443%Z else 80%Z), s).
Proof.
  intros u s H. destruct (dict_lookup "host" u) as [host|] eqn:L.
  - destruct host as [| b | z | hs | l | d | m]; try contradiction H.
    rewrite (url_port_host _ _ s L).
    destruct (after_first ":" hs) as [t|]; [rewrite H|]; reflexivity.
  - exact (url_port_nohost u s L).
Qed.

(** ** The title expression *)

Lemma prefix_ci_app p o x : prefix_ci p o = true -> prefix_ci p (o ++ x) = true.
Proof.
  revert o. induction p as [|a p IH]; intros [|b o] H; simpl in *; try discriminate; auto.
  apply andb_true_iff in H. destruct H as [H1 H2]. rewrite H1. simpl. apply IH. exact H2.
Qed.

Lemma str_length_app o x : String.length (o ++ x) = (String.length o + String.length x)%nat.
Proof. induction o as [|c o IH]; simpl; [reflexivity | rewrite IH; reflexivity]. Qed.

Lemma substring_all s : substring 0 (String.length s) s = s.
Proof. induction s as [|c s IH]; simpl; [reflexivity | rewrite IH; reflexivity]. Qed.

Lemma drop_app o x : drop (String.length o) (o ++ x) = x.
Proof.
  unfold drop. rewrite str_length_app.
  replace (String.length o + String.length x - String.length o)%nat
    with (String.length x) by lia.
  induction o as [|c o IH]; simpl; [apply substring_all | exact IH].
Qed.

Lemma span_not_app c t r :
  after_first c t = None -> span_not c (t ++ String c r) = (t, String c r).
Proof.
  induction t as [|c' t IH]; simpl; intro H.
  - rewrite Ascii.eqb_refl. reflexivity.
  - destruct (Ascii.eqb c c'); [discriminate H|]. rewrite (IH H). reflexivity.
Qed.

Lemma span_not_fst c s : after_first c (fst (span_not c s)) = None.
Proof.
  induction s as [|c' s IH]; simpl; [reflexivity|].
  destruct (Ascii.eqb c c') eqn:E; [reflexivity|].
  destruct (span_not c s) as [t r]. simpl in *. rewrite E. exact IH.
Qed.

Lemma title_search_at s t : title_at s = Some t -> title_search s = Some t.
Proof. intro H. destruct s; cbn [title_search]; rewrite H; reflexivity. Qed.

Lemma lower_lt c : lower c = "<"%char -> c = "<"%char.
Proof. destruct c as [[] [] [] [] [] [] [] []]; vm_compute; congruence. Qed.

(** X3: [_EXPR_TITLE.search] on a string that starts with a title element (the
    opening tag in any case, attributes without ['>'], a title without
    ['<'], the closing tag in any case) returns that title, whatever
    follows. *)
Theorem title_search_element :
  forall o a t cl r,
    prefix_ci "<title" o = true -> String.length o = 6%nat ->
    after_first ">" a = None -> after_first "<" t = None ->
    prefix_ci "</title>" cl = true ->
    title_search (o ++ a ++ ">" ++ t ++ cl ++ r) = Some t.
Proof.
  intros o a t cl r Ho Lo Ha Ht Hc.
  apply title_search_at. unfold title_at.
  rewrite (prefix_ci_app _ _ _ Ho). rewrite <- Lo, drop_app.
  destruct cl as [|c cl']; [discriminate Hc|].
  cbn [prefix_ci] in Hc. apply andb_true_iff in Hc. destruct Hc as [Hc Hc'].
  apply Ascii.eqb_eq in Hc. symmetry in Hc. apply lower_lt in Hc. subst c.
  change (a ++ ">" ++ t ++ String "<" cl' ++ r)
    with (a ++ String ">" (t ++ String "<" (cl' ++ r))).
  rewrite (after_first_app _ _ _ Ha), (span_not_app _ _ _ Ht).
  change (String "<" (cl' ++ r)) with (String "<" cl' ++ r).
  rewrite (prefix_ci_app "</title>" (String "<" cl') r); [reflexivity|].
  cbn [prefix_ci]. rewrite Hc'. reflexivity.
Qed.

(** X4: A title found by [_EXPR_TITLE.search] never contains ['<']. *)
Theorem title_search_no_lt :
  forall s t, title_search s = Some t -> after_first "<" t = None.
Proof.
  induction s as [|c s IH]; intros t H; cbn [title_search] in H;
    destruct (title_at _) as [t'|] eqn:A.
  2: discriminate H.
  3: exact (IH t H).
  all: injection H as <-; unfold title_at in A;
    destruct (prefix_ci _ _); [|discriminate A];
    destruct (after_first _ _) as [r|]; [|discriminate A];
    pose proof (span_not_fst "<" r) as F; destruct (span_not "<" r) as [u rest];
    destruct (prefix_ci _ _); [|discriminate A]; injection A as <-; exact F.
Qed.

(** ** The order of the sorted versions *)

Lemma lex_ltb_asym a b : lex_ltb a b = true -> lex_ltb b a = false.
Proof.
  intro H. destruct (lex_ltb b a) eqn:B; [|reflexivity].
  pose proof (lex_ltb_trans _ _ _ H B) as T. rewrite lex_ltb_irrefl in T. discriminate T.
Qed.

Lemma insert_version_sorted_cons v w l :
  versions_sorted (w :: l) = true -> lex_ltb (version_key v) (version_key w) = false ->
  versions_sorted (w :: insert_version v l) = true.
Proof.
  revert w. induction l as [|u l IH]; intros w Hs Hv; simpl.
  - rewrite Hv. reflexivity.
  - cbn [versions_sorted] in Hs. apply andb_true_iff in Hs. destruct Hs as [Hu Hs].
    destruct (lex_ltb (version_key v) (version_key u)) eqn:Vu; cbn [versions_sorted].
    + rewrite Hv, (lex_ltb_asym _ _ Vu). exact Hs.
    + rewrite Hu. exact (IH u Hs Vu).
Qed.

Lemma insert_version_sorted v l :
  versions_sorted l = true -> versions_sorted (insert_version v l) = true.
Proof.
  destruct l as [|w l]; intro Hs; simpl; [reflexivity|].
  destruct (lex_ltb (version_key v) (version_key w)) eqn:Vw.
  - cbn [versions_sorted]. rewrite (lex_ltb_asym _ _ Vw). exact Hs.
  - exact (insert_version_sorted_cons _ _ _ Hs Vw).
Qed.

(** X5: [sorted(version, key=...)] returns the same versions, each one no
    smaller (as a list of integers) than the one before it. *)
Theorem sort_versions_sorted :
  forall vs, versions_sorted (sort_versions vs) = true /\ Permutation (sort_versions vs) vs.
Proof.
  intro vs. split; [|apply sort_versions_perm].
  unfold sort_versions.
  assert (G : forall acc, versions_sorted acc = true ->
                versions_sorted (fold_left (fun acc v => insert_version v acc) vs acc) = true).
  { induction vs as [|v vs IH]; intros acc Ha; simpl; [exact Ha|].
    apply IH, insert_version_sorted, Ha. }
  apply G. reflexivity.
Qed.

(** ** The OWA version markers *)

Lemma version_at_shape r v rest : version_at r = Some (v, rest) -> version_shape v = true.
Proof.
  unfold version_at. destruct (span_version r) as [v' r'].
  destruct r' as [|c r']; [discriminate|].
  destruct (Ascii.eqb c "/" && version_shape v') eqn:C; [|discriminate].
  intro H. injection H as <- _. apply andb_true_iff in C. apply C.
Qed.

Lemma owa_at_shape s v rest : owa_at s = Some (v, rest) -> version_shape v = true.
Proof.
  unfold owa_at. destruct (String.prefix owa_prefix s); [|discriminate].
  destruct (String.prefix "auth/" (drop 6 s)); [|apply version_at_shape].
  destruct (version_at (drop 5 (drop 6 s))) as [m|] eqn:V.
  - intro H. injection H as ->. exact (version_at_shape _ _ _ V).
  - apply version_at_shape.
Qed.

(** X6: Every version [_EXPR_OWA_VERSION.finditer] yields has the shape
    [D+(.D+)+]: at least two parts, split on dots, each one a non-empty
    run of decimal digits. *)
Theorem owa_finditer_shape :
  forall b v, In v (owa_finditer b) -> version_shape v = true.
Proof.
  intro b. unfold owa_finditer. generalize (S (String.length b)) as f.
  intro f. revert b. induction f as [|f IH]; intros b v H; simpl in H; [destruct H|].
  destruct (owa_at b) as [[v' rest]|] eqn:A.
  - destruct H as [<-|H]; [exact (owa_at_shape _ _ _ A) | exact (IH _ _ H)].
  - destruct b as [|c b]; [destruct H | exact (IH _ _ H)].
Qed.

Lemma span_version_app v r :
  version_chars v = true -> span_version (v ++ String "/" r) = (v, String "/" r).
Proof.
  unfold version_chars. induction v as [|c v IH]; simpl; intro H; [reflexivity|].
  apply andb_true_iff in H. destruct H as [Hc H]. rewrite Hc, (IH H). reflexivity.
Qed.

Lemma version_at_app v r :
  version_chars v = true -> version_shape v = true -> version_at (v ++ String "/" r) = Some (v, r).
Proof.
  intros Hc Hs. unfold version_at. rewrite (span_version_app _ _ Hc), Hs. reflexivity.
Qed.

Lemma prefix_app p x : String.prefix p (p ++ x) = true.
Proof.
  induction p as [|c p IH]; [destruct x; reflexivity|]. simpl.
  destruct (ascii_dec c c) as [_|N]; [exact IH | contradiction N; reflexivity].
Qed.

Lemma version_not_auth v x :
  version_chars v = true -> version_shape v = true -> String.prefix "auth/" (v ++ x) = false.
Proof.
  destruct v as [|c v]; intros Hc Hs; [discriminate Hs|].
  unfold version_chars in Hc. simpl in Hc. apply andb_true_iff in Hc. destruct Hc as [Hc _].
  cbn [String.prefix append]. destruct (ascii_dec "a" c) as [<-|_]; [discriminate Hc | reflexivity].
Qed.

Lemma owa_at_marker (auth : bool) v r :
  version_chars v = true -> version_shape v = true ->
  owa_at (owa_prefix ++ (if auth then "auth/" else "") ++ v ++ String "/" r) = Some (v, r).
Proof.
  intros Hc Hs. unfold owa_at. rewrite prefix_app.
  change 6%nat with (String.length owa_prefix). rewrite drop_app.
  destruct auth.
  - rewrite prefix_app. change 5%nat with (String.length "auth/"). rewrite drop_app.
    rewrite (version_at_app _ _ Hc Hs). reflexivity.
  - cbn [append]. rewrite (version_not_auth _ _ Hc Hs). exact (version_at_app _ _ Hc Hs).
Qed.

Lemma owa_finditer_skip p x f :
  after_first dquote p = None -> (String.length p < f)%nat ->
  owa_finditer_fuel f (p ++ x) = owa_finditer_fuel (f - String.length p) x.
Proof.
  revert f. induction p as [|c p IH]; intros f Hp Hf; simpl; [f_equal; lia|].
  destruct f as [|f]; [lia|]. cbn [after_first] in Hp.
  destruct (Ascii.eqb dquote c) eqn:D; [discriminate Hp|].
  cbn [owa_finditer_fuel].
  replace (owa_at (String c (p ++ x))) with (@None (string * string)).
  - apply IH; [exact Hp | simpl in Hf; lia].
  - unfold owa_at. unfold owa_prefix. cbn [String.prefix].
    destruct (ascii_dec dquote c) as [E|_]; [|reflexivity].
    subst c. rewrite Ascii.eqb_refl in D. discriminate D.
Qed.

(** X7: [_EXPR_OWA_VERSION.finditer] on a body whose first double quote opens
    a marker ([/owa/], optionally [auth/], a version made of digits and
    dots with the shape [D+(.D+)+], then [/]) yields that version first. *)
Theorem owa_finditer_marker :
  forall p (auth : bool) v r,
    after_first dquote p = None -> version_chars v = true -> version_shape v = true ->
    hd_error (owa_finditer (p ++ String dquote ("/owa/" ++ (if auth then "auth/" else "")
                                               ++ v ++ "/" ++ r))) = Some v.
Proof.
  intros p auth v r Hp Hc Hs. unfold owa_finditer.
  rewrite str_length_app, owa_finditer_skip; [|exact Hp|lia].
  replace (S (String.length p + _) - String.length p)%nat
    with (S (String.length (String dquote ("/owa/" ++ (if auth then "auth/" else "")
                                           ++ v ++ "/" ++ r)))) by lia.
  cbn [owa_finditer_fuel].
  change (String dquote ("/owa/" ++ (if auth then "auth/" else "") ++ v ++ "/" ++ r))
    with (owa_prefix ++ (if auth then "auth/" else "") ++ v ++ String "/" r).
  rewrite (owa_at_marker auth v r Hc Hs). reflexivity.
Qed.

(** ** The fields of the service record *)

Lemma getitem_keyerror j k : getitem j k = Raise KeyError -> lookup_key k j = None.
Proof.
  destruct j as [| b | z | t | l | d | m]; simpl; try discriminate.
  - destruct (dict_lookup k d) eqn:L; [discriminate | auto].
  - destruct (map_lookup (JStr k) m) eqn:L; [discriminate | auto].
Qed.

Lemma bind_Raise {A B} (m : M A) (k : A -> M B) s e s' :
  bind m k s = (Raise e, s') ->
  m s = (Raise e, s') \/ exists a s1, m s = (Ret a, s1) /\ k a s1 = (Raise e, s').
Proof.
  unfold bind. destruct (m s) as [[a|e'] s1]; intro H; [right; eauto | left; injection H as -> ->; reflexivity].
Qed.

Lemma tls_value_of req s t s' :
  try_except (lift (getitem req "tls_handshake")) KeyError
    (try_except (l <- lift (getitem req "tls_log") ;; lift (getitem l "handshake_log"))
                KeyError (ret JNull)) s = (Ret t, s') ->
  t = tls_value req /\ s' = s.
Proof.
  intro H. unfold tls_value. apply try_Ret in H. destruct H as [H | (s1 & H1 & H)].
  - apply lift_inv in H. destruct H as [H <-].
    apply getitem_lookup in H. rewrite H. auto.
  - apply lift_inv in H1. destruct H1 as [H1 <-].
    apply getitem_keyerror in H1. rewrite H1.
    apply try_Ret in H. destruct H as [H | (s2 & H2 & H)].
    + apply bind_Ret in H. destruct H as (l & s2 & G1 & G2).
      apply lift_inv in G1, G2. destruct G1 as [G1 <-]. destruct G2 as [G2 <-].
      apply getitem_lookup in G1, G2. rewrite G1, G2. auto.
    + apply ret_inv in H. destruct H as [H <-]. injection H as <-.
      apply bind_Raise in H2. destruct H2 as [G | (l & s3 & G1 & G2)].
      * apply lift_inv in G. destruct G as [G <-].
        apply getitem_keyerror in G. rewrite G. auto.
      * apply lift_inv in G1, G2. destruct G1 as [G1 <-]. destruct G2 as [G2 <-].
        apply getitem_lookup in G1. apply getitem_keyerror in G2.
        rewrite G1, G2. auto.
Qed.

Lemma tls_stage_other E req res s r s' k :
  tls_stage E req res s = (Ret r, s') -> k <> "scripts" -> k <> "service_tunnel" ->
  dict_lookup k r = dict_lookup k res.
Proof.
  intros H Hk Ht. unfold tls_stage in H. split_ret; through_scripts;
    try reflexivity; apply dict_lookup_set_other; exact Ht.
Qed.

Lemma tls_stage_tunnel E req res s r s' :
  tls_stage E req res s = (Ret r, s') ->
  dict_lookup "service_tunnel" r =
    if is_none (tls_value req) then dict_lookup "service_tunnel" res else Some (JStr "ssl").
Proof.
  intro H. unfold tls_stage in H. apply bind_Ret in H. destruct H as (t & s1 & T & H).
  apply tls_value_of in T. destruct T as [-> ->].
  destruct (is_none (tls_value req)).
  - apply ret_inv in H. destruct H as [H _]. injection H as <-. reflexivity.
  - split_ret; through_scripts; apply dict_lookup_set_same.
Qed.

Lemma prologue_tls E s c s1 :
  prologue E s = (Ret (Some c), s1) ->
  exists s0 s2, tls_stage E (c_req c) base_res s0 = (Ret (c_res c), s2).
Proof.
  intro H. unfold prologue in H. split_ret; try discriminate.
  all: simpl; eauto.
Qed.

Section Keep.

Variable E : env.
Variable k : string.
Hypothesis Hfp : fp_never_sets E k.
Hypothesis Hs : k <> "scripts".
Hypothesis Hp : k <> "port".

Lemma fp_update_keep b res :
  dict_lookup k (match match_nmap_svc_fp E b with [] => res | info => dict_update res info end)
  = dict_lookup k res.
Proof.
  destruct (match_nmap_svc_fp E b) as [|p0 l0] eqn:Fp; [reflexivity|].
  apply dict_update_other. intros v Hin. apply (Hfp b v). rewrite Fp. exact Hin.
Qed.

Lemma generic_keep resp req url res port s r s' :
  generic E resp req url res port s = (Ret r, s') -> dict_lookup k r = dict_lookup k res.
Proof.
  intro H. unfold generic in H. split_ret.
  all: repeat match goal with
       | H : body_stage _ _ _ _ _ = (Ret _, _) |- _ =>
           rewrite (body_stage_other _ _ _ _ _ _ _ k H Hs); clear H
       end.
  all: match goal with
       | |- context [match match_nmap_svc_fp E ?b with [] => _ | _ :: _ => _ end] =>
           rewrite (fp_update_keep b)
       end.
  all: repeat match goal with
       | H : headers_stage _ _ _ _ _ _ = (Ret (_, _), _) |- _ =>
           rewrite (headers_stage_other _ _ _ _ _ _ _ _ _ k H Hs); clear H
       end.
  all: apply dict_lookup_set_other; exact Hp.
Qed.

Lemma git_branch_keep resp url res port p s r s' :
  git_branch resp url res port p s = (Ret r, s') -> r = [] \/ dict_lookup k r = dict_lookup k res.
Proof.
  intro H. unfold git_branch in H. split_ret; auto.
  right. through_scripts. apply dict_lookup_set_other; exact Hp.
Qed.

Lemma owa_branch_keep resp res port p s r s' :
  owa_branch E resp res port p s = (Ret r, s') -> r = [] \/ dict_lookup k r = dict_lookup k res.
Proof.
  intro H. unfold owa_branch in H. split_ret; auto.
  right. through_scripts. apply dict_lookup_set_other; exact Hp.
Qed.

Lemma after_prologue_keep c s r s' :
  after_prologue E c s = (Ret r, s') -> r = [] \/ dict_lookup k r = dict_lookup k (c_res c).
Proof.
  intro H. unfold after_prologue in H. split_ret.
  all: first [ now apply git_branch_keep in H
             | now apply owa_branch_keep in H
             | right; now apply generic_keep in H ].
Qed.

End Keep.

(** C3 (amended): a non-empty record returned for a mapping [result]
    wrapper (or none) has the port given by [inferred_port] on the
    request of the reconciled [response]: with a truthy URL, [int] of the
    text after the first [:] of the host when that parses, else 443 for
    scheme [https] and 80 otherwise; without one, 443 when the request's
    [tls_handshake] or [tls_log] value is truthy, else 80.  This holds
    when the banner matcher returns service fields other than [port].
    The condition for 443 is not that TLS handshake data was found: that
    is what sets [service_tunnel] to [ssl] (when the matcher does not
    return [service_tunnel]), namely a [tls_handshake], or else a
    [tls_log.handshake_log], that is not [None]. *)
Theorem zgrap_port_inferred :
  forall E data hostrec log r s',
    result_ok data -> fp_service_fields E ->
    run E data hostrec log = (Ret r, s') -> r <> [] ->
    exists resp, dict_lookup "response" (reconciled data) = Some resp
      /\ dict_lookup "port" r = Some (JNum (inferred_port (field "request" resp)))
      /\ (fp_never_sets E "service_tunnel" ->
          dict_lookup "service_tunnel" r =
            if is_none (tls_value (field "request" resp)) then None else Some (JStr "ssl")).
Proof.
  intros E data hostrec log r s' Rk F H Hne.
  unfold run, zgrap_parser_http in H.
  apply bind_Ret in H. destruct H as (c & s1 & P & H).
  destruct c as [c|]; [|injection H as <- _; contradiction].
  pose proof (prologue_data E (mkState data hostrec log) _ _ Rk P) as D.
  pose proof (prologue_resp _ _ _ _ P) as R.
  destruct (prologue_ctx _ _ _ _ P) as [Q U].
  simpl in D. rewrite D in R.
  exists (c_resp c). split; [exact R|]. split.
  - rewrite <- Q.
    destruct (after_prologue_port_value _ _ _ _ _ F U H); [contradiction | assumption].
  - intro Hfp.
    destruct (after_prologue_keep E "service_tunnel" Hfp ltac:(discriminate)
                ltac:(discriminate) _ _ _ _ H) as [-> | L]; [contradiction Hne; reflexivity|].
    rewrite L. destruct (prologue_tls _ _ _ _ P) as (s0 & s2 & T).
    rewrite (tls_stage_tunnel _ _ _ _ _ _ T), Q. reflexivity.
Qed.

Lemma zgrap_port_inferred_witness :
  exists resp, dict_lookup "response" (reconciled sample_tls_log) = Some resp
    /\ dict_lookup "port" (result_of (run demo_env sample_tls_log demo_host []))
       = Some (JNum (inferred_port (field "request" resp)))
    /\ (fp_never_sets demo_env "service_tunnel" ->
        dict_lookup "service_tunnel" (result_of (run demo_env sample_tls_log demo_host []))
        = if is_none (tls_value (field "request" resp)) then None else Some (JStr "ssl")).
Proof.
  apply (zgrap_port_inferred demo_env sample_tls_log demo_host []
           (result_of (run demo_env sample_tls_log demo_host []))
           (snd (run demo_env sample_tls_log demo_host []))).
  - vm_compute. exact I.
  - exact demo_env_fp.
  - apply run_result. eexists. vm_compute. reflexivity.
  - vm_compute. intro H. discriminate H.
Defined.

Lemma base_res_keys k v :
  In (k, v) base_res -> k <> "scripts" /\ k <> "port" /\ k <> "service_tunnel".
Proof.
  unfold base_res. simpl.
  intros [E|[E|[E|[E|[E|[]]]]]]; injection E as <- _; repeat split; discriminate.
Qed.

Lemma base_res_lookup k v : In (k, v) base_res -> dict_lookup k base_res = Some v.
Proof.
  unfold base_res. simpl.
  intros [E|[E|[E|[E|[E|[]]]]]]; injection E as <- <-; reflexivity.
Qed.

(** X8: The five fields set at line 67 ([service_name] [http],
    [service_method] [probed], [state_state] [open], [state_reason]
    [response], [protocol] [tcp]) are in every non-empty record, with
    these values, unless the banner matcher returns that field. *)
Theorem zgrap_base_fields :
  forall E data hostrec log r s' k v,
    fp_never_sets E k -> In (k, v) base_res ->
    run E data hostrec log = (Ret r, s') -> r <> [] ->
    dict_lookup k r = Some v.
Proof.
  intros E data hostrec log r s' k v Hfp Hin H Hne.
  destruct (base_res_keys _ _ Hin) as (Ks & Kp & Kt).
  unfold run, zgrap_parser_http in H.
  apply bind_Ret in H. destruct H as (c & s1 & P & H).
  destruct c as [c|]; [| apply ret_inv in H; destruct H as [H _]; congruence].
  destruct (after_prologue_keep E k Hfp Ks Kp _ _ _ _ H) as [-> | L]; [contradiction Hne; reflexivity|].
  rewrite L. destruct (prologue_tls _ _ _ _ P) as (s0 & s2 & T).
  rewrite (tls_stage_other _ _ _ _ _ _ k T Ks Kt).
  exact (base_res_lookup _ _ Hin).
Qed.

(** X9: A non-empty record has [service_tunnel] set to [ssl] exactly when the
    request of the (reconciled) response carries TLS handshake data:
    [tls_handshake], or else [tls_log.handshake_log], that is not [None];
    otherwise it has no [service_tunnel].  This holds for a [result]
    wrapper that is absent or a mapping, when the banner matcher does not
    return [service_tunnel]. *)
Theorem zgrap_service_tunnel :
  forall E data hostrec log r s' resp,
    result_ok data ->
    dict_lookup "response" (reconciled data) = Some resp ->
    fp_never_sets E "service_tunnel" ->
    run E data hostrec log = (Ret r, s') -> r <> [] ->
    dict_lookup "service_tunnel" r =
      if is_none (tls_value (field "request" resp)) then None else Some (JStr "ssl").
Proof.
  intros E data hostrec log r s' resp Rk Hr Hfp H Hne.
  unfold run, zgrap_parser_http in H.
  apply bind_Ret in H. destruct H as (c & s1 & P & H).
  destruct c as [c|]; [| apply ret_inv in H; destruct H as [H _]; congruence].
  pose proof (prologue_data E (mkState data hostrec log) _ _ Rk P) as D.
  pose proof (prologue_resp _ _ _ _ P) as R.
  destruct (prologue_ctx _ _ _ _ P) as [Q _].
  simpl in D. rewrite D, Hr in R. injection R as R.
  destruct (after_prologue_keep E "service_tunnel" Hfp ltac:(discriminate) ltac:(discriminate)
              _ _ _ _ H) as [-> | L]; [contradiction Hne; reflexivity|].
  rewrite L. destruct (prologue_tls _ _ _ _ P) as (s0 & s2 & T).
  rewrite (tls_stage_tunnel _ _ _ _ _ _ T), Q, <- R. reflexivity.
Qed.

(** ** The certificate script *)

Lemma scripts_from_port l port res :
  scripts_from l res -> scripts_from l (dict_set "port" (JNum port) res).
Proof.
  intro S. apply (scripts_from_same _ _ _ S). apply dict_lookup_set_other. discriminate.
Qed.

Lemma headers_stage_from E resp req res banner s r b s' l :
  scripts_from l res -> headers_stage E resp req res banner s = (Ret (r, b), s') ->
  scripts_from l r.
Proof.
  intros S H. unfold headers_stage in H. split_ret; scripts_chain; assumption.
Qed.

Lemma generic_from E resp req url res port s r s' l :
  fp_service_fields E -> scripts_from l res ->
  generic E resp req url res port s = (Ret r, s') -> scripts_from l r.
Proof.
  intros F S H. apply (scripts_from_port _ port) in S. unfold generic in H. split_ret.
  all: repeat match goal with
       | G : headers_stage _ _ _ _ _ _ = (Ret (_, _), _) |- _ =>
           apply (headers_stage_from _ _ _ _ _ _ _ _ _ l S) in G; clear S; rename G into S
       end.
  all: first [ exact (body_stage_from _ _ _ _ _ _ _ _ (fp_scripts _ _ _ _ F S) H)
             | exact (fp_scripts _ _ _ _ F S) ].
Qed.

Lemma git_branch_from resp url res port p s r s' l :
  scripts_from l res -> git_branch resp url res port p s = (Ret r, s') ->
  r = [] \/ scripts_from l r.
Proof.
  intros S H. apply (scripts_from_port _ port) in S. unfold git_branch in H.
  split_ret; auto. right. scripts_chain. assumption.
Qed.

Lemma owa_branch_from E resp res port p s r s' l :
  scripts_from l res -> owa_branch E resp res port p s = (Ret r, s') ->
  r = [] \/ scripts_from l r.
Proof.
  intros S H. apply (scripts_from_port _ port) in S. unfold owa_branch in H.
  split_ret; auto. right. scripts_chain. assumption.
Qed.

Lemma after_prologue_from E c s r s' l :
  fp_service_fields E -> scripts_from l (c_res c) ->
  after_prologue E c s = (Ret r, s') -> r = [] \/ scripts_from l r.
Proof.
  intros F S H. unfold after_prologue in H. split_ret.
  all: first [ exact (git_branch_from _ _ _ _ _ _ _ _ _ S H)
             | exact (owa_branch_from _ _ _ _ _ _ _ _ _ S H)
             | right; exact (generic_from _ _ _ _ _ _ _ _ _ _ F S H) ].
Qed.

Lemma field_getitem k j v : field k j = v -> v <> JNull -> getitem j k = Ret v.
Proof.
  destruct j as [| b | z | t | l | d | m]; simpl; intros <- N; try (contradiction N; reflexivity).
  - destruct (dict_lookup k d); [reflexivity | contradiction N; reflexivity].
  - destruct (map_lookup (JStr k) m); [reflexivity | contradiction N; reflexivity].
Qed.

Lemma tls_stage_cert E req res s r s' raw out info :
  tls_stage E req res s = (Ret r, s') ->
  dict_lookup "scripts" res = None ->
  tls_cert_raw (tls_value req) = JStr raw ->
  create_ssl_cert E raw = (out, info) -> info <> [] ->
  dict_lookup "scripts" r = Some (JArr [script3 "ssl-cert" (JStr out) (JArr info)]).
Proof.
  intros H N Cr Cs Ci. unfold tls_stage in H. apply bind_Ret in H.
  destruct H as (t & s1 & T & H). apply tls_value_of in T. destruct T as [-> ->].
  unfold tls_cert_raw in Cr.
  set (t := tls_value req) in *.
  set (c1 := field "server_certificates" t) in *.
  set (c2 := field "certificate" c1) in *.
  assert (N2 : c2 <> JNull) by (intro E2; rewrite E2 in Cr; discriminate Cr).
  assert (N1 : c1 <> JNull) by (intro E1; unfold c2 in N2; rewrite E1 in N2; apply N2; reflexivity).
  assert (N0 : is_none t = false)
    by (destruct t; try reflexivity; unfold c1 in N1; contradiction N1; reflexivity).
  rewrite N0 in H.
  apply bind_Ret in H. destruct H as (cert & s2 & C & H).
  unfold try_except, bind, lift, ret in C.
  rewrite (field_getitem "server_certificates" t c1 eq_refl N1),
    (field_getitem "certificate" c1 c2 eq_refl N2),
    (field_getitem "raw" c2 _ Cr ltac:(discriminate)) in C.
  injection C as <- <-.
  apply bind_Ret in H. destruct H as (raw' & s3 & Ra & H).
  apply lift_inv in Ra. destruct Ra as [Ra <-]. injection Ra as <-.
  rewrite Cs in H. destruct info as [|i is]; [contradiction Ci; reflexivity|].
  apply bind_Ret in H. destruct H as (res1 & s4 & A & H).
  apply lift_inv in A. destruct A as [A <-].
  apply bind_Ret in H. destruct H as (u & s5 & _ & H).
  apply ret_inv in H. destruct H as [H _]. injection H as <-.
  unfold append_script in A. rewrite dict_lookup_set_other in A by discriminate.
  rewrite N in A. injection A as <-. apply dict_lookup_set_same.
Qed.

(** X10: When the request of the (reconciled) response holds a TLS handshake
    whose [server_certificates.certificate.raw] is a string and
    [create_ssl_cert] gives non-empty information for it, the scripts of
    a non-empty record start with the [ssl-cert] script built from the
    output and the information.  This holds for a [result] wrapper that
    is absent or a mapping, when the banner matcher returns no [scripts]
    or [port] field. *)
Theorem zgrap_ssl_cert_first :
  forall E data hostrec log r s' resp raw out info,
    result_ok data ->
    dict_lookup "response" (reconciled data) = Some resp ->
    fp_service_fields E ->
    tls_cert_raw (tls_value (field "request" resp)) = JStr raw ->
    create_ssl_cert E raw = (out, info) -> info <> [] ->
    run E data hostrec log = (Ret r, s') -> r <> [] ->
    scripts_from [script3 "ssl-cert" (JStr out) (JArr info)] r.
Proof.
  intros E data hostrec log r s' resp raw out info Rk Hr F Cr Cs Ci H Hne.
  unfold run, zgrap_parser_http in H.
  apply bind_Ret in H. destruct H as (c & s1 & P & H).
  destruct c as [c|]; [| apply ret_inv in H; destruct H as [H _]; congruence].
  pose proof (prologue_data E (mkState data hostrec log) _ _ Rk P) as D.
  pose proof (prologue_resp _ _ _ _ P) as R.
  destruct (prologue_ctx _ _ _ _ P) as [Q _].
  simpl in D. rewrite D, Hr in R. injection R as R.
  destruct (prologue_tls _ _ _ _ P) as (s0 & s2 & T).
  rewrite Q, <- R in T.
  pose proof (tls_stage_cert _ _ _ _ _ _ _ _ _ T eq_refl Cr Cs Ci) as L.
  destruct (after_prologue_from _ _ _ _ _ [script3 "ssl-cert" (JStr out) (JArr info)] F
              (ex_intro _ [] L) H) as [-> | S]; [contradiction Hne; reflexivity | exact S].
Qed.

(** ** The scripts of the body *)

Lemma append_script_some res sc res' l :
  dict_lookup "scripts" res = Some (JArr l) -> append_script res sc = Ret res' ->
  dict_lookup "scripts" res' = Some (JArr (app l [sc])).
Proof.
  unfold append_script. intros L A. rewrite L in A. injection A as <-.
  apply dict_lookup_set_same.
Qed.

Lemma body_stage_scripts E url res b s r s' :
  body_stage E url res (JStr b) s = (Ret r, s') ->
  exists pre, dict_lookup "scripts" r
    = Some (JArr (app pre
         (JObj [("id", JStr "http-content"); ("output", JStr (nmap_encode_data E b))]
          :: app (match title_search b with
                  | Some t => [script3 "http-title" (JStr t) (JObj [("title", JStr t)])]
                  | None => []
                  end)
                 (match create_http_ls E (JStr b) url with
                  | Some sc => [sc]
                  | None => []
                  end)))).
Proof.
  intro H. unfold body_stage in H.
  apply bind_Ret in H. destruct H as (raw & s1 & G & H).
  apply lift_inv in G. destruct G as [G <-]. injection G as <-.
  apply bind_Ret in H. destruct H as (res1 & s2 & A1 & H).
  apply lift_inv in A1. destruct A1 as [A1 <-].
  apply append_script_scripts in A1. destruct A1 as (l & L1 & _).
  apply bind_Ret in H. destruct H as (b' & s3 & G & H).
  apply lift_inv in G. destruct G as [G <-]. injection G as <-.
  apply bind_Ret in H. destruct H as (res2 & s4 & T & H).
  assert (L2 : dict_lookup "scripts" res2 = Some (JArr (app (app l
            [JObj [("id", JStr "http-content"); ("output", JStr (nmap_encode_data E b))]])
            (match title_search b with
             | Some t => [script3 "http-title" (JStr t) (JObj [("title", JStr t)])]
             | None => []
             end)))).
  { destruct (title_search b) as [t|].
    - apply lift_inv in T. destruct T as [T <-]. exact (append_script_some _ _ _ _ L1 T).
    - apply ret_inv in T. destruct T as [T <-]. injection T as <-.
      rewrite app_nil_r. exact L1. }
  exists l. destruct (create_http_ls E (JStr b) url) as [sc|].
  - apply lift_inv in H. destruct H as [H _].
    rewrite (append_script_some _ _ _ _ L2 H). repeat rewrite <- app_assoc. reflexivity.
  - apply ret_inv in H. destruct H as [H _]. injection H as <-.
    rewrite L2, app_nil_r, <- app_assoc. reflexivity.
Qed.

Lemma generic_body_scripts E resp req url res port s r s' b :
  field "body" resp = JStr b -> b <> "" ->
  generic E resp req url res port s = (Ret r, s') ->
  exists pre, dict_lookup "scripts" r
    = Some (JArr (app pre
         (JObj [("id", JStr "http-content"); ("output", JStr (nmap_encode_data E b))]
          :: app (match title_search b with
                  | Some t => [script3 "http-title" (JStr t) (JObj [("title", JStr t)])]
                  | None => []
                  end)
                 (match create_http_ls E (JStr b) url with
                  | Some sc => [sc]
                  | None => []
                  end)))).
Proof.
  intros Fb Nb H. unfold generic in H. cbv zeta in H.
  do 5 step_lift H.
  apply bind_Ret in H. destruct H as (hs & s9 & Gh & H).
  apply lift_inv in Gh. destruct Gh as [_ <-].
  apply bind_Ret in H. destruct H as ([res1 b1] & s2 & _ & H).
  apply bind_Ret in H. destruct H as (body & s8 & Gb & H).
  apply lift_inv in Gb. destruct Gb as [Gb <-]. apply dget_field in Gb.
  rewrite Fb in Gb. subst body.
  assert (T : truthy (JStr b) = true)
    by (cbn [truthy]; destruct (String.eqb_spec b "") as [E0|_]; [contradiction | reflexivity]).
  rewrite T in H. exact (body_stage_scripts _ _ _ _ _ _ _ H).
Qed.

(** X11: On the generic path (no URL, or a URL path ending neither with
    [/.git/index] nor with [/owa/auth/logon.aspx]), when the response
    body is a non-empty string [b], the scripts of a non-empty record end
    with the [http-content] script (the encoded body), then an
    [http-title] script when [_EXPR_TITLE] finds a title in [b], then the
    script [create_http_ls] builds from [b] and the URL, when there is one.
    This holds for a [result] wrapper that is absent or a mapping. *)
Theorem zgrap_body_scripts :
  forall E data hostrec log r s' resp b,
    result_ok data ->
    dict_lookup "response" (reconciled data) = Some resp ->
    (forall p, field "path" (field "url" (field "request" resp)) = JStr p ->
       str_endswith_s p "/.git/index" = false
       /\ str_endswith_s p "/owa/auth/logon.aspx" = false) ->
    field "body" resp = JStr b -> b <> "" ->
    run E data hostrec log = (Ret r, s') -> r <> [] ->
    exists pre, dict_lookup "scripts" r
      = Some (JArr (app pre
           (JObj [("id", JStr "http-content"); ("output", JStr (nmap_encode_data E b))]
            :: app (match title_search b with
                    | Some t => [script3 "http-title" (JStr t) (JObj [("title", JStr t)])]
                    | None => []
                    end)
                   (match create_http_ls E (JStr b) (field "url" (field "request" resp)) with
                    | Some sc => [sc]
                    | None => []
                    end)))).
Proof.
  intros E data hostrec log r s' resp b Rk R0 Route Fb Nb H Hne.
  destruct (run_ctx _ _ _ _ _ _ Rk H)
    as [-> | (c & s1 & R & Q & U & _ & _ & Hc)]; [contradiction|].
  rewrite R0 in R. injection R as ->.
  assert (G : generic E (c_resp c) (c_req c) (c_url c) (c_res c)
                (inferred_port (c_req c)) s1 = (Ret r, s')).
  { destruct (truthy (c_url c)) eqn:T.
    - destruct (after_prologue_path _ _ _ _ _ T Hc) as [p Pp].
      pose proof (after_prologue_url _ _ _ _ _ _ U Pp Hc) as G. cbv zeta in G.
      rewrite U, Q in Pp. destruct (Route p Pp) as [Eg Eo]. rewrite Eg, Eo in G. exact G.
    - exact (after_prologue_nourl _ _ _ _ _ U T Hc). }
  rewrite <- Q, <- U. exact (generic_body_scripts _ _ _ _ _ _ _ _ _ _ Fb Nb G).
Qed.

(** ** The [Server] header *)

(** X12: Lines 166-196 with a [server] header: when the headers mapping, once
    its [unknown] bucket is flattened, holds a non-empty list [s0 :: ss]
    under [server], the scripts gain the [http-headers] script and then
    an [http-server-header] script with output [s0] and payload the whole
    list, and the banner for the fingerprint match gets the line
    [Server: ] with the decoded [s0], followed by two CRLF. *)
Theorem headers_stage_server :
  forall E resp req res banner s res1 b1 s1 h h' pre s0 ss,
    field "headers" resp = JObj h -> flattened h = Some h' ->
    ((dict_lookup "scripts" res = None /\ pre = [])
     \/ dict_lookup "scripts" res = Some (JArr pre)) ->
    dict_lookup "server" h' = Some (JArr (s0 :: ss)) ->
    headers_stage E resp req res banner s = (Ret (res1, b1), s1) ->
    let line := py_str (field "name" (field "protocol" resp)) ++ " "
                ++ py_str (field "status_line" resp) in
    dict_lookup "scripts" res1
    = Some (JArr (app pre
         [script3 "http-headers"
            (JStr (join nl (line :: app (header_lines h')
                                     (method_lines (field "method" req)))))
            (JArr (header_payload line h'));
          script3 "http-server-header" s0 (JArr (s0 :: ss))]))
    /\ exists b, nmap_decode_data E s0 = Ret b
                 /\ b1 = banner ++ "Server: " ++ b ++ crlf ++ crlf.
Proof.
  intros E resp req res banner s res1 b1 s1 h h' pre s0 ss Fh Fl Sc Sv H. cbv zeta.
  unfold headers_stage in H.
  step_lift H. apply getitem_field in G. rewrite Fh in G. subst.
  step_lift H. apply getitem_field in G. subst.
  step_lift H. apply getitem_field in G. subst.
  step_lift H. apply getitem_field in G. subst.
  step_lift H. cbn in G. injection G as <-.
  apply bind_Ret in H. destruct H as (hj & st2 & Fu & H).
  assert (hj = JObj h') as ->.
  { destruct (dict_mem "unknown" h) eqn:Mu.
    - exact (flatten_ret _ _ _ _ _ Fl Fu).
    - apply ret_inv in Fu. destruct Fu as [Fu _].
      pose proof (flattened_none _ _ Mu Fl). congruence. }
  step_lift H. cbn in G. injection G as <-.
  apply bind_Ret in H. destruct H as ([hh out] & st3 & G & H).
  apply lift_inv in G. destruct G as [G <-].
  apply header_entries_ok in G. destruct G as [-> ->].
  apply bind_Ret in H. destruct H as (res2 & st4 & G & H). cbn beta iota in G.
  step_lift G. apply dget_field in G0. subst.
  apply lift_inv in G. destruct G as [G <-].
  apply append_script_scripts in G. destruct G as (l & L & Sl).
  replace l with pre in L by (destruct Sc as [[N ->] | N]; destruct Sl as [[N' ->] | N'];
                               congruence).
  clear Sl.
  step_lift H. cbn [dget] in G. rewrite Sv in G. injection G as <-.
  cbn [truthy] in H.
  step_lift H. cbn [getitem] in G. rewrite Sv in G. injection G as <-.
  step_lift H. cbn [py_index0] in G. injection G as <-.
  step_lift H.
  apply bind_Ret in H. destruct H as (b & st5 & D & H).
  apply lift_inv in D. destruct D as [D <-].
  apply ret_inv in H. destruct H as [H _]. injection H as H1 H2. subst res1 b1.
  split; [| exists b; split; [exact D | reflexivity]].
  rewrite (append_script_some _ _ _ _ L G), <- app_assoc. unfold method_lines.
  destruct (truthy (field "method" req)); [reflexivity | rewrite app_nil_r; reflexivity].
Qed.

(** ** Witnesses of the further properties *)

Lemma url_port_explicit_witness :
  url_port (JObj [("host", JStr ("example.com" ++ ":" ++ z_dec 8080))]) (mkState [] [] [])
  = (Ret 8080%Z, mkState [] [] []).
Proof.
  apply (url_port_explicit [("host", JStr ("example.com" ++ ":" ++ z_dec 8080))]
           "example.com" 8080%Z (mkState [] [] [])); reflexivity.
Defined.

Lemma url_port_default_witness :
  url_port (JObj [("host", JStr "example.com:http"); ("scheme", JStr "https")])
    (mkState [] [] [])
  = (Ret 443%Z, mkState [] [] []).
Proof.
  apply (url_port_default [("host", JStr "example.com:http"); ("scheme", JStr "https")]
           (mkState [] [] [])).
  vm_compute. reflexivity.
Defined.

Lemma title_search_element_witness :
  title_search ("<TITLE" ++ " lang=en" ++ ">" ++ "Home" ++ "</Title>" ++ "<body>")
  = Some "Home".
Proof.
  apply (title_search_element "<TITLE" " lang=en" "Home" "</Title>" "<body>");
    vm_compute; reflexivity.
Defined.

Lemma title_search_no_lt_witness : after_first "<" "Hi" = None.
Proof.
  apply (title_search_no_lt "<html><title>Hi</title>" "Hi"). vm_compute. reflexivity.
Defined.

Lemma owa_finditer_shape_witness : version_shape "15.1.2.3" = true.
Proof.
  apply (owa_finditer_shape owa_body "15.1.2.3"). vm_compute. left. reflexivity.
Defined.

Lemma owa_finditer_marker_witness :
  hd_error (owa_finditer ("<a href=" ++ String dquote ("/owa/" ++ "auth/" ++ "15.1.2.3"
                                                       ++ "/" ++ "x.css")))
  = Some "15.1.2.3".
Proof.
  apply (owa_finditer_marker "<a href=" true "15.1.2.3" "x.css"); vm_compute; reflexivity.
Defined.

Lemma zgrap_base_fields_witness :
  dict_lookup "service_name" (result_of (run demo_env sample_unknown demo_host []))
  = Some (JStr "http").
Proof.
  apply (zgrap_base_fields demo_env sample_unknown demo_host []
           (result_of (run demo_env sample_unknown demo_host []))
           (snd (run demo_env sample_unknown demo_host []))).
  - intros b v [].
  - left. reflexivity.
  - apply run_result. eexists. vm_compute. reflexivity.
  - vm_compute. intro H. discriminate H.
Defined.

Lemma zgrap_service_tunnel_witness :
  dict_lookup "service_tunnel" (result_of (run demo_env sample_zgrab2_tls demo_host []))
  = if is_none (tls_value (field "request" (response_of sample_zgrab2_tls)))
    then None else Some (JStr "ssl").
Proof.
  apply (zgrap_service_tunnel demo_env sample_zgrab2_tls demo_host []
           (result_of (run demo_env sample_zgrab2_tls demo_host []))
           (snd (run demo_env sample_zgrab2_tls demo_host []))
           (response_of sample_zgrab2_tls)).
  - vm_compute. exact I.
  - reflexivity.
  - intros b v [].
  - apply run_result. eexists. vm_compute. reflexivity.
  - vm_compute. intro H. discriminate H.
Defined.

Lemma zgrap_ssl_cert_first_witness :
  scripts_from [script3 "ssl-cert" (JStr "Subject: CN=example.com")
                  (JArr [JObj [("subject", JStr "example.com")]])]
    (result_of (run demo_tls_env sample_zgrab2_tls demo_host [])).
Proof.
  apply (zgrap_ssl_cert_first demo_tls_env sample_zgrab2_tls demo_host []
           (result_of (run demo_tls_env sample_zgrab2_tls demo_host []))
           (snd (run demo_tls_env sample_zgrab2_tls demo_host []))
           (response_of sample_zgrab2_tls) "MIIB").
  - vm_compute. exact I.
  - reflexivity.
  - exact demo_env_fp.
  - vm_compute. reflexivity.
  - reflexivity.
  - intro H. discriminate H.
  - apply run_result. eexists. vm_compute. reflexivity.
  - vm_compute. intro H. discriminate H.
Defined.

Lemma zgrap_body_scripts_witness :
  exists pre, dict_lookup "scripts" (result_of (run demo_env sample_zgrab2_tls demo_host []))
    = Some (JArr (app pre
         (JObj [("id", JStr "http-content");
                ("output", JStr "<html><title>Home</title></html>")]
          :: [script3 "http-title" (JStr "Home") (JObj [("title", JStr "Home")])]))).
Proof.
  apply (zgrap_body_scripts demo_env sample_zgrab2_tls demo_host []
           (result_of (run demo_env sample_zgrab2_tls demo_host []))
           (snd (run demo_env sample_zgrab2_tls demo_host []))
           (response_of sample_zgrab2_tls) "<html><title>Home</title></html>").
  - vm_compute. exact I.
  - reflexivity.
  - intros p Hp. vm_compute in Hp. discriminate Hp.
  - reflexivity.
  - intro H. discriminate H.
  - apply run_result. eexists. vm_compute. reflexivity.
  - vm_compute. intro H. discriminate H.
Defined.

Lemma headers_stage_server_witness :
  let resp := response_of sample_unknown in
  let h' := match flattened sample_headers with Some h => h | None => [] end in
  let line := py_str (field "name" (field "protocol" resp)) ++ " "
              ++ py_str (field "status_line" resp) in
  let res1 := match fst server_stage_run with Ret (r, _) => r | Raise _ => [] end in
  let b1 := match fst server_stage_run with Ret (_, b) => b | Raise _ => "" end in
  dict_lookup "scripts" res1
  = Some (JArr (app []
       [script3 "http-headers"
          (JStr (join nl (line :: app (header_lines h')
                                   (method_lines (field "method" (field "request" resp))))))
          (JArr (header_payload line h'));
        script3 "http-server-header" (JStr "b") (JArr [JStr "b"])]))
  /\ exists b, nmap_decode_data demo_env (JStr "b") = Ret b
               /\ b1 = "HTTP/1.1 200 OK" ++ "Server: " ++ b ++ crlf ++ crlf.
Proof.
  apply (headers_stage_server demo_env (response_of sample_unknown)
           (field "request" (response_of sample_unknown)) [] "HTTP/1.1 200 OK"
           (mkState sample_unknown demo_host [])
           (match fst server_stage_run with Ret (r, _) => r | Raise _ => [] end)
           (match fst server_stage_run with Ret (_, b) => b | Raise _ => "" end)
           (snd server_stage_run) sample_headers
           (match flattened sample_headers with Some h => h | None => [] end)
           [] (JStr "b") []).
  - reflexivity.
  - vm_compute. reflexivity.
  - left. split; reflexivity.
  - vm_compute. reflexivity.
  - vm_compute. reflexivity.
Defined.
